(** * Weston desktop-shell and libweston-desktop: a shallow embedding

    The development follows [desktop-shell/shell.c] and
    [libweston/desktop/surface.c].  Each C function that a stated property
    depends on is rendered as a Rocq function of the same name; structures
    become records, nullable pointers become [option], intrusive [wl_list]s
    become lists and objects reached through pointers live in finite maps
    keyed by an identifier.

    Conventions.
    - [int32_t] and [int] values are integers [Z]; signed overflow is
      undefined in C and is not modelled.  [uint32_t] arithmetic is written
      with its wrap-around ([wrap_uint32]).
    - Global coordinates ([struct weston_coord_global], doubles in the
      source) are modelled on whole pixels, as [Z].  Surface-local
      coordinates ([struct weston_coord_surface]) come out of libweston's
      conversion through the transform of a view and are rationals, as
      every finite [double] is; that conversion and Wayland's conversion
      to fixed point are parameters ([libweston_ops]).
    - [malloc] and [strdup] may fail: the outcome of each allocation is an
      explicit boolean argument of the function that allocates. *)

From Stdlib Require Import ZArith Lia Bool List.
From Stdlib Require QArith.QArith_base.
From stdpp Require Import base option list gmap strings.
Import ListNotations.

Local Open Scope Z_scope.

(** Sequencing of computations that may fail: a [None] is a dereference the
    C code would not survive (a dangling or unexpectedly null pointer). *)
Notation "'do' x <- e ; k" :=
  (match e with Some x => k | None => None end)
  (at level 10, x name, e at level 100, k at level 200, only parsing).

(** ** Machine integers *)

Definition wrap_uint32 (z : Z) : Z := z mod 2 ^ 32.

(** Conversion of a [uint32_t] to [int32_t] (two's complement). *)
Definition int32_of_uint32 (z : Z) : Z :=
  let u := wrap_uint32 z in
  if u <? 2 ^ 31 then u else u - 2 ^ 32.

(** ** Geometry *)

(** [struct weston_coord_global] / [struct weston_coord_surface]. *)
Record weston_coord := mk_coord { cx : Z; cy : Z }.

Definition weston_coord_global_add (a b : weston_coord) : weston_coord :=
  mk_coord (cx a + cx b) (cy a + cy b).

Definition weston_coord_global_sub (a b : weston_coord) : weston_coord :=
  mk_coord (cx a - cx b) (cy a - cy b).

(** [struct weston_geometry]: the window geometry inside the surface. *)
Record weston_geometry := mk_geometry {
  geom_x : Z; geom_y : Z; geom_width : Z; geom_height : Z
}.

(** [struct weston_size]. *)
Record weston_size := mk_size { size_width : Z; size_height : Z }.

(** [pixman_rectangle32_t]: [x], [y] are [int32_t]; [width], [height] are
    [uint32_t]. *)
Record pixman_rectangle32_t := mk_rect {
  rect_x : Z; rect_y : Z; rect_width : Z; rect_height : Z
}.

(** [enum weston_desktop_shell_panel_position]. *)
Inductive panel_position_t :=
| WESTON_DESKTOP_SHELL_PANEL_POSITION_TOP
| WESTON_DESKTOP_SHELL_PANEL_POSITION_BOTTOM
| WESTON_DESKTOP_SHELL_PANEL_POSITION_LEFT
| WESTON_DESKTOP_SHELL_PANEL_POSITION_RIGHT.

(** [struct weston_output]: global position and size. *)
Record weston_output := mk_output {
  output_pos : weston_coord;
  output_width : Z;
  output_height : Z
}.

(** The panel of a [struct shell_output]: [panel_view] and [panel_surface]
    are set and cleared together, so they are one optional record holding
    the view's mapped flag and the panel surface's size. *)
Record shell_panel := mk_panel {
  panel_view_is_mapped : bool;
  panel_surface_width : Z;
  panel_surface_height : Z
}.

(** [struct shell_output]. *)
Record shell_output := mk_shell_output {
  so_output : weston_output;
  so_panel : option shell_panel
}.

(** [get_output_work_area] (shell.c:194).  The two [switch] fall-throughs
    (TOP into BOTTOM, LEFT into RIGHT) are written out. *)
Definition get_output_work_area (panel_position : panel_position_t)
    (sh_output : option shell_output) : pixman_rectangle32_t :=
  match sh_output with
  | None => mk_rect 0 0 0 0
  | Some so =>
    let output := so_output so in
    let area := mk_rect (cx (output_pos output)) (cy (output_pos output))
                        (wrap_uint32 (output_width output))
                        (wrap_uint32 (output_height output)) in
    match so_panel so with
    | None => area
    | Some p =>
      if negb (panel_view_is_mapped p) then area
      else
        match panel_position with
        | WESTON_DESKTOP_SHELL_PANEL_POSITION_TOP =>
            mk_rect (rect_x area) (rect_y area + panel_surface_height p)
                    (rect_width area)
                    (wrap_uint32 (rect_height area - panel_surface_height p))
        | WESTON_DESKTOP_SHELL_PANEL_POSITION_BOTTOM =>
            mk_rect (rect_x area) (rect_y area)
                    (rect_width area)
                    (wrap_uint32 (rect_height area - panel_surface_height p))
        | WESTON_DESKTOP_SHELL_PANEL_POSITION_LEFT =>
            mk_rect (rect_x area + panel_surface_width p) (rect_y area)
                    (wrap_uint32 (rect_width area - panel_surface_width p))
                    (rect_height area)
        | WESTON_DESKTOP_SHELL_PANEL_POSITION_RIGHT =>
            mk_rect (rect_x area) (rect_y area)
                    (wrap_uint32 (rect_width area - panel_surface_width p))
                    (rect_height area)
        end
    end
  end.

(** ** Desktop surfaces as the shell sees them *)

(** [enum weston_top_level_tiled_orientation]. *)
Inductive tiled_orientation :=
| WESTON_TOP_LEVEL_TILED_ORIENTATION_NONE
| WESTON_TOP_LEVEL_TILED_ORIENTATION_LEFT
| WESTON_TOP_LEVEL_TILED_ORIENTATION_RIGHT
| WESTON_TOP_LEVEL_TILED_ORIENTATION_TOP
| WESTON_TOP_LEVEL_TILED_ORIENTATION_BOTTOM.

(** The part of [struct weston_desktop_surface] and of its role
    implementation that shell.c reads and writes.  The role's getters
    ([weston_desktop_surface_get_maximized], ...) read the committed state;
    the setters ([weston_desktop_surface_set_size], ...) write the state
    that the next configure event sends to the client. *)
Record weston_desktop_surface_state := mk_ds {
  ds_has_geometry : bool;
  ds_geometry : weston_geometry;
  ds_bounding_box : weston_geometry;
  ds_maximized : bool;
  ds_fullscreen : bool;
  ds_min_size : weston_size;
  ds_max_size : weston_size;
  ds_sent_maximized : bool;
  ds_sent_resizing : bool;
  ds_sent_size : weston_size;
  ds_sent_orientation : tiled_orientation
}.

(** [weston_desktop_surface_get_geometry] (surface.c:718). *)
Definition weston_desktop_surface_get_geometry
    (ds : weston_desktop_surface_state) : weston_geometry :=
  if ds_has_geometry ds then ds_geometry ds else ds_bounding_box ds.

Definition weston_desktop_surface_set_size (ds : weston_desktop_surface_state)
    (width height : Z) : weston_desktop_surface_state :=
  mk_ds (ds_has_geometry ds) (ds_geometry ds) (ds_bounding_box ds)
        (ds_maximized ds) (ds_fullscreen ds) (ds_min_size ds) (ds_max_size ds)
        (ds_sent_maximized ds) (ds_sent_resizing ds) (mk_size width height)
        (ds_sent_orientation ds).

Definition weston_desktop_surface_set_resizing
    (ds : weston_desktop_surface_state) (resizing : bool)
    : weston_desktop_surface_state :=
  mk_ds (ds_has_geometry ds) (ds_geometry ds) (ds_bounding_box ds)
        (ds_maximized ds) (ds_fullscreen ds) (ds_min_size ds) (ds_max_size ds)
        (ds_sent_maximized ds) resizing (ds_sent_size ds)
        (ds_sent_orientation ds).


Definition weston_desktop_surface_set_orientation
    (ds : weston_desktop_surface_state) (o : tiled_orientation)
    : weston_desktop_surface_state :=
  mk_ds (ds_has_geometry ds) (ds_geometry ds) (ds_bounding_box ds)
        (ds_maximized ds) (ds_fullscreen ds) (ds_min_size ds) (ds_max_size ds)
        (ds_sent_maximized ds) (ds_sent_resizing ds) (ds_sent_size ds) o.

(** ** Shell surfaces *)

(** [struct shell_surface] with the fields of its [weston_surface] and
    view that the grab and maximize code uses.  Outputs are named by an
    identifier; [weston_output_get_shell_private] is the lookup in the
    shell's output table. *)
Record shell_surface := mk_shsurf {
  desktop_surface : option weston_desktop_surface_state;
  view_pos : weston_coord;
  surface_is_mapped : bool;
  surface_output : option positive;
  output : option positive;
  grabbed : bool;
  resize_edges : Z;
  orientation : tiled_orientation;
  state_fullscreen : bool;
  state_maximized : bool;
  state_lowered : bool
}.

Definition set_desktop_surface (sh : shell_surface)
    (ds : option weston_desktop_surface_state) : shell_surface :=
  mk_shsurf ds (view_pos sh) (surface_is_mapped sh) (surface_output sh)
            (output sh) (grabbed sh) (resize_edges sh) (orientation sh)
            (state_fullscreen sh) (state_maximized sh) (state_lowered sh).

Definition set_view_pos (sh : shell_surface) (c : weston_coord) : shell_surface :=
  mk_shsurf (desktop_surface sh) c (surface_is_mapped sh) (surface_output sh)
            (output sh) (grabbed sh) (resize_edges sh) (orientation sh)
            (state_fullscreen sh) (state_maximized sh) (state_lowered sh).


Definition set_grabbed (sh : shell_surface) (g : bool) : shell_surface :=
  mk_shsurf (desktop_surface sh) (view_pos sh) (surface_is_mapped sh)
            (surface_output sh) (output sh) g (resize_edges sh)
            (orientation sh) (state_fullscreen sh) (state_maximized sh)
            (state_lowered sh).

Definition set_resize_edges (sh : shell_surface) (e : Z) : shell_surface :=
  mk_shsurf (desktop_surface sh) (view_pos sh) (surface_is_mapped sh)
            (surface_output sh) (output sh) (grabbed sh) e
            (orientation sh) (state_fullscreen sh) (state_maximized sh)
            (state_lowered sh).

Definition set_orientation (sh : shell_surface) (o : tiled_orientation)
    : shell_surface :=
  mk_shsurf (desktop_surface sh) (view_pos sh) (surface_is_mapped sh)
            (surface_output sh) (output sh) (grabbed sh) (resize_edges sh) o
            (state_fullscreen sh) (state_maximized sh) (state_lowered sh).

(** [shsurf_is_max_or_fullscreen] (shell.c:76).  A shell surface whose
    desktop surface is gone has no state to read. *)
Definition shsurf_is_max_or_fullscreen (sh : shell_surface) : option bool :=
  do ds <- desktop_surface sh;
  Some (ds_maximized ds || ds_fullscreen ds).

(** ** Input devices and grabs *)

(** [enum weston_desktop_surface_edge] (libweston/desktop.h, whose values
    are those of the xdg-shell resize edges). *)
Definition WESTON_DESKTOP_SURFACE_EDGE_NONE : Z := 0.
Definition WESTON_DESKTOP_SURFACE_EDGE_TOP : Z := 1.
Definition WESTON_DESKTOP_SURFACE_EDGE_BOTTOM : Z := 2.
Definition WESTON_DESKTOP_SURFACE_EDGE_LEFT : Z := 4.
Definition WESTON_DESKTOP_SURFACE_EDGE_RIGHT : Z := 8.

(** [WESTON_DESKTOP_SHELL_CURSOR_MOVE] of the weston-desktop-shell
    protocol; a resize grab passes its edges as the cursor. *)
Definition WESTON_DESKTOP_SHELL_CURSOR_MOVE : Z := 7.

(** [struct weston_move_grab] (with its [struct shell_grab] base). *)
Record weston_move_grab := mk_move_grab {
  move_shsurf : option positive;
  move_delta : weston_coord;
  move_client_initiated : bool
}.

(** [struct weston_resize_grab]. *)
Record weston_resize_grab := mk_resize_grab {
  resize_shsurf : option positive;
  resize_grab_edges : Z;
  resize_width : Z;
  resize_height : Z
}.

(** [struct weston_touch_move_grab]. *)
Record weston_touch_move_grab := mk_touch_move_grab {
  touch_move_shsurf : option positive;
  touch_move_active : bool;
  touch_move_delta : weston_coord
}.

(** [struct weston_tablet_tool_move_grab]; [dx], [dy] are [wl_fixed_t]. *)
Record weston_tablet_tool_move_grab := mk_tool_move_grab {
  tool_move_shsurf : option positive;
  tool_move_dx : Z;
  tool_move_dy : Z
}.

(** What [pointer->grab] points to, by grab interface. *)
Inductive pointer_grab_t :=
| pointer_default_grab
| move_grab_interface (move : weston_move_grab)
| resize_grab_interface (resize : weston_resize_grab).

Inductive touch_grab_t :=
| touch_default_grab
| touch_move_grab_interface (move : weston_touch_move_grab).

Inductive tablet_tool_grab_t :=
| tablet_tool_default_grab
| tablet_tool_move_grab_interface (move : weston_tablet_tool_move_grab).

(** [struct weston_pointer]. *)
Record weston_pointer := mk_pointer {
  pointer_pos : weston_coord;
  pointer_grab_pos : weston_coord;
  pointer_grab : pointer_grab_t;
  pointer_focus : option positive
}.

(** [struct weston_touch]. *)
Record weston_touch := mk_touch {
  touch_grab_pos : weston_coord;
  touch_grab : touch_grab_t;
  touch_focus : option positive
}.

(** [struct weston_tablet_tool]. *)
Record weston_tablet_tool := mk_tool {
  tool_grab_pos : weston_coord;
  tool_grab : tablet_tool_grab_t;
  tool_focus : option positive
}.

(** [struct desktop_shell] together with the one seat whose devices the
    grab code drives: the shell surfaces and shell outputs by identifier,
    the seat's pointer, touch and tablet tool, whether libweston-desktop
    holds a popup grab on the seat, and the cursor hints sent to the helper
    client (latest first). *)
Record desktop_shell := mk_shell {
  panel_position : panel_position_t;
  child_desktop_shell : bool;
  grab_surface_view : option positive;
  shell_outputs : gmap positive shell_output;
  default_output : option positive;
  focused_output : option positive;
  surfaces : gmap positive shell_surface;
  pointer : weston_pointer;
  touch : weston_touch;
  tool : weston_tablet_tool;
  popup_grab : bool;
  grab_cursors : list Z
}.

Definition set_surfaces (w : desktop_shell)
    (m : gmap positive shell_surface) : desktop_shell :=
  mk_shell (panel_position w) (child_desktop_shell w) (grab_surface_view w)
           (shell_outputs w) (default_output w) (focused_output w) m
           (pointer w) (touch w) (tool w) (popup_grab w) (grab_cursors w).

Definition set_pointer (w : desktop_shell) (p : weston_pointer) : desktop_shell :=
  mk_shell (panel_position w) (child_desktop_shell w) (grab_surface_view w)
           (shell_outputs w) (default_output w) (focused_output w) (surfaces w)
           p (touch w) (tool w) (popup_grab w) (grab_cursors w).

Definition set_touch (w : desktop_shell) (t : weston_touch) : desktop_shell :=
  mk_shell (panel_position w) (child_desktop_shell w) (grab_surface_view w)
           (shell_outputs w) (default_output w) (focused_output w) (surfaces w)
           (pointer w) t (tool w) (popup_grab w) (grab_cursors w).

Definition set_tool (w : desktop_shell) (t : weston_tablet_tool) : desktop_shell :=
  mk_shell (panel_position w) (child_desktop_shell w) (grab_surface_view w)
           (shell_outputs w) (default_output w) (focused_output w) (surfaces w)
           (pointer w) (touch w) t (popup_grab w) (grab_cursors w).

Definition set_popup_grab (w : desktop_shell) (b : bool) : desktop_shell :=
  mk_shell (panel_position w) (child_desktop_shell w) (grab_surface_view w)
           (shell_outputs w) (default_output w) (focused_output w) (surfaces w)
           (pointer w) (touch w) (tool w) b (grab_cursors w).

Definition set_grab_cursors (w : desktop_shell) (l : list Z) : desktop_shell :=
  mk_shell (panel_position w) (child_desktop_shell w) (grab_surface_view w)
           (shell_outputs w) (default_output w) (focused_output w) (surfaces w)
           (pointer w) (touch w) (tool w) (popup_grab w) l.

(** [weston_output_get_shell_private]. *)
Definition weston_output_get_shell_private (w : desktop_shell)
    (o : option positive) : option shell_output :=
  do id <- o; shell_outputs w !! id.

(** [weston_seat_break_desktop_grabs] is libweston-desktop's (seat.c, not
    part of shell.c): it ends the popup grab that libweston-desktop holds
    on the seat. *)
Definition weston_seat_break_desktop_grabs (w : desktop_shell) : desktop_shell :=
  set_popup_grab w false.

(** [shell_grab_start] (shell.c:167). *)
Definition shell_grab_start (w : desktop_shell) (grab : pointer_grab_t)
    (shsurf : positive) (cursor : Z) : option desktop_shell :=
  let w1 := weston_seat_break_desktop_grabs w in
  do sh <- surfaces w1 !! shsurf;
  let w2 := set_surfaces w1 (<[shsurf := set_grabbed sh true]> (surfaces w1)) in
  let p := pointer w2 in
  let w3 := set_pointer w2 (mk_pointer (pointer_pos p) (pointer_grab_pos p)
                                       grab (pointer_focus p)) in
  if child_desktop_shell w3 then
    let p3 := pointer w3 in
    Some (set_pointer (set_grab_cursors w3 (cursor :: grab_cursors w3))
            (mk_pointer (pointer_pos p3) (pointer_grab_pos p3)
                        (pointer_grab p3) (grab_surface_view w3)))
  else Some w3.

(** [shell_touch_grab_start] (shell.c:252). *)
Definition shell_touch_grab_start (w : desktop_shell) (grab : touch_grab_t)
    (shsurf : positive) : option desktop_shell :=
  let w1 := weston_seat_break_desktop_grabs w in
  do sh <- surfaces w1 !! shsurf;
  let w2 := set_surfaces w1 (<[shsurf := set_grabbed sh true]> (surfaces w1)) in
  let t := touch w2 in
  let w3 := set_touch w2 (mk_touch (touch_grab_pos t) grab (touch_focus t)) in
  if child_desktop_shell w3 then
    let t3 := touch w3 in
    Some (set_touch w3 (mk_touch (touch_grab_pos t3) (touch_grab t3)
                                 (grab_surface_view w3)))
  else Some w3.

(** [shell_tablet_tool_grab_start] (shell.c:288). *)
Definition shell_tablet_tool_grab_start (w : desktop_shell)
    (grab : tablet_tool_grab_t) (shsurf : positive) : option desktop_shell :=
  let w1 := weston_seat_break_desktop_grabs w in
  do sh <- surfaces w1 !! shsurf;
  let w2 := set_surfaces w1 (<[shsurf := set_grabbed sh true]> (surfaces w1)) in
  let t := tool w2 in
  let w3 := set_tool w2 (mk_tool (tool_grab_pos t) grab (tool_focus t)) in
  if child_desktop_shell w3 then
    let t3 := tool w3 in
    Some (set_tool w3 (mk_tool (tool_grab_pos t3) (tool_grab t3)
                               (grab_surface_view w3)))
  else Some w3.

(** ** Interactive move *)

(** A C [double]: every finite value is a rational number. *)
Definition double : Type := QArith_base.Q.

(** A whole number of pixels as a [double]. *)
Definition double_of_int (z : Z) : double := QArith_base.inject_Z z.

(** The C conversion of a [double] to [int32_t], which drops the
    fraction (truncation towards zero). *)
Definition int32_of_double (d : double) : Z :=
  Z.quot (QArith_base.Qnum d) (Z.pos (QArith_base.Qden d)).

(** [struct weston_coord_surface]: a position in the coordinate system of
    a surface. *)
Record weston_coord_surface := mk_coord_surface {
  csx : double;
  csy : double
}.

(** What shell.c calls for surface coordinates and fixed point, whose code
    is libweston's and Wayland's and not among the sources.
    [weston_coord_global_to_surface] takes a global position through the
    inverse of the transform of a view (its position and, after
    [rotate_grab_motion], its rotation); the view is named by its shell
    surface.  [wl_fixed_from_double] rounds a [double] to [wl_fixed_t],
    24.8 signed fixed point. *)
Record libweston_ops := mk_ops {
  weston_coord_global_to_surface :
    positive -> weston_coord -> weston_coord_surface;
  wl_fixed_from_double : double -> Z
}.

(** [wl_fixed_to_int] is Wayland's: the C division of the fixed-point
    value by 256, which truncates towards zero. *)
Definition wl_fixed_to_int (f : Z) : Z := Z.quot f 256.

(** [surface_move] (shell.c:967).  The result is the C return value and the
    new state; [None] stands for a dereference the C code would not
    survive. *)
Definition surface_move (w : desktop_shell) (shsurf : option positive)
    (client_initiated malloc_ok : bool) : option (Z * desktop_shell) :=
  match shsurf with
  | None => Some (-1, w)
  | Some s =>
    do sh <- surfaces w !! s;
    if grabbed sh then Some (0, w) else
    do max_fs <- shsurf_is_max_or_fullscreen sh;
    if max_fs then Some (0, w) else
    if negb malloc_ok then Some (-1, w) else
    do ds <- desktop_surface sh;
    let move := mk_move_grab (Some s)
                  (weston_coord_global_sub (view_pos sh)
                                           (pointer_grab_pos (pointer w)))
                  client_initiated in
    let sh1 := set_orientation
                 (set_desktop_surface sh
                    (Some (weston_desktop_surface_set_orientation ds
                             WESTON_TOP_LEVEL_TILED_ORIENTATION_NONE)))
                 WESTON_TOP_LEVEL_TILED_ORIENTATION_NONE in
    let w1 := set_surfaces w (<[s := sh1]> (surfaces w)) in
    do w2 <- shell_grab_start w1 (move_grab_interface move) s
                          WESTON_DESKTOP_SHELL_CURSOR_MOVE;
    Some (0, w2)
  end.

(** [surface_touch_move] (shell.c:825). *)
Definition surface_touch_move (w : desktop_shell) (shsurf : option positive)
    (malloc_ok : bool) : option (Z * desktop_shell) :=
  match shsurf with
  | None => Some (-1, w)
  | Some s =>
    do sh <- surfaces w !! s;
    do max_fs <- shsurf_is_max_or_fullscreen sh;
    if max_fs then Some (0, w) else
    if negb malloc_ok then Some (-1, w) else
    let move := mk_touch_move_grab (Some s) true
                  (weston_coord_global_sub (view_pos sh)
                                           (touch_grab_pos (touch w))) in
    do w1 <- shell_touch_grab_start w (touch_move_grab_interface move) s;
    Some (0, w1)
  end.

(** [surface_tablet_tool_move] (shell.c:1114). *)
Definition surface_tablet_tool_move (lw : libweston_ops) (w : desktop_shell)
    (shsurf : option positive) (malloc_ok : bool)
    : option (Z * desktop_shell) :=
  match shsurf with
  | None => Some (-1, w)
  | Some s =>
    do sh <- surfaces w !! s;
    if state_fullscreen sh || state_maximized sh then Some (0, w) else
    if negb malloc_ok then Some (-1, w) else
    let offset := weston_coord_global_sub (view_pos sh)
                                          (tool_grab_pos (tool w)) in
    let move := mk_tool_move_grab (Some s)
                  (wl_fixed_from_double lw (double_of_int (cx offset)))
                  (wl_fixed_from_double lw (double_of_int (cy offset))) in
    do w1 <- shell_tablet_tool_grab_start w
            (tablet_tool_move_grab_interface move) s;
    Some (0, w1)
  end.

(** [constrain_position] (shell.c:874); [safety] is the constant 50 of the
    source.  [move_grab_motion] calls it after checking that the grab still
    has its shell surface and desktop surface. *)
Definition safety : Z := 50.

Definition constrain_position (w : desktop_shell) (move : weston_move_grab)
    : option weston_coord :=
  do s <- move_shsurf move;
  do sh <- surfaces w !! s;
  do ds <- desktop_surface sh;
  let c := weston_coord_global_add (pointer_pos (pointer w)) (move_delta move) in
  match panel_position w with
  | WESTON_DESKTOP_SHELL_PANEL_POSITION_TOP =>
    let shoutput := weston_output_get_shell_private w (surface_output sh) in
    let area := get_output_work_area (panel_position w) shoutput in
    let geometry := weston_desktop_surface_get_geometry ds in
    let bottom := cy c + geom_height geometry + geom_y geometry in
    let c1 := if bottom - safety <? rect_y area
              then mk_coord (cx c) (rect_y area + safety
                                    - geom_height geometry - geom_y geometry)
              else c in
    let c2 := if move_client_initiated move
                 && (cy c1 + geom_y geometry <? rect_y area)
              then mk_coord (cx c1) (rect_y area - geom_y geometry)
              else c1 in
    Some c2
  | _ => Some c
  end.

(** [weston_pointer_move] is libweston's: it moves the pointer to the
    position the motion event resolves to, which is the event here. *)
Definition weston_pointer_move (w : desktop_shell) (event : weston_coord)
    : desktop_shell :=
  let p := pointer w in
  set_pointer w (mk_pointer event (pointer_grab_pos p) (pointer_grab p)
                            (pointer_focus p)).

(** [move_grab_motion] (shell.c:913). *)
Definition move_grab_motion (w : desktop_shell) (move : weston_move_grab)
    (event : weston_coord) : option desktop_shell :=
  let w1 := weston_pointer_move w event in
  match move_shsurf move with
  | None => Some w1
  | Some s =>
    do sh <- surfaces w1 !! s;
    match desktop_surface sh with
    | None => Some w1
    | Some _ =>
      do pos <- constrain_position w1 move;
      Some (set_surfaces w1 (<[s := set_view_pos sh pos]> (surfaces w1)))
    end
  end.

(** ** Interactive resize *)

(** The size computation of [resize_grab_motion] (shell.c:1171-1198), from
    the grab, the two pointer positions in [wl_fixed_t] surface coordinates
    and the client's size limits. *)
Definition resize_grab_size (resize : weston_resize_grab)
    (from_x from_y to_x to_y : Z) (min_size0 max_size : weston_size)
    : weston_size :=
  let edges := resize_grab_edges resize in
  let width :=
    if negb (Z.land edges WESTON_DESKTOP_SURFACE_EDGE_LEFT =? 0)
    then resize_width resize + wl_fixed_to_int (from_x - to_x)
    else if negb (Z.land edges WESTON_DESKTOP_SURFACE_EDGE_RIGHT =? 0)
    then resize_width resize + wl_fixed_to_int (to_x - from_x)
    else resize_width resize in
  let height :=
    if negb (Z.land edges WESTON_DESKTOP_SURFACE_EDGE_TOP =? 0)
    then resize_height resize + wl_fixed_to_int (from_y - to_y)
    else if negb (Z.land edges WESTON_DESKTOP_SURFACE_EDGE_BOTTOM =? 0)
    then resize_height resize + wl_fixed_to_int (to_y - from_y)
    else resize_height resize in
  let min_size := mk_size (Z.max 1 (size_width min_size0))
                          (Z.max 1 (size_height min_size0)) in
  let width' :=
    if width <? size_width min_size then size_width min_size
    else if (0 <? size_width max_size) && (size_width max_size <? width)
    then size_width max_size
    else width in
  let height' :=
    if height <? size_height min_size then size_height min_size
    else if (0 <? size_height max_size) && (size_height max_size <? height)
    then size_height max_size
    else height in
  mk_size width' height'.

(** [resize_grab_motion] (shell.c:1143). *)
Definition resize_grab_motion (lw : libweston_ops) (w : desktop_shell)
    (resize : weston_resize_grab) (event : weston_coord)
    : option desktop_shell :=
  let w1 := weston_pointer_move w event in
  match resize_shsurf resize with
  | None => Some w1
  | Some s =>
    do sh <- surfaces w1 !! s;
    match desktop_surface sh with
    | None => Some w1
    | Some ds =>
      let from := weston_coord_global_to_surface lw s
                    (pointer_grab_pos (pointer w1)) in
      let to := weston_coord_global_to_surface lw s
                  (pointer_pos (pointer w1)) in
      let sz := resize_grab_size resize
                  (wl_fixed_from_double lw (csx from))
                  (wl_fixed_from_double lw (csy from))
                  (wl_fixed_from_double lw (csx to))
                  (wl_fixed_from_double lw (csy to))
                  (ds_min_size ds) (ds_max_size ds) in
      let ds' := weston_desktop_surface_set_size ds (size_width sz)
                                                 (size_height sz) in
      Some (set_surfaces w1
              (<[s := set_desktop_surface sh (Some ds')]> (surfaces w1)))
    end
  end.

(** [surface_resize] (shell.c:1253).  [edges] is a [uint32_t]. *)
Definition resize_topbottom : Z :=
  Z.lor WESTON_DESKTOP_SURFACE_EDGE_TOP WESTON_DESKTOP_SURFACE_EDGE_BOTTOM.
Definition resize_leftright : Z :=
  Z.lor WESTON_DESKTOP_SURFACE_EDGE_LEFT WESTON_DESKTOP_SURFACE_EDGE_RIGHT.
Definition resize_any : Z := Z.lor resize_topbottom resize_leftright.

Definition surface_resize (w : desktop_shell) (s : positive) (edges : Z)
    (malloc_ok : bool) : option (Z * desktop_shell) :=
  do sh <- surfaces w !! s;
  if grabbed sh then Some (0, w) else
  do max_fs <- shsurf_is_max_or_fullscreen sh;
  if max_fs then Some (0, w) else
  if (edges =? WESTON_DESKTOP_SURFACE_EDGE_NONE) || (resize_any <? edges)
     || (Z.land edges resize_topbottom =? resize_topbottom)
     || (Z.land edges resize_leftright =? resize_leftright)
  then Some (0, w) else
  if negb malloc_ok then Some (-1, w) else
  do ds <- desktop_surface sh;
  let geometry := weston_desktop_surface_get_geometry ds in
  let resize := mk_resize_grab (Some s) edges (geom_width geometry)
                               (geom_height geometry) in
  let ds1 := weston_desktop_surface_set_orientation
               (weston_desktop_surface_set_resizing ds true)
               WESTON_TOP_LEVEL_TILED_ORIENTATION_NONE in
  let sh1 := set_orientation
               (set_desktop_surface (set_resize_edges sh edges) (Some ds1))
               WESTON_TOP_LEVEL_TILED_ORIENTATION_NONE in
  let w1 := set_surfaces w (<[s := sh1]> (surfaces w)) in
  do w2 <- shell_grab_start w1 (resize_grab_interface resize) s edges;
  Some (0, w2).

(** ** Maximizing *)



(** [get_maximized_size] (shell.c:2261): the [uint32_t] extents of the work
    area are stored into [int32_t] variables. *)
Definition get_maximized_size (w : desktop_shell) (sh : shell_surface)
    : weston_size :=
  let area := get_output_work_area (panel_position w)
                (weston_output_get_shell_private w (output sh)) in
  mk_size (int32_of_uint32 (rect_width area))
          (int32_of_uint32 (rect_height area)).






(** ** Helper-client respawn *)

(** [struct timespec]. *)
Record timespec := mk_timespec { tv_sec : Z; tv_nsec : Z }.

(** [timespec_sub_to_msec] (shared/timespec-util.h): the difference
    [a - b] in whole milliseconds. *)
Definition timespec_to_nsec (a : timespec) : Z :=
  tv_sec a * 1000000000 + tv_nsec a.

Definition timespec_sub_to_msec (a b : timespec) : Z :=
  Z.quot (timespec_to_nsec a - timespec_to_nsec b) 1000000.

(** [shell->child]: [deathcount] is an [unsigned]. *)
Record shell_child := mk_child {
  deathstamp : timespec;
  deathcount : Z
}.

(** What [respawn_desktop_shell_process] does besides updating the
    counters: the message it logs, and whether it launches the client. *)
Inductive respawn_action :=
| respawning    (* "%s disconnected, respawning..." and launch *)
| giving_up.    (* "%s disconnected, giving up." and no launch *)

(** [respawn_desktop_shell_process] (shell.c:4002); [time] is what
    [weston_compositor_get_time] returns. *)
Definition respawn_desktop_shell_process (child : shell_child)
    (time : timespec) : shell_child * respawn_action :=
  let child1 :=
    if 30000 <? timespec_sub_to_msec time (deathstamp child)
    then mk_child time 0
    else child in
  let child2 := mk_child (deathstamp child1)
                         (wrap_uint32 (deathcount child1 + 1)) in
  if 5 <? deathcount child2 then (child2, giving_up)
  else (child2, respawning).

(** The helper client crashing at each of the given times, in order: the
    counters after each crash and what the shell did. *)
Fixpoint respawn_run (child : shell_child) (times : list timespec)
    : list (shell_child * respawn_action) :=
  match times with
  | [] => []
  | t :: ts =>
    let r := respawn_desktop_shell_process child t in
    r :: respawn_run (fst r) ts
  end.

(** * libweston-desktop: desktop surfaces and their views (surface.c) *)

(** [struct weston_desktop_view].  The views of the surfaces of a
    parent/child chain form trees: a view's [children_list] holds the views
    that child surfaces created under it, and [parent] points back.  A
    tree node carries the [weston_view] it wraps (which also names the
    node) and the desktop surface whose [view_list] it is linked in; a
    node's [parent] pointer is null exactly when the node is a root of the
    forest. *)
Inductive weston_desktop_view :=
| DesktopView (view : positive) (owner : positive)
              (children_list : list weston_desktop_view).

Definition dv_view (v : weston_desktop_view) : positive :=
  match v with DesktopView w _ _ => w end.
Definition dv_owner (v : weston_desktop_view) : positive :=
  match v with DesktopView _ s _ => s end.
Definition dv_children (v : weston_desktop_view) : list weston_desktop_view :=
  match v with DesktopView _ _ l => l end.

(** [struct weston_desktop_surface]: the fields that surface.c itself
    maintains.  [view_list] is read off the forest ([view_list_of]). *)
Record weston_desktop_surface := mk_dsurface {
  title : option string;
  app_id : option string;
  parent : option positive;
  dsurf_children_list : list positive;
  use_geometry : bool
}.

(** What leaves surface.c: the metadata signal (with the title and app-id
    its listeners find in the surface), memory handed back to [free],
    the role's [destroy] callback, the grabs ended on the seats, and the
    [weston_view]s destroyed. *)
Inductive desktop_event :=
| ev_metadata_signal (surface : positive) (t a : option string)
| ev_free_string (s : option string)
| ev_implementation_destroy (surface : positive)
| ev_end_grabs_on_seats (surface : positive)
| ev_weston_view_destroy (view : positive)
| ev_free_surface (surface : positive).

(** The state of libweston-desktop: the desktop surfaces by identifier,
    the forest of their views, and the events emitted so far, in order. *)
Record weston_desktop := mk_desktop {
  dsurfaces : gmap positive weston_desktop_surface;
  dviews : list weston_desktop_view;
  devents : list desktop_event
}.

(** All nodes of a forest, parents before children. *)
Fixpoint dv_nodes (v : weston_desktop_view) : list weston_desktop_view :=
  match v with
  | DesktopView _ _ l => v :: flat_map dv_nodes l
  end.

Definition forest_nodes (f : list weston_desktop_view)
    : list weston_desktop_view :=
  flat_map dv_nodes f.

(** [surface->view_list]: the views linked in the surface. *)
Definition view_list_of (d : weston_desktop) (s : positive)
    : list positive :=
  map dv_view (List.filter (fun v => Pos.eqb (dv_owner v) s) (forest_nodes (dviews d))).

(** [weston_desktop_view_destroy] (surface.c:127) on the tree of the view:
    the child views are destroyed first, then the view's own [weston_view]
    when the view has a parent.  The result lists the [weston_view]s
    destroyed, in the order of the calls. *)
Fixpoint weston_desktop_view_destroy_tree (has_parent : bool)
    (v : weston_desktop_view) : list positive :=
  match v with
  | DesktopView w _ l =>
    flat_map (weston_desktop_view_destroy_tree true) l
    ++ (if has_parent then [w] else [])
  end.

(** Unlinking the view named [w] ([wl_list_remove] of its [children_link]
    and [link], and [free]): the tree without that view and what hangs
    under it. *)
Fixpoint dv_remove (w : positive) (v : weston_desktop_view)
    : option weston_desktop_view :=
  match v with
  | DesktopView w' s l =>
    if Pos.eqb w' w then None
    else Some (DesktopView w' s (omap (dv_remove w) l))
  end.

(** The [weston_view]s that destroying the view named [w] destroys;
    [has_parent] tells whether the tree hangs in a view's
    [children_list]. *)
Fixpoint dv_destroyed (w : positive) (has_parent : bool)
    (v : weston_desktop_view) : list positive :=
  match v with
  | DesktopView w' s l =>
    if Pos.eqb w' w then weston_desktop_view_destroy_tree has_parent v
    else flat_map (dv_destroyed w true) l
  end.

Definition set_dsurfaces (d : weston_desktop)
    (m : gmap positive weston_desktop_surface) : weston_desktop :=
  mk_desktop m (dviews d) (devents d).

Definition emit (d : weston_desktop) (evs : list desktop_event)
    : weston_desktop :=
  mk_desktop (dsurfaces d) (dviews d) (devents d ++ evs).

(** [weston_desktop_view_destroy] (surface.c:127). *)
Definition weston_desktop_view_destroy (d : weston_desktop) (w : positive)
    : weston_desktop :=
  mk_desktop (dsurfaces d) (omap (dv_remove w) (dviews d))
             (devents d
              ++ map ev_weston_view_destroy
                     (flat_map (dv_destroyed w false) (dviews d))).

(** [wl_list_remove(&surface->children_link)]: the surface leaves whatever
    [children_list] it is linked in. *)
Definition remove_children_link (s : positive)
    (m : gmap positive weston_desktop_surface)
    : gmap positive weston_desktop_surface :=
  (fun ds => mk_dsurface (title ds) (app_id ds) (parent ds)
               (List.filter (fun c => negb (Pos.eqb c s)) (dsurf_children_list ds))
               (use_geometry ds)) <$> m.

(** [weston_desktop_surface_unset_relative_to] (surface.c:843). *)
Definition weston_desktop_surface_unset_relative_to (d : weston_desktop)
    (s : positive) : option weston_desktop :=
  do ds <- dsurfaces d !! s;
  match parent ds with
  | None => Some d
  | Some _ =>
    let ds1 := mk_dsurface (title ds) (app_id ds) None
                           (dsurf_children_list ds) false in
    let d1 := set_dsurfaces d
                (remove_children_link s (<[s := ds1]> (dsurfaces d))) in
    Some (fold_left weston_desktop_view_destroy (view_list_of d1 s) d1)
  end.

(** The loop over the children in [weston_desktop_surface_destroy]. *)
Fixpoint unset_children (d : weston_desktop) (children : list positive)
    : option weston_desktop :=
  match children with
  | [] => Some d
  | c :: cs =>
    do d1 <- weston_desktop_surface_unset_relative_to d c;
    unset_children d1 cs
  end.

(** [weston_desktop_surface_destroy] (surface.c:143). *)
Definition weston_desktop_surface_destroy (d : weston_desktop) (s : positive)
    : option weston_desktop :=
  do ds0 <- dsurfaces d !! s;
  let d1 := emit d [ev_implementation_destroy s] in
  do d2 <- weston_desktop_surface_unset_relative_to d1 s;
  do ds <- dsurfaces d2 !! s;
  do d3 <- unset_children d2 (dsurf_children_list ds);
  let d4 := fold_left weston_desktop_view_destroy (view_list_of d3 s) d3 in
  let d5 := emit d4 [ev_end_grabs_on_seats s] in
  do ds5 <- dsurfaces d5 !! s;
  Some (emit (set_dsurfaces d5 (delete s (dsurfaces d5)))
          [ev_free_string (title ds5); ev_free_string (app_id ds5);
           ev_free_surface s]).

(** [weston_desktop_surface_set_title] (surface.c:748); [strdup_ok] tells
    whether [strdup] returned a copy. *)
Definition weston_desktop_surface_set_title (d : weston_desktop)
    (s : positive) (new_title : string) (strdup_ok : bool)
    : option weston_desktop :=
  do ds <- dsurfaces d !! s;
  if negb strdup_ok then Some d else
  let old := title ds in
  let ds1 := mk_dsurface (Some new_title) (app_id ds) (parent ds)
                         (dsurf_children_list ds) (use_geometry ds) in
  let d1 := set_dsurfaces d (<[s := ds1]> (dsurfaces d)) in
  Some (emit d1 [ev_metadata_signal s (title ds1) (app_id ds1);
                 ev_free_string old]).

(** [weston_desktop_surface_set_app_id] (surface.c:764). *)
Definition weston_desktop_surface_set_app_id (d : weston_desktop)
    (s : positive) (new_app_id : string) (strdup_ok : bool)
    : option weston_desktop :=
  do ds <- dsurfaces d !! s;
  if negb strdup_ok then Some d else
  let old := app_id ds in
  let ds1 := mk_dsurface (title ds) (Some new_app_id) (parent ds)
                         (dsurf_children_list ds) (use_geometry ds) in
  let d1 := set_dsurfaces d (<[s := ds1]> (dsurfaces d)) in
  Some (emit d1 [ev_metadata_signal s (title ds1) (app_id ds1);
                 ev_free_string old]).

(** * Stacking, activation and focus (shell.c) *)

(** What [surface->committed] points to. *)
Inductive committed_t :=
| committed_null
| weston_desktop_surface_committed
| focus_surface_committed
| black_surface_committed
| committed_other.

Definition committed_eqb (a b : committed_t) : bool :=
  match a, b with
  | committed_null, committed_null
  | weston_desktop_surface_committed, weston_desktop_surface_committed
  | focus_surface_committed, focus_surface_committed
  | black_surface_committed, black_surface_committed
  | committed_other, committed_other => true
  | _, _ => false
  end.

(** [struct weston_surface]: the commit handler that tells the surface's
    role, the user data of its desktop surface (the shell surface), the
    parent when the surface is a sub-surface, and its views. *)
Record weston_surface := mk_surface {
  committed : committed_t;
  desktop_user_data : option positive;
  subsurface_parent : option positive;
  surface_views : list positive
}.

(** [struct weston_view]. *)
Record weston_view := mk_view {
  view_surface : positive;
  is_mapped : bool
}.

(** The compositor layers that the shell stacks views in. *)
Inductive layer_id :=
| fullscreen_layer
| workspace_layer
| minimized_layer
| panel_layer
| background_layer
| lock_layer
| input_panel_layer.

Definition layer_eqb (a b : layer_id) : bool :=
  match a, b with
  | fullscreen_layer, fullscreen_layer
  | workspace_layer, workspace_layer
  | minimized_layer, minimized_layer
  | panel_layer, panel_layer
  | background_layer, background_layer
  | lock_layer, lock_layer
  | input_panel_layer, input_panel_layer => true
  | _, _ => false
  end.

Definition all_layers : list layer_id :=
  [fullscreen_layer; workspace_layer; minimized_layer; panel_layer;
   background_layer; lock_layer; input_panel_layer].

(** A [struct weston_layer_entry *]: the head of a layer's view list or the
    link of a view. *)
Inductive layer_entry :=
| layer_view_list (l : layer_id)
| view_layer_link (v : positive).

(** [struct shell_surface] as the stacking code uses it.  The desktop
    surface contributes its fullscreen state and its views (see
    [weston_desktop_view]). *)
Record desktop_role := mk_role {
  role_fullscreen : bool;
  role_view_list : list weston_desktop_view
}.

Record stack_surface := mk_stack_surface {
  ss_desktop_surface : option desktop_role;
  ss_view : positive;
  ss_output : option positive;
  ss_fullscreen_output : option positive;
  ss_black_view : option positive;
  ss_lowered : bool;
  ss_children_list : list positive;
  ss_focus_count : Z
}.

(** [struct focus_state]; [fs_surface_destroy_listener] names the surface
    whose destroy signal the listener is linked in. *)
Record focus_state := mk_focus_state {
  fs_seat : positive;
  keyboard_focus : option positive;
  fs_surface_destroy_listener : option positive
}.

(** A [struct weston_seat]: its [struct shell_seat], when it has one, with
    the [focused_surface], and the surface with keyboard focus. *)
Record weston_seat := mk_seat {
  shseat_focused_surface : option (option positive);
  seat_keyboard_focus : option positive
}.

Inductive animation_type :=
| ANIMATION_NONE
| ANIMATION_ZOOM
| ANIMATION_FADE
| ANIMATION_DIM_LAYER.

(** The shell with its one workspace, and the objects it points to, by
    identifier.  [next_id] is the identifier of the next allocation. *)
Record shell_state := mk_state {
  st_surfaces : gmap positive weston_surface;
  st_views : gmap positive weston_view;
  st_shsurfs : gmap positive stack_surface;
  st_seats : gmap positive weston_seat;
  st_focus_states : gmap positive focus_state;
  st_layers : layer_id -> list positive;
  ws_focus_list : list positive;
  ws_fsurf_front : option positive;
  ws_fsurf_back : option positive;
  ws_focus_animation : bool;
  focus_animation_type : animation_type;
  next_id : positive
}.

(** Dereferences.  An identifier that names no object reads as an object
    with null fields. *)
Definition get_surface (h : shell_state) (s : positive) : weston_surface :=
  default (mk_surface committed_null None None []) (st_surfaces h !! s).

Definition get_view (h : shell_state) (v : positive) : weston_view :=
  default (mk_view v false) (st_views h !! v).

Definition get_shsurf (h : shell_state) (sh : positive) : stack_surface :=
  default (mk_stack_surface None sh None None None false [] 0)
          (st_shsurfs h !! sh).

Definition get_seat (h : shell_state) (seat : positive) : weston_seat :=
  default (mk_seat None None) (st_seats h !! seat).

Definition get_focus_state (h : shell_state) (st : positive) : focus_state :=
  default (mk_focus_state st None None) (st_focus_states h !! st).

Definition set_views (h : shell_state) (m : gmap positive weston_view)
    : shell_state :=
  mk_state (st_surfaces h) m (st_shsurfs h) (st_seats h) (st_focus_states h)
           (st_layers h) (ws_focus_list h) (ws_fsurf_front h)
           (ws_fsurf_back h) (ws_focus_animation h) (focus_animation_type h)
           (next_id h).

Definition set_shsurfs (h : shell_state) (m : gmap positive stack_surface)
    : shell_state :=
  mk_state (st_surfaces h) (st_views h) m (st_seats h) (st_focus_states h)
           (st_layers h) (ws_focus_list h) (ws_fsurf_front h)
           (ws_fsurf_back h) (ws_focus_animation h) (focus_animation_type h)
           (next_id h).

Definition set_seats (h : shell_state) (m : gmap positive weston_seat)
    : shell_state :=
  mk_state (st_surfaces h) (st_views h) (st_shsurfs h) m (st_focus_states h)
           (st_layers h) (ws_focus_list h) (ws_fsurf_front h)
           (ws_fsurf_back h) (ws_focus_animation h) (focus_animation_type h)
           (next_id h).

Definition set_focus_states (h : shell_state)
    (m : gmap positive focus_state) (l : list positive) : shell_state :=
  mk_state (st_surfaces h) (st_views h) (st_shsurfs h) (st_seats h) m
           (st_layers h) l (ws_fsurf_front h)
           (ws_fsurf_back h) (ws_focus_animation h) (focus_animation_type h)
           (next_id h).

Definition set_layers (h : shell_state) (f : layer_id -> list positive)
    : shell_state :=
  mk_state (st_surfaces h) (st_views h) (st_shsurfs h) (st_seats h)
           (st_focus_states h) f (ws_focus_list h) (ws_fsurf_front h)
           (ws_fsurf_back h) (ws_focus_animation h) (focus_animation_type h)
           (next_id h).

Definition set_focus_animation (h : shell_state) (b : bool) : shell_state :=
  mk_state (st_surfaces h) (st_views h) (st_shsurfs h) (st_seats h)
           (st_focus_states h) (st_layers h) (ws_focus_list h)
           (ws_fsurf_front h) (ws_fsurf_back h) b (focus_animation_type h)
           (next_id h).

(** A new curtain ([weston_shell_utils_curtain_create]): a surface with
    the given commit handler and one view of it. *)
Definition curtain_create (h : shell_state) (c : committed_t)
    : positive * shell_state :=
  let s := next_id h in
  let v := Pos.succ s in
  (v, mk_state (<[s := mk_surface c None None [v]]> (st_surfaces h))
               (<[v := mk_view s false]> (st_views h))
               (st_shsurfs h) (st_seats h) (st_focus_states h) (st_layers h)
               (ws_focus_list h) (ws_fsurf_front h) (ws_fsurf_back h)
               (ws_focus_animation h) (focus_animation_type h)
               (Pos.succ v)).

(** ** Layers *)

Definition remove_view (v : positive) (l : list positive) : list positive :=
  List.filter (fun x => negb (Pos.eqb x v)) l.

(** [wl_list_insert(&w->layer_link.link, &v->layer_link.link)]: [v] comes
    right after [w]. *)
Fixpoint insert_after (w v : positive) (l : list positive) : list positive :=
  match l with
  | [] => []
  | x :: r => if Pos.eqb x w then x :: v :: r else x :: insert_after w v r
  end.

Definition set_is_mapped (h : shell_state) (v : positive) (b : bool)
    : shell_state :=
  set_views h (<[v := mk_view (view_surface (get_view h v)) b]> (st_views h)).

(** [weston_view_move_to_layer] is libweston's: the view leaves its layer;
    with a null entry it is unmapped, otherwise it is linked right after the
    entry and is mapped.  Moving a view after its own link does nothing. *)
Definition weston_view_move_to_layer (h : shell_state) (v : positive)
    (entry : option layer_entry) : shell_state :=
  match entry with
  | None =>
    set_is_mapped (set_layers h (fun l => remove_view v (st_layers h l)))
                  v false
  | Some (layer_view_list l0) =>
    set_is_mapped
      (set_layers h (fun l => if layer_eqb l l0
                              then v :: remove_view v (st_layers h l)
                              else remove_view v (st_layers h l)))
      v true
  | Some (view_layer_link w) =>
    if Pos.eqb w v then h
    else
      set_is_mapped
        (set_layers h (fun l => insert_after w v
                                  (remove_view v (st_layers h l))))
        v true
  end.

Definition in_layer (h : shell_state) (l : layer_id) (v : positive) : bool :=
  existsb (Pos.eqb v) (st_layers h l).

(** [view->layer_link.layer]. *)
Definition layer_of (h : shell_state) (v : positive) : option layer_id :=
  find (fun l => in_layer h l v) all_layers.

(** The view before [v] in a list, if any. *)
Fixpoint view_before (v : positive) (l : list positive) : option positive :=
  match l with
  | x :: ((y :: _) as r) => if Pos.eqb y v then Some x else view_before v r
  | _ => None
  end.

(** [wl_container_of(parent_pos->prev, child_pos, link)] in
    [weston_desktop_view_propagate_layer]: the entry before the parent's
    link, which is the link of the view above it or the head of the layer. *)
Definition entry_before (h : shell_state) (v : positive)
    : option layer_entry :=
  do l <- layer_of h v;
  match view_before v (st_layers h l) with
  | Some x => Some (view_layer_link x)
  | None => Some (layer_view_list l)
  end.

(** [weston_desktop_view_propagate_layer] (surface.c:448). *)
Fixpoint weston_desktop_view_propagate_layer (h : shell_state)
    (v : weston_desktop_view) : shell_state :=
  match v with
  | DesktopView w _ l =>
    fold_right
      (fun child acc =>
         weston_desktop_view_propagate_layer
           (weston_view_move_to_layer acc (dv_view child) (entry_before acc w))
           child)
      h l
  end.

(** [weston_desktop_surface_propagate_layer] (surface.c:469). *)
Definition weston_desktop_surface_propagate_layer (h : shell_state)
    (role : desktop_role) : shell_state :=
  fold_left weston_desktop_view_propagate_layer (role_view_list role) h.

(** ** Surfaces and their shell surfaces *)

(** [weston_surface_get_main_surface] is libweston's: it follows the
    sub-surface parents up to the surface that is not a sub-surface.  The
    walk is bounded by the number of surfaces. *)
Fixpoint main_surface_walk (fuel : nat) (h : shell_state) (s : positive)
    : option positive :=
  match subsurface_parent (get_surface h s) with
  | None => Some s
  | Some p =>
    match fuel with
    | O => None
    | S n => main_surface_walk n h p
    end
  end.

Definition weston_surface_get_main_surface (h : shell_state)
    (s : option positive) : option positive :=
  do x <- s; main_surface_walk (size (st_surfaces h)) h x.

(** [get_shell_surface] (shell.c:1905), with
    [weston_surface_is_desktop_surface] (surface.c:353). *)
Definition get_shell_surface (h : shell_state) (s : positive)
    : option positive :=
  if committed_eqb (committed (get_surface h s))
                   weston_desktop_surface_committed
  then desktop_user_data (get_surface h s)
  else None.

(** [is_focus_view] (shell.c:411). *)
Definition is_focus_view (h : shell_state) (v : positive) : bool :=
  committed_eqb (committed (get_surface h (view_surface (get_view h v))))
                focus_surface_committed.

(** [get_default_view] (shell.c:119). *)
Definition get_default_view (h : shell_state) (s : option positive)
    : option positive :=
  do x <- s;
  match surface_views (get_surface h x) with
  | [] => None
  | first :: _ =>
    match get_shell_surface h x with
    | Some sh => Some (ss_view (get_shsurf h sh))
    | None =>
      match find (fun v => is_mapped (get_view h v))
                 (surface_views (get_surface h x)) with
      | Some v => Some v
      | None => Some first
      end
    end
  end.

Definition option_pos_eqb (a b : option positive) : bool :=
  match a, b with
  | Some x, Some y => Pos.eqb x y
  | None, None => true
  | _, _ => false
  end.

Definition update_shsurf (h : shell_state) (sh : positive)
    (f : stack_surface -> stack_surface) : shell_state :=
  set_shsurfs h (<[sh := f (get_shsurf h sh)]> (st_shsurfs h)).

Definition set_lowered (b : bool) (x : stack_surface) : stack_surface :=
  mk_stack_surface (ss_desktop_surface x) (ss_view x) (ss_output x)
                   (ss_fullscreen_output x) (ss_black_view x) b
                   (ss_children_list x) (ss_focus_count x).

Definition set_black_view (b : option positive) (x : stack_surface)
    : stack_surface :=
  mk_stack_surface (ss_desktop_surface x) (ss_view x) (ss_output x)
                   (ss_fullscreen_output x) b (ss_lowered x)
                   (ss_children_list x) (ss_focus_count x).

Definition add_focus_count (d : Z) (x : stack_surface) : stack_surface :=
  mk_stack_surface (ss_desktop_surface x) (ss_view x) (ss_output x)
                   (ss_fullscreen_output x) (ss_black_view x) (ss_lowered x)
                   (ss_children_list x) (ss_focus_count x + d).

(** ** Lowering the fullscreen layer *)

(** The body of the loop of [lower_fullscreen_layer] for one view. *)
Definition lower_fullscreen_view (lowering_output : option positive)
    (h : shell_state) (v : positive) : shell_state :=
  match get_shell_surface h (view_surface (get_view h v)) with
  | None => h
  | Some sh =>
    let x := get_shsurf h sh in
    match lowering_output with
    | Some _ =>
      if negb (option_pos_eqb (ss_fullscreen_output x) lowering_output)
      then h
      else
        let h1 := match ss_black_view x with
                  | Some b => weston_view_move_to_layer h b None
                  | None => h
                  end in
        let h2 := weston_view_move_to_layer h1 v
                    (Some (layer_view_list workspace_layer)) in
        update_shsurf h2 sh (set_lowered true)
    | None =>
      let h1 := match ss_black_view x with
                | Some b => weston_view_move_to_layer h b None
                | None => h
                end in
      let h2 := weston_view_move_to_layer h1 v
                  (Some (layer_view_list workspace_layer)) in
      update_shsurf h2 sh (set_lowered true)
    end
  end.

(** [lower_fullscreen_layer] (shell.c:3425): the views of the fullscreen
    layer are visited from the last to the first. *)
Definition lower_fullscreen_layer (h : shell_state)
    (lowering_output : option positive) : shell_state :=
  fold_left (lower_fullscreen_view lowering_output)
            (rev (st_layers h fullscreen_layer)) h.

(** ** Focus states *)

(** [focus_state_set_focus] (shell.c:601). *)
Definition focus_state_set_focus (h : shell_state) (st : positive)
    (surface : option positive) : shell_state :=
  let x := get_focus_state h st in
  set_focus_states h
    (<[st := mk_focus_state (fs_seat x) surface surface]> (st_focus_states h))
    (ws_focus_list h).

(** [ensure_focus_state] (shell.c:585) with [focus_state_create]
    (shell.c:560); [malloc_ok] tells whether the allocation of a new state
    succeeds.  A new state goes to the front of the workspace's list. *)
Definition ensure_focus_state (h : shell_state) (seat : positive)
    (malloc_ok : bool) : option positive * shell_state :=
  match find (fun st => Pos.eqb (fs_seat (get_focus_state h st)) seat)
             (ws_focus_list h) with
  | Some st => (Some st, h)
  | None =>
    if negb malloc_ok then (None, h)
    else
      let st := next_id h in
      (Some st,
       mk_state (st_surfaces h) (st_views h) (st_shsurfs h) (st_seats h)
                (<[st := mk_focus_state seat None None]> (st_focus_states h))
                (st_layers h) (st :: ws_focus_list h) (ws_fsurf_front h)
                (ws_fsurf_back h) (ws_focus_animation h)
                (focus_animation_type h) (Pos.succ st))
  end.

(** [focus_state_destroy] (shell.c:492) after
    [wl_list_remove(&state->link)]. *)
Definition focus_state_remove_and_destroy (h : shell_state) (st : positive)
    : shell_state :=
  set_focus_states h (delete st (st_focus_states h))
                   (List.filter (fun x => negb (Pos.eqb x st)) (ws_focus_list h)).

(** ** Activation *)

Definition WESTON_ACTIVATE_FLAG_CONFIGURE : Z := 1.

(** [get_last_child] (shell.c:3457). *)
Definition get_last_child (h : shell_state) (sh : positive)
    : option positive :=
  find (fun c => is_mapped (get_view h (ss_view (get_shsurf h c))))
       (rev (ss_children_list (get_shsurf h sh))).

(** [shell_surface_calculate_layer_link] (shell.c:1478). *)
Definition shell_surface_calculate_layer_link (h : shell_state)
    (sh : positive) : option layer_entry :=
  do role <- ss_desktop_surface (get_shsurf h sh);
  if role_fullscreen role && negb (ss_lowered (get_shsurf h sh))
  then Some (layer_view_list fullscreen_layer)
  else Some (layer_view_list workspace_layer).

(** [shell_surface_update_layer] (shell.c:1506). *)
Definition shell_surface_update_layer (h : shell_state) (sh : positive)
    : option shell_state :=
  do new_layer_link <- shell_surface_calculate_layer_link h sh;
  do role <- ss_desktop_surface (get_shsurf h sh);
  let h1 := weston_view_move_to_layer h (ss_view (get_shsurf h sh))
                                      (Some new_layer_link) in
  Some (weston_desktop_surface_propagate_layer h1 role).

(** [shell_set_view_fullscreen] (shell.c:1707); [curtain_ok] tells whether
    the black curtain can be created when there is none yet. *)
Definition shell_set_view_fullscreen (h : shell_state) (sh : positive)
    (curtain_ok : bool) : option shell_state :=
  let x := get_shsurf h sh in
  do fs_output <- ss_fullscreen_output x;
  do role <- ss_desktop_surface x;
  if negb (role_fullscreen role) then None else
  let h1 := weston_view_move_to_layer h (ss_view x)
              (Some (layer_view_list fullscreen_layer)) in
  do created <-
    match ss_black_view x with
    | Some b => Some (b, h1)
    | None =>
      if curtain_ok then
        let '(b, h2) := curtain_create h1 black_surface_committed in
        Some (b, update_shsurf h2 sh (set_black_view (Some b)))
      else None
    end;
  let '(b, h2) := created in
  let h3 := weston_view_move_to_layer h2 b
              (Some (view_layer_link (ss_view x))) in
  Some (update_shsurf h3 sh (set_lowered false)).

(** [animate_focus_change] (shell.c:459). *)
Definition animate_focus_change (h : shell_state)
    (from to : option positive) : option shell_state :=
  do front <- ws_fsurf_front h;
  do back <- ws_fsurf_back h;
  let same := match from with
              | Some f => option_pos_eqb from to
              | None => false
              end in
  match focus_animation_type h with
  | ANIMATION_NONE => Some h
  | _ =>
    if same then Some h else
    let h0 := set_focus_animation h false in
    match to with
    | Some t =>
      let h1 := weston_view_move_to_layer h0 front
                  (Some (view_layer_link t)) in
      let h2 := match from with
                | Some f => weston_view_move_to_layer h1 back
                              (Some (view_layer_link f))
                | None => weston_view_move_to_layer h1 back
                            (Some (layer_view_list workspace_layer))
                end in
      Some (set_focus_animation h2 true)
    | None =>
      let h1 := weston_view_move_to_layer h0 front
                  (Some (layer_view_list workspace_layer)) in
      let h2 := weston_view_move_to_layer h1 back None in
      Some (set_focus_animation h2 true)
    end
  end.

(** [weston_view_activate_input] is libweston's: the seat's keyboard focus
    goes to the view's surface. *)
Definition weston_view_activate_input (h : shell_state) (v seat : positive)
    : shell_state :=
  set_seats h (<[seat := mk_seat (shseat_focused_surface (get_seat h seat))
                                 (Some (view_surface (get_view h v)))]>
                 (st_seats h)).

(** The part of [activate] that moves the seat's [focused_surface]
    (shell.c:3499-3510).  [shell_surface_activate] and
    [shell_surface_deactivate] count the seats that focus a surface; the
    activated state they then send to the client is the client's to see. *)
Definition activate_focused_surface (h : shell_state)
    (seat main_surface sh : positive) : option shell_state :=
  match shseat_focused_surface (get_seat h seat) with
  | None => Some h
  | Some focused =>
    do h1 <-
      match focused with
      | Some f =>
        if Pos.eqb f main_surface then Some h
        else
          do current_focus <- get_shell_surface h f;
          Some (update_shsurf h current_focus (add_focus_count (-1)))
      | None => Some h
      end;
    if option_pos_eqb focused (Some main_surface) then Some h1
    else
      let h2 := update_shsurf h1 sh (add_focus_count 1) in
      Some (set_seats h2
              (<[seat := mk_seat (Some (Some main_surface))
                                 (seat_keyboard_focus (get_seat h2 seat))]>
                 (st_seats h2)))
  end.

(** The allocations that an activation may need. *)
Record alloc_oracle := mk_oracle {
  focus_state_malloc_ok : bool;
  curtain_create_ok : bool
}.

(** [activate] (shell.c:3469) once the shell surface [sh] of the view's
    main surface has no mapped child. *)
Definition activate_here (h : shell_state) (v seat : positive) (flags : Z)
    (oracle : alloc_oracle) (main_surface sh : positive)
    : option shell_state :=
  let es := view_surface (get_view h v) in
  let h1 := match ss_output (get_shsurf h sh) with
            | Some o => lower_fullscreen_layer h (Some o)
            | None => h
            end in
  let h2 := weston_view_activate_input h1 v seat in
  do h3 <- activate_focused_surface h2 seat main_surface sh;
  match ensure_focus_state h3 seat (focus_state_malloc_ok oracle) with
  | (None, h4) => Some h4
  | (Some state, h4) =>
    let old_es := keyboard_focus (get_focus_state h4 state) in
    let h5 := focus_state_set_focus h4 state (Some es) in
    do role <- ss_desktop_surface (get_shsurf h5 sh);
    do h6 <-
      (if role_fullscreen role
          && negb (Z.land flags WESTON_ACTIVATE_FLAG_CONFIGURE =? 0)
       then shell_set_view_fullscreen h5 sh (curtain_create_ok oracle)
       else Some h5);
    do h7 <- shell_surface_update_layer h6 sh;
    match focus_animation_type h7 with
    | ANIMATION_NONE => Some h7
    | ANIMATION_DIM_LAYER =>
      animate_focus_change h7 (get_default_view h7 old_es)
                           (get_default_view h7 (Some es))
    | _ => None
    end
  end.

(** [activate] (shell.c:3469).  Each level of the recursion into the last
    mapped child uses one unit of [fuel]. *)
Fixpoint activate (fuel : nat) (h : shell_state) (v seat : positive)
    (flags : Z) (oracle : alloc_oracle) : option shell_state :=
  let es := view_surface (get_view h v) in
  do main_surface <- weston_surface_get_main_surface h (Some es);
  do sh <- get_shell_surface h main_surface;
  match get_last_child h sh with
  | Some shsurf_child =>
    match fuel with
    | O => None
    | S n => activate n h (ss_view (get_shsurf h shsurf_child)) seat flags
                      oracle
    end
  | None => activate_here h v seat flags oracle main_surface sh
  end.

(** ** Destruction of a focused surface *)

(** The search of [focus_state_surface_destroy] (shell.c:523-535): the
    first view of the workspace layer that is not a view of the main
    surface, is not a focus view and has a shell surface. *)
Definition next_focus_candidate (h : shell_state)
    (main_surface : option positive) : option positive :=
  find (fun v =>
          negb (option_pos_eqb (Some (view_surface (get_view h v)))
                               main_surface)
          && negb (is_focus_view h v)
          && match get_shell_surface h (view_surface (get_view h v)) with
             | Some _ => true
             | None => false
             end)
       (st_layers h workspace_layer).

(** [focus_state_surface_destroy] (shell.c:511), the listener of the
    destroy signal of [state->keyboard_focus]. *)
Definition focus_state_surface_destroy (fuel : nat) (h : shell_state)
    (state : positive) (oracle : alloc_oracle) : option shell_state :=
  let x := get_focus_state h state in
  let main_surface := weston_surface_get_main_surface h (keyboard_focus x) in
  let next0 := next_focus_candidate h main_surface in
  let next := if negb (option_pos_eqb main_surface (keyboard_focus x))
              then get_default_view h main_surface
              else next0 in
  match next with
  | Some n =>
    let h1 := set_focus_states h
                (<[state := mk_focus_state (fs_seat x) None None]>
                   (st_focus_states h))
                (ws_focus_list h) in
    activate fuel h1 n (fs_seat x) WESTON_ACTIVATE_FLAG_CONFIGURE oracle
  | None =>
    do h1 <-
      match focus_animation_type h with
      | ANIMATION_NONE => Some h
      | _ => animate_focus_change h (get_default_view h main_surface) None
      end;
    Some (focus_state_remove_and_destroy h1 state)
  end.

(** * Vocabulary of the properties *)

(** ** Resize edges *)

(** The edge sets that the specification calls malformed: the empty set, a
    set with a bit outside the four edges, and a set that holds both edges
    of an axis. *)
Definition has_edge (edges e : Z) : Prop := Z.land edges e <> 0.

Definition malformed_edges (edges : Z) : Prop :=
  edges = WESTON_DESKTOP_SURFACE_EDGE_NONE
  \/ Z.land edges resize_any <> edges
  \/ (has_edge edges WESTON_DESKTOP_SURFACE_EDGE_LEFT
      /\ has_edge edges WESTON_DESKTOP_SURFACE_EDGE_RIGHT)
  \/ (has_edge edges WESTON_DESKTOP_SURFACE_EDGE_TOP
      /\ has_edge edges WESTON_DESKTOP_SURFACE_EDGE_BOTTOM).

(** An output at (0,0) of 1000x800 with a mapped 30-pixel panel, and a
    400x300 window at (100,100) on it. *)
Definition example_output : shell_output :=
  mk_shell_output (mk_output (mk_coord 0 0) 1000 800)
                  (Some (mk_panel true 1000 30)).

Definition example_ds : weston_desktop_surface_state :=
  mk_ds true (mk_geometry 0 0 400 300) (mk_geometry 0 0 400 300)
        false false (mk_size 0 0) (mk_size 0 0)
        false false (mk_size 0 0) WESTON_TOP_LEVEL_TILED_ORIENTATION_NONE.

Definition example_shsurf : shell_surface :=
  mk_shsurf (Some example_ds) (mk_coord 100 100) true (Some 1%positive)
            (Some 1%positive) false 0 WESTON_TOP_LEVEL_TILED_ORIENTATION_NONE
            false false false.

Definition example_shell (sh : shell_surface) : desktop_shell :=
  mk_shell WESTON_DESKTOP_SHELL_PANEL_POSITION_TOP true (Some 9%positive)
           {[ 1%positive := example_output ]} (Some 1%positive)
           (Some 1%positive) {[ 1%positive := sh ]}
           (mk_pointer (mk_coord 150 120) (mk_coord 150 120)
                       pointer_default_grab None)
           (mk_touch (mk_coord 150 120) touch_default_grab None)
           (mk_tool (mk_coord 150 120) tablet_tool_default_grab None)
           false [].

(** libweston's conversions for an unrotated view at (100,100), where the
    example window is: the surface-local position is the offset from the
    view's position, and the conversion to fixed point rounds to the
    nearest 1/256. *)
Definition example_ops : libweston_ops :=
  mk_ops (fun _ c => mk_coord_surface (double_of_int (cx c - 100))
                                      (double_of_int (cy c - 100)))
         (fun d => (2 * 256 * QArith_base.Qnum d + Z.pos (QArith_base.Qden d))
                   / (2 * Z.pos (QArith_base.Qden d))).

(** ** Resize clamping *)

(** The clamping as the specification words it: below the effective
    minimum the result is that minimum, and above a positive maximum it is
    that maximum. *)
Definition claimed_clamp (raw minimum maximum result : Z) : Prop :=
  (raw < Z.max 1 minimum -> result = Z.max 1 minimum)
  /\ (0 < maximum -> maximum < raw -> result = maximum).

(** The clamping of the code: the minimum is tested first. *)
Definition clamped (raw minimum maximum result : Z) : Prop :=
  (raw < Z.max 1 minimum -> result = Z.max 1 minimum)
  /\ (Z.max 1 minimum <= raw -> 0 < maximum -> maximum < raw ->
      result = maximum)
  /\ (Z.max 1 minimum <= raw -> (maximum <= 0 \/ raw <= maximum) ->
      result = raw).

(** The signed pointer delta along an axis: [d] counts towards the edge
    [towards] and against the edge [against]. *)
Definition edge_delta (edges against towards d : Z) : Z :=
  if negb (Z.land edges against =? 0) then - d
  else if negb (Z.land edges towards =? 0) then d
  else 0.

(** The example window with a maximum size of 500x0 (no maximum height)
    while it is being resized. *)
Definition example_resizing_ds : weston_desktop_surface_state :=
  mk_ds true (mk_geometry 0 0 400 300) (mk_geometry 0 0 400 300)
        false false (mk_size 0 0) (mk_size 500 0)
        false true (mk_size 0 0) WESTON_TOP_LEVEL_TILED_ORIENTATION_NONE.

Definition example_resizing_shsurf : shell_surface :=
  set_desktop_surface example_shsurf (Some example_resizing_ds).

(** ** Maximizing *)


(** ** Helper-client respawn *)




(** The scenario of the specification: the helper client crashes six times
    within a few seconds, two minutes after the start.  The first five
    crashes relaunch it, the sixth gives up. *)
Definition example_child : shell_child := mk_child (mk_timespec 0 0) 0.

Definition example_crash_times : list timespec :=
  [mk_timespec 120 0; mk_timespec 121 0; mk_timespec 122 500000000;
   mk_timespec 123 0; mk_timespec 125 0; mk_timespec 126 0].





(** ** Title and app-id *)

(** A toplevel titled "old" that is renamed. *)
Definition example_titled : weston_desktop :=
  mk_desktop
    {[ 1%positive := mk_dsurface (Some "old"%string) (Some "org.app"%string)
                                 None [] false ]}
    [DesktopView 10 1 []] [].

(** ** Destruction of a desktop surface *)

(** The views of a forest with the surface that each is linked in. *)
Definition dv_label (v : weston_desktop_view) : positive * positive :=
  (dv_view v, dv_owner v).

Definition forest_labels (f : list weston_desktop_view)
    : list (positive * positive) :=
  map dv_label (forest_nodes f).

(** The views that hang under a parent view, with their surfaces. *)
Definition inner_labels (f : list weston_desktop_view)
    : list (positive * positive) :=
  flat_map (fun v => forest_labels (dv_children v)) f.





(** G is the parent of S and S the parent of C; each has one view, under
    the view of its parent. *)
Definition example_family : weston_desktop :=
  mk_desktop
    {[ 1%positive := mk_dsurface (Some "G"%string) None None [2%positive]
                                 false;
       2%positive := mk_dsurface (Some "S"%string) None (Some 1%positive)
                                 [3%positive] true;
       3%positive := mk_dsurface (Some "C"%string) None (Some 2%positive)
                                 [] true ]}
    [DesktopView 10 1 [DesktopView 20 2 [DesktopView 30 3 []]]]
    [].

(** ** Stacking: an example *)

(** Three windows.  Surface 1 is a normal window on output 1; surface 2 is
    fullscreen on output 1 and surface 3 is fullscreen on output 2, each
    over its black curtain.  Shell surface [100 + n] belongs to surface
    [n], its view is [10 + n], its curtain is view [20 + n] of surface
    [30 + n]. *)
Definition example_window (n : positive) (fs : bool) (o : positive)
    (black : option positive) : stack_surface :=
  mk_stack_surface (Some (mk_role fs [DesktopView (10 + n) n []]))
                   (10 + n) (Some o) (if fs then Some o else None)
                   black false [] 0.

Definition example_stack : shell_state :=
  mk_state
    {[ 1%positive := mk_surface weston_desktop_surface_committed
                                (Some 101%positive) None [11%positive];
       2%positive := mk_surface weston_desktop_surface_committed
                                (Some 102%positive) None [12%positive];
       3%positive := mk_surface weston_desktop_surface_committed
                                (Some 103%positive) None [13%positive];
       32%positive := mk_surface black_surface_committed None None
                                 [22%positive];
       33%positive := mk_surface black_surface_committed None None
                                 [23%positive] ]}
    {[ 11%positive := mk_view 1 true; 12%positive := mk_view 2 true;
       13%positive := mk_view 3 true; 22%positive := mk_view 32 true;
       23%positive := mk_view 33 true ]}
    {[ 101%positive := example_window 1 false 1 None;
       102%positive := example_window 2 true 1 (Some 22%positive);
       103%positive := example_window 3 true 2 (Some 23%positive) ]}
    {[ 1%positive := mk_seat (Some None) None ]}
    ∅
    (fun l => match l with
              | fullscreen_layer => [12; 22; 13; 23]%positive
              | workspace_layer => [11%positive]
              | _ => []
              end)
    [] None None false ANIMATION_NONE 200.

Definition example_oracle : alloc_oracle := mk_oracle true true.

(** ** Lowering the fullscreen layer *)

(** The shell surface of a view's surface. *)
Definition view_shsurf (h : shell_state) (v : positive) : option positive :=
  get_shell_surface h (view_surface (get_view h v)).

(** The shell surface that [lower_fullscreen_layer] lowers when it visits
    the view, if it lowers one. *)
Definition lowers (lo : option positive) (h : shell_state) (v : positive)
    : option positive :=
  match view_shsurf h v with
  | Some sh =>
    match lo with
    | Some _ =>
      if option_pos_eqb (ss_fullscreen_output (get_shsurf h sh)) lo
      then Some sh else None
    | None => Some sh
    end
  | None => None
  end.

(** Lowering one shell surface: its curtain leaves the layers, its view
    goes to the top of the workspace layer. *)
Definition lower_one (h : shell_state) (v sh : positive) : shell_state :=
  update_shsurf
    (weston_view_move_to_layer
       (match ss_black_view (get_shsurf h sh) with
        | Some b => weston_view_move_to_layer h b None
        | None => h
        end)
       v (Some (layer_view_list workspace_layer)))
    sh (set_lowered true).

(** Two states that agree on what the lowering decides from: the
    surfaces, the surface of each view, and every field of the shell
    surfaces but [lowered]. *)
Definition same_shape (h0 h : shell_state) : Prop :=
  (forall s, get_surface h s = get_surface h0 s)
  /\ (forall u, view_surface (get_view h u) = view_surface (get_view h0 u))
  /\ (forall x, set_lowered true (get_shsurf h x)
                = set_lowered true (get_shsurf h0 x))
  /\ st_seats h = st_seats h0
  /\ st_focus_states h = st_focus_states h0
  /\ ws_focus_list h = ws_focus_list h0
  /\ ws_fsurf_front h = ws_fsurf_front h0
  /\ ws_fsurf_back h = ws_fsurf_back h0
  /\ focus_animation_type h = focus_animation_type h0
  /\ next_id h = next_id h0.

(** The views that a visit of the list lowers ([lowered_views]), the
    curtains that it takes out of the layers ([lowered_curtains]) and the
    shell surfaces that it marks ([lowered_shsurfs]). *)
Definition lowered_views (lo : option positive) (h0 : shell_state)
    (vs : list positive) (u : positive) : bool :=
  existsb (Pos.eqb u) vs
  && match lowers lo h0 u with Some _ => true | None => false end.

Definition lowered_curtains (lo : option positive) (h0 : shell_state)
    (vs : list positive) (u : positive) : bool :=
  existsb (fun v => match lowers lo h0 v with
                    | Some sh => option_pos_eqb
                                   (ss_black_view (get_shsurf h0 sh)) (Some u)
                    | None => false
                    end) vs.

Definition lowered_shsurfs (lo : option positive) (h0 : shell_state)
    (vs : list positive) (x : positive) : bool :=
  existsb (fun v => option_pos_eqb (lowers lo h0 v) (Some x)) vs.

(** ** Activation: what it restacks besides the lowering *)

(** The views of a desktop surface's trees that hang under another view:
    [weston_desktop_surface_propagate_layer] moves exactly those. *)
Definition inner_views (l : list weston_desktop_view) : list positive :=
  map dv_view (flat_map (fun t => flat_map dv_nodes (dv_children t)) l).

Definition role_inner_views (x : stack_surface) : list positive :=
  match ss_desktop_surface x with
  | Some role => inner_views (role_view_list role)
  | None => []
  end.

(** The views that the activation of the shell surface [X] restacks for
    [X]'s own sake: its view, its curtain (the one it has or one that is
    yet to be allocated), the views of its children's surfaces, and the two
    focus curtains of the workspace. *)
Definition restacked (h : shell_state) (X u : positive) : bool :=
  Pos.eqb u (ss_view (get_shsurf h X))
  || option_pos_eqb (ss_black_view (get_shsurf h X)) (Some u)
  || Pos.leb (next_id h) u
  || existsb (Pos.eqb u) (role_inner_views (get_shsurf h X))
  || option_pos_eqb (ws_fsurf_front h) (Some u)
  || option_pos_eqb (ws_fsurf_back h) (Some u).

Definition forget_focus_count (x : stack_surface) : stack_surface :=
  mk_stack_surface (ss_desktop_surface x) (ss_view x) (ss_output x)
                   (ss_fullscreen_output x) (ss_black_view x) (ss_lowered x)
                   (ss_children_list x) 0.

Definition static_part (x : stack_surface) :=
  (ss_desktop_surface x, ss_view x, ss_output x, ss_fullscreen_output x,
   ss_children_list x).

(** What holds between the state [h1] after the lowering and every later
    state [h] of the activation of [X] that started in [h0]. *)
Definition activation_inv (h0 : shell_state) (X : positive)
    (h1 h : shell_state) : Prop :=
  (forall u l, restacked h0 X u = false ->
               (In u (st_layers h l) <-> In u (st_layers h1 l)))
  /\ (forall x, x <> X -> forget_focus_count (get_shsurf h x)
                          = forget_focus_count (get_shsurf h1 x))
  /\ static_part (get_shsurf h X) = static_part (get_shsurf h0 X)
  /\ ((forall b, ss_black_view (get_shsurf h X) = Some b ->
                 restacked h0 X b = true)
      /\ (is_Some (ss_black_view (get_shsurf h0 X)) ->
          is_Some (ss_black_view (get_shsurf h X))))
  /\ ws_fsurf_front h = ws_fsurf_front h0
  /\ ws_fsurf_back h = ws_fsurf_back h0
  /\ focus_animation_type h = focus_animation_type h0
  /\ (next_id h0 <= next_id h)%positive.

(** The seat's previous focus must have a shell surface, which
    [activate] reads without a test. *)
Definition previous_focus_known (h : shell_state) (seat main_surface : positive)
    : Prop :=
  forall f, shseat_focused_surface (get_seat h seat) = Some (Some f) ->
            f <> main_surface ->
            is_Some (get_shell_surface h f).

(** ** The whole of an activation *)

(** What [activate] needs in order to run to its end: a shell surface for
    the seat's previous focus, a desktop surface, an output and a curtain
    when a fullscreen surface is configured again, and the two focus views
    when the focus change is animated (the [assert] of shell.c:3526 allows
    no other animation). *)
Definition fullscreen_ready (h : shell_state) (X : positive) (flags : Z)
    (oracle : alloc_oracle) : Prop :=
  exists role,
    ss_desktop_surface (get_shsurf h X) = Some role
    /\ (role_fullscreen role = true ->
        Z.land flags WESTON_ACTIVATE_FLAG_CONFIGURE <> 0 ->
        is_Some (ss_fullscreen_output (get_shsurf h X))
        /\ (is_Some (ss_black_view (get_shsurf h X))
            \/ curtain_create_ok oracle = true)).

Definition animation_ready (h : shell_state) : Prop :=
  focus_animation_type h = ANIMATION_NONE
  \/ (focus_animation_type h = ANIMATION_DIM_LAYER
      /\ is_Some (ws_fsurf_front h) /\ is_Some (ws_fsurf_back h)).

Definition activation_safe (h : shell_state) (seat main_surface X : positive)
    (flags : Z) (oracle : alloc_oracle) : Prop :=
  previous_focus_known h seat main_surface
  /\ fullscreen_ready h X flags oracle
  /\ animation_ready h.

(** The state after the lowering that opens [activate]. *)
Definition lowered_for (h : shell_state) (X : positive) : shell_state :=
  match ss_output (get_shsurf h X) with
  | Some o => lower_fullscreen_layer h (Some o)
  | None => h
  end.

(** ** What an activation does to the other fullscreen surfaces *)

(** The curtains of the shell surfaces are surfaces of the shell's own:
    they have no shell surface, and no two shell surfaces share one. *)
Definition curtains_plain (h : shell_state) : Prop :=
  forall sh b, ss_black_view (get_shsurf h sh) = Some b ->
               view_shsurf h b = None.

Definition curtains_apart (h : shell_state) : Prop :=
  forall sh sh' b, ss_black_view (get_shsurf h sh) = Some b ->
                   ss_black_view (get_shsurf h sh') = Some b ->
                   sh = sh'.

(** The view at which the recursion of [activate] into the last mapped
    children ends, with its main surface and shell surface. *)
Fixpoint activation_target (fuel : nat) (h : shell_state) (v : positive)
    : option (positive * positive * positive) :=
  let es := view_surface (get_view h v) in
  do main_surface <- weston_surface_get_main_surface h (Some es);
  do sh <- get_shell_surface h main_surface;
  match get_last_child h sh with
  | Some shsurf_child =>
    match fuel with
    | O => None
    | S n => activation_target n h (ss_view (get_shsurf h shsurf_child))
    end
  | None => Some (v, main_surface, sh)
  end.

(** ** Focus states through an activation *)

(** Steps that leave the focus states, the focus list and the seats
    alone. *)
Definition focus_frame (h h' : shell_state) : Prop :=
  st_focus_states h' = st_focus_states h
  /\ ws_focus_list h' = ws_focus_list h
  /\ st_seats h' = st_seats h.

(** The focus state that [ensure_focus_state] finds for a seat. *)
Definition seat_focus_state (h : shell_state) (seat : positive)
    : option positive :=
  find (fun st => Pos.eqb (fs_seat (get_focus_state h st)) seat)
       (ws_focus_list h).

(** What an activation of a view of surface [es] for [seat] leaves in the
    seat and in the focus states of the state [h] it started in. *)
Definition refocused (h : shell_state) (seat es : positive)
    (h' : shell_state) : Prop :=
  seat_keyboard_focus (get_seat h' seat) = Some es
  /\ (forall s, keyboard_focus (get_focus_state h' s)
                = keyboard_focus (get_focus_state h s)
                \/ keyboard_focus (get_focus_state h' s) = Some es)
  /\ (forall s0, seat_focus_state h seat = Some s0 ->
                 keyboard_focus (get_focus_state h' s0) = Some es
                 /\ ws_focus_list h' = ws_focus_list h).

(** ** Destruction of the focused surface *)

(** The views that can take the focus of a destroyed surface whose main
    surface is [ms], in the words of the specification: not a view of
    [ms], not a focus view, and with a shell surface. *)
Definition eligible (h : shell_state) (ms v : positive) : bool :=
  negb (Pos.eqb (view_surface (get_view h v)) ms)
  && negb (is_focus_view h v)
  && bool_decide (is_Some (get_shell_surface h (view_surface (get_view h v)))).

(** The view that gets the focus when surface [A], with main surface
    [ms], is destroyed: the default view of [ms] when [A] is a
    sub-surface, otherwise the first eligible view of the workspace
    layer. *)
Inductive focus_successor (h : shell_state) (A ms : positive)
    : option positive -> Prop :=
| successor_main (n : positive) :
    ms <> A ->
    get_default_view h (Some ms) = Some n ->
    focus_successor h A ms (Some n)
| successor_main_none :
    ms <> A ->
    get_default_view h (Some ms) = None ->
    focus_successor h A ms None
| successor_next (pre post : list positive) (n : positive) :
    ms = A ->
    st_layers h workspace_layer = pre ++ n :: post ->
    Forall (fun v => eligible h ms v = false) pre ->
    eligible h ms n = true ->
    focus_successor h A ms (Some n)
| successor_none :
    ms = A ->
    Forall (fun v => eligible h ms v = false) (st_layers h workspace_layer) ->
    focus_successor h A ms None.

(** The [next] of [focus_state_surface_destroy]. *)
Definition next_view (h : shell_state) (A ms : positive) : option positive :=
  if negb (option_pos_eqb (Some ms) (Some A))
  then get_default_view h (Some ms)
  else next_focus_candidate h (Some ms).

(** A window [1] with a sub-surface [4] that has the keyboard focus, below
    a second window [2]; the focus state of seat [1] is [300]. *)
Definition example_focus : shell_state :=
  mk_state
    {[ 1%positive := mk_surface weston_desktop_surface_committed
                                (Some 101%positive) None [11%positive];
       2%positive := mk_surface weston_desktop_surface_committed
                                (Some 102%positive) None [12%positive];
       4%positive := mk_surface committed_other None (Some 1%positive)
                                [14%positive] ]}
    {[ 11%positive := mk_view 1 true; 12%positive := mk_view 2 true;
       14%positive := mk_view 4 true ]}
    {[ 101%positive := example_window 1 false 1 None;
       102%positive := example_window 2 false 1 None ]}
    {[ 1%positive := mk_seat (Some (Some 1%positive)) (Some 4%positive) ]}
    {[ 300%positive := mk_focus_state 1 (Some 4%positive) (Some 4%positive) ]}
    (fun l => match l with
              | workspace_layer => [12; 11]%positive
              | _ => []
              end)
    [300%positive] None None false ANIMATION_NONE 400.

(** A window [1] and its dialog [2], a child toplevel whose view is
    mapped above the view of [1] and which has the keyboard focus; the
    focus state of seat [1] is [300].  Window [2] is still a desktop
    surface. *)
Definition example_focus_dialog : shell_state :=
  mk_state
    {[ 1%positive := mk_surface weston_desktop_surface_committed
                                (Some 101%positive) None [11%positive];
       2%positive := mk_surface weston_desktop_surface_committed
                                (Some 102%positive) None [12%positive] ]}
    {[ 11%positive := mk_view 1 true; 12%positive := mk_view 2 true ]}
    {[ 101%positive :=
         mk_stack_surface (Some (mk_role false [DesktopView 11 1 []]))
                          11 (Some 1%positive) None None false
                          [102%positive] 0;
       102%positive := example_window 2 false 1 None ]}
    {[ 1%positive := mk_seat (Some (Some 2%positive)) (Some 2%positive) ]}
    {[ 300%positive := mk_focus_state 1 (Some 2%positive) (Some 2%positive) ]}
    (fun l => match l with
              | workspace_layer => [12; 11]%positive
              | _ => []
              end)
    [300%positive] None None false ANIMATION_NONE 400.

(** * More of shell.c: the end of a grab *)

(** [weston_pointer_end_grab] is libweston's: the pointer returns to its
    default grab, whose focus handler gives the pointer focus to the view
    it picks under the pointer, [picked]. *)
Definition weston_pointer_end_grab (w : desktop_shell)
    (picked : option positive) : desktop_shell :=
  let p := pointer w in
  set_pointer w (mk_pointer (pointer_pos p) (pointer_grab_pos p)
                            pointer_default_grab picked).

(** [shell_grab_end] (shell.c:237).  The grab's [shsurf] is null once the
    shell surface has been destroyed. *)
Definition shell_grab_end (w : desktop_shell) (shsurf : option positive)
    (picked : option positive) : option desktop_shell :=
  do w1 <-
    match shsurf with
    | None => Some w
    | Some s =>
      do sh <- surfaces w !! s;
      let sh1 := set_grabbed sh false in
      let sh2 := if negb (resize_edges sh1 =? 0)
                 then set_resize_edges sh1 0 else sh1 in
      Some (set_surfaces w (<[s := sh2]> (surfaces w)))
    end;
  Some (weston_pointer_end_grab w1 picked).

(** [enum wl_pointer_button_state]. *)
Definition WL_POINTER_BUTTON_STATE_RELEASED : Z := 0.
Definition WL_POINTER_BUTTON_STATE_PRESSED : Z := 1.

(** [move_grab_button] (shell.c:931); [button_count] is
    [pointer->button_count], which libweston has updated before it calls
    the handler. *)
Definition move_grab_button (w : desktop_shell) (move : weston_move_grab)
    (button_count state : Z) (picked : option positive)
    : option desktop_shell :=
  if (button_count =? 0) && (state =? WL_POINTER_BUTTON_STATE_RELEASED)
  then shell_grab_end w (move_shsurf move) picked
  else Some w.

(** [move_grab_cancel] (shell.c:947). *)
Definition move_grab_cancel (w : desktop_shell) (move : weston_move_grab)
    (picked : option positive) : option desktop_shell :=
  shell_grab_end w (move_shsurf move) picked.

(** The part that [resize_grab_button] and [resize_grab_cancel] share
    (shell.c:1212-1221, 1231-1239). *)
Definition resize_grab_finish (w : desktop_shell)
    (resize : weston_resize_grab) (picked : option positive)
    : option desktop_shell :=
  do w1 <-
    match resize_shsurf resize with
    | None => Some w
    | Some s =>
      do sh <- surfaces w !! s;
      match desktop_surface sh with
      | None => Some w
      | Some ds =>
        let ds1 := weston_desktop_surface_set_size
                     (weston_desktop_surface_set_resizing ds false) 0 0 in
        Some (set_surfaces w
                (<[s := set_desktop_surface sh (Some ds1)]> (surfaces w)))
      end
    end;
  shell_grab_end w1 (resize_shsurf resize) picked.

(** [resize_grab_button] (shell.c:1202). *)
Definition resize_grab_button (w : desktop_shell)
    (resize : weston_resize_grab) (button_count state : Z)
    (picked : option positive) : option desktop_shell :=
  if (button_count =? 0) && (state =? WL_POINTER_BUTTON_STATE_RELEASED)
  then resize_grab_finish w resize picked
  else Some w.

(** [resize_grab_cancel] (shell.c:1226). *)
Definition resize_grab_cancel (w : desktop_shell)
    (resize : weston_resize_grab) (picked : option positive)
    : option desktop_shell :=
  resize_grab_finish w resize picked.

(** [weston_touch_end_grab] is libweston's: the touch device returns to
    its default grab. *)
Definition weston_touch_end_grab (w : desktop_shell) : desktop_shell :=
  let t := touch w in
  set_touch w (mk_touch (touch_grab_pos t) touch_default_grab (touch_focus t)).

(** [shell_touch_grab_end] (shell.c:277). *)
Definition shell_touch_grab_end (w : desktop_shell) (shsurf : option positive)
    : option desktop_shell :=
  do w1 <-
    match shsurf with
    | None => Some w
    | Some s =>
      do sh <- surfaces w !! s;
      Some (set_surfaces w (<[s := set_grabbed sh false]> (surfaces w)))
    end;
  Some (weston_touch_end_grab w1).



(** [touch_move_grab_cancel] (shell.c:806). *)
Definition touch_move_grab_cancel (w : desktop_shell)
    (move : weston_touch_move_grab) : option desktop_shell :=
  shell_touch_grab_end w (touch_move_shsurf move).

(** The eight edge sets that [surface_resize] accepts: one edge, or one
    edge of each axis. *)
Definition valid_resize_edges : list Z :=
  [WESTON_DESKTOP_SURFACE_EDGE_TOP; WESTON_DESKTOP_SURFACE_EDGE_BOTTOM;
   WESTON_DESKTOP_SURFACE_EDGE_LEFT;
   Z.lor WESTON_DESKTOP_SURFACE_EDGE_TOP WESTON_DESKTOP_SURFACE_EDGE_LEFT;
   Z.lor WESTON_DESKTOP_SURFACE_EDGE_BOTTOM WESTON_DESKTOP_SURFACE_EDGE_LEFT;
   WESTON_DESKTOP_SURFACE_EDGE_RIGHT;
   Z.lor WESTON_DESKTOP_SURFACE_EDGE_TOP WESTON_DESKTOP_SURFACE_EDGE_RIGHT;
   Z.lor WESTON_DESKTOP_SURFACE_EDGE_BOTTOM WESTON_DESKTOP_SURFACE_EDGE_RIGHT].

(** A shell surface that a pointer request may grab: it has its desktop
    surface, no grab owns it, and it is neither maximized nor
    fullscreen. *)
Definition grabbable (w : desktop_shell) (s : positive) (sh : shell_surface)
    (ds : weston_desktop_surface_state) : Prop :=
  surfaces w !! s = Some sh
  /\ desktop_surface sh = Some ds
  /\ grabbed sh = false
  /\ ds_maximized ds = false
  /\ ds_fullscreen ds = false.


(** * More of shell.c: tiling, the resize binding and placement *)

(** The enumerators of [enum weston_top_level_tiled_orientation] are
    distinct bits, so for an enumerator [o] the test [o & E] holds exactly
    when [o] is [E]. *)
Definition tiled_orientation_eqb (a b : tiled_orientation) : bool :=
  match a, b with
  | WESTON_TOP_LEVEL_TILED_ORIENTATION_NONE,
    WESTON_TOP_LEVEL_TILED_ORIENTATION_NONE
  | WESTON_TOP_LEVEL_TILED_ORIENTATION_LEFT,
    WESTON_TOP_LEVEL_TILED_ORIENTATION_LEFT
  | WESTON_TOP_LEVEL_TILED_ORIENTATION_RIGHT,
    WESTON_TOP_LEVEL_TILED_ORIENTATION_RIGHT
  | WESTON_TOP_LEVEL_TILED_ORIENTATION_TOP,
    WESTON_TOP_LEVEL_TILED_ORIENTATION_TOP
  | WESTON_TOP_LEVEL_TILED_ORIENTATION_BOTTOM,
    WESTON_TOP_LEVEL_TILED_ORIENTATION_BOTTOM => true
  | _, _ => false
  end.

(** [set_tiled_orientation] (shell.c:3057).  [shsurf] is the shell surface
    of the main surface of the keyboard focus, null when the focus has no
    main surface or no shell surface.  The divisions are C's, on [int]. *)
Definition set_tiled_orientation (w : desktop_shell)
    (shsurf : option positive) (o : tiled_orientation)
    : option desktop_shell :=
  match shsurf with
  | None => Some w
  | Some s =>
    do sh0 <- surfaces w !! s;
    let sh := set_orientation sh0 o in
    let sz := get_maximized_size w sh in
    let area := get_output_work_area (panel_position w)
                  (weston_output_get_shell_private w (output sh)) in
    do ds <- desktop_surface sh;
    let geom := weston_desktop_surface_get_geometry ds in
    let horizontal :=
      tiled_orientation_eqb o WESTON_TOP_LEVEL_TILED_ORIENTATION_LEFT
      || tiled_orientation_eqb o WESTON_TOP_LEVEL_TILED_ORIENTATION_RIGHT in
    let vertical :=
      tiled_orientation_eqb o WESTON_TOP_LEVEL_TILED_ORIENTATION_TOP
      || tiled_orientation_eqb o WESTON_TOP_LEVEL_TILED_ORIENTATION_BOTTOM in
    let width := if horizontal then Z.quot (size_width sz) 2
                 else size_width sz in
    let height := if horizontal then size_height sz
                  else if vertical then Z.quot (size_height sz) 2
                  else size_height sz in
    let x := rect_x area - geom_x geom in
    let y := rect_y area - geom_y geom in
    let x1 := if tiled_orientation_eqb o
                   WESTON_TOP_LEVEL_TILED_ORIENTATION_RIGHT
              then x + width else x in
    let y1 := if tiled_orientation_eqb o
                   WESTON_TOP_LEVEL_TILED_ORIENTATION_RIGHT
              then y
              else if tiled_orientation_eqb o
                        WESTON_TOP_LEVEL_TILED_ORIENTATION_BOTTOM
              then y + height else y in
    let ds1 := weston_desktop_surface_set_orientation
                 (weston_desktop_surface_set_size ds width height) o in
    Some (set_surfaces w
            (<[s := set_desktop_surface (set_view_pos sh (mk_coord x1 y1))
                                        (Some ds1)]> (surfaces w)))
  end.

(** The box that a tiled window is given: where its window geometry
    starts on the screen, and the size sent to the client. *)
Definition tile_box (sh : shell_surface) (ds : weston_desktop_surface_state)
    : pixman_rectangle32_t :=
  let g := weston_desktop_surface_get_geometry ds in
  mk_rect (cx (view_pos sh) + geom_x g) (cy (view_pos sh) + geom_y g)
          (size_width (ds_sent_size ds)) (size_height (ds_sent_size ds)).

(** The edges that [resize_binding] (shell.c:3158) derives from the
    surface-local grab position [(x, y)] and the size of the surface: the
    thirds of each axis; [|=] starts from no edge. *)
Definition resize_binding_edges (x y width height : Z) : Z :=
  let e1 :=
    if x <? Z.quot width 3
    then Z.lor 0 WESTON_DESKTOP_SURFACE_EDGE_LEFT
    else if x <? Z.quot (2 * width) 3 then Z.lor 0 0
    else Z.lor 0 WESTON_DESKTOP_SURFACE_EDGE_RIGHT in
  if y <? Z.quot height 3
  then Z.lor e1 WESTON_DESKTOP_SURFACE_EDGE_TOP
  else if y <? Z.quot (2 * height) 3 then Z.lor e1 0
  else Z.lor e1 WESTON_DESKTOP_SURFACE_EDGE_BOTTOM.

(** [resize_binding] (shell.c:3158) from the point where it has the shell
    surface of the main surface of the pointer focus ([shsurf], null when
    there is none); [surface_width] and [surface_height] are the size of
    that main surface.  The surface-local grab position is stored in two
    [int32_t].  The return value of [surface_resize] is dropped. *)
Definition resize_binding (lw : libweston_ops) (w : desktop_shell)
    (shsurf : option positive) (surface_width surface_height : Z)
    (malloc_ok : bool) : option desktop_shell :=
  match shsurf with
  | None => Some w
  | Some s =>
    do sh <- surfaces w !! s;
    do max_fs <- shsurf_is_max_or_fullscreen sh;
    if max_fs then Some w else
    let surf_pos := weston_coord_global_to_surface lw s
                      (pointer_grab_pos (pointer w)) in
    let x := int32_of_double (csx surf_pos) in
    let y := int32_of_double (csy surf_pos) in
    let edges := resize_binding_edges x y surface_width surface_height in
    do r <- surface_resize w s edges malloc_ok;
    Some (snd r)
  end.

(** [weston_output_contains_coord] is libweston's: the point lies in the
    output's region, which is its rectangle, right and bottom edge
    excluded. *)
Definition weston_output_contains_coord (o : weston_output)
    (pos : weston_coord) : bool :=
  (cx (output_pos o) <=? cx pos) && (cx pos <? cx (output_pos o) + output_width o)
  && (cy (output_pos o) <=? cy pos)
  && (cy pos <? cy (output_pos o) + output_height o).

(** [weston_view_set_initial_position] (shell.c:3908): the position it
    gives the view.  [first_pointer] is the position of the pointer of the
    first seat that has one; [output_list] is the compositor's output
    list, each output with its shell private data; [surface_width] and
    [surface_height] are the size of the view's surface; [r1] and [r2]
    are what the two calls of [random] return.  [area.width -
    view->surface->width] is computed on [uint32_t] and stored in an
    [int32_t]. *)
Definition weston_view_set_initial_position (w : desktop_shell)
    (first_pointer : option weston_coord)
    (output_list : list (weston_output * option shell_output))
    (surface_width surface_height : Z) (r1 r2 : Z) : weston_coord :=
  let pos := match first_pointer with
             | Some p => p
             | None => mk_coord 0 0
             end in
  match find (fun o => weston_output_contains_coord (fst o) pos)
             output_list with
  | None => mk_coord (10 + Z.rem r1 400) (10 + Z.rem r2 400)
  | Some target =>
    let area := get_output_work_area (panel_position w) (snd target) in
    let range_x := int32_of_uint32 (rect_width area - surface_width) in
    let range_y := int32_of_uint32 (rect_height area - surface_height) in
    let x := if 0 <? range_x then rect_x area + Z.rem r1 range_x
             else rect_x area in
    let y := if 0 <? range_y then rect_y area + Z.rem r2 range_y
             else rect_y area in
    mk_coord x y
  end.

(** * More of shell.c: lowering, focus states, minimizing *)

(** [drop_focus_state] (shell.c:661). *)
Definition drop_focus_state (h : shell_state) (surface : positive)
    : shell_state :=
  fold_left
    (fun acc st =>
       if option_pos_eqb (keyboard_focus (get_focus_state acc st))
                         (Some surface)
       then focus_state_set_focus acc st None
       else acc)
    (ws_focus_list h) h.

(** [weston_keyboard_set_focus] is libweston's: the seat's keyboard has
    the surface as its focus.  shell.c registers no listener of the
    keyboard focus signal. *)
Definition weston_keyboard_set_focus (h : shell_state) (seat : positive)
    (surface : option positive) : shell_state :=
  set_seats h (<[seat := mk_seat (shseat_focused_surface (get_seat h seat))
                                 surface]> (st_seats h)).

(** [surface_keyboard_focus_lost] (shell.c:740); a seat without keyboard
    has no keyboard focus. *)
Definition surface_keyboard_focus_lost (h : shell_state) (surface : positive)
    : shell_state :=
  set_seats h
    ((fun seat =>
        if option_pos_eqb
             (weston_surface_get_main_surface h (seat_keyboard_focus seat))
             (Some surface)
        then mk_seat (shseat_focused_surface seat) None
        else seat) <$> st_seats h).

(** [set_minimized] (shell.c:1626).  The [assert] is that the default
    view belongs to a main surface. *)
Definition set_minimized (h : shell_state) (surface : positive)
    : option shell_state :=
  match get_default_view h (Some surface) with
  | None => Some h
  | Some view =>
    let vs := view_surface (get_view h view) in
    if negb (option_pos_eqb (weston_surface_get_main_surface h (Some vs))
                            (Some vs))
    then None else
    do shsurf <- get_shell_surface h surface;
    let h1 := weston_view_move_to_layer h view
                (Some (layer_view_list minimized_layer)) in
    let h2 := drop_focus_state h1 (view_surface (get_view h1 view)) in
    let h3 := surface_keyboard_focus_lost h2 surface in
    do role <- ss_desktop_surface (get_shsurf h3 shsurf);
    Some (weston_desktop_surface_propagate_layer h3 role)
  end.

(** ** Parents and children of shell surfaces *)

Definition set_children_list (l : list positive) (x : stack_surface)
    : stack_surface :=
  mk_stack_surface (ss_desktop_surface x) (ss_view x) (ss_output x)
                   (ss_fullscreen_output x) (ss_black_view x) (ss_lowered x)
                   l (ss_focus_count x).

(** [wl_list_remove(&shsurf->children_link)]: the shell surface leaves
    whatever [children_list] it is linked in. *)
Definition remove_shsurf_children_link (s : positive)
    (m : gmap positive stack_surface) : gmap positive stack_surface :=
  (fun x => set_children_list
              (List.filter (fun c => negb (Pos.eqb c s)) (ss_children_list x))
              x) <$> m.

(** [desktop_surface_set_parent] (shell.c:2391): the child goes to the end
    of the parent's [children_list]. *)
Definition desktop_surface_set_parent (h : shell_state) (s : positive)
    (parent : option positive) : shell_state :=
  let h1 := set_shsurfs h (remove_shsurf_children_link s (st_shsurfs h)) in
  match parent with
  | Some p =>
    update_shsurf h1 p
      (fun x => set_children_list (ss_children_list x ++ [s]) x)
  | None => h1
  end.

(** ** Locking and unlocking: the keyboard focus of the seats *)

(** [unfocus_all_seats] (shell.c:3599); [seat_list] is the compositor's
    seat list and [has_keyboard] tells which seats have a keyboard. *)
Definition unfocus_all_seats (h : shell_state) (has_keyboard : positive -> bool)
    (seat_list : list positive) : shell_state :=
  fold_left
    (fun acc seat =>
       if has_keyboard seat then weston_keyboard_set_focus acc seat None
       else acc)
    seat_list h.

Definition remove_seat (seat : positive) (l : list positive) : list positive :=
  List.filter (fun x => negb (Pos.eqb x seat)) l.

(** The first loop of [restore_focus_state] (shell.c:629-643) for one
    focus state: the shell, the stolen seat list and the compositor's
    seat list. *)
Definition restore_focus_step (has_keyboard : positive -> bool)
    (acc : shell_state * list positive * list positive) (st : positive)
    : shell_state * list positive * list positive :=
  let h := fst (fst acc) in
  let seat := fs_seat (get_focus_state h st) in
  (if has_keyboard seat
   then weston_keyboard_set_focus h seat
          (keyboard_focus (get_focus_state h st))
   else h,
   remove_seat seat (snd (fst acc)),
   seat :: remove_seat seat (snd acc)).

(** The second loop (shell.c:647-657) for one seat without focus
    state. *)
Definition restore_pending_step (has_keyboard : positive -> bool)
    (acc : shell_state * list positive) (seat : positive)
    : shell_state * list positive :=
  (if has_keyboard seat then weston_keyboard_set_focus (fst acc) seat None
   else fst acc,
   seat :: snd acc).

(** [restore_focus_state] (shell.c:616): the shell and the compositor's
    seat list when it returns. *)
Definition restore_focus_state (h : shell_state)
    (has_keyboard : positive -> bool) (seat_list : list positive)
    : shell_state * list positive :=
  let r := fold_left (restore_focus_step has_keyboard) (ws_focus_list h)
                     (h, seat_list, []) in
  fold_left (restore_pending_step has_keyboard) (snd (fst r))
            (fst (fst r), snd r).

(** The focus that the last focus state of a seat in a list records. *)
Definition saved_focus (h : shell_state) (l : list positive)
    (seat : positive) : option (option positive) :=
  option_map (fun st => keyboard_focus (get_focus_state h st))
    (find (fun st => Pos.eqb (fs_seat (get_focus_state h st)) seat) (rev l)).

(** What only the seats can tell apart. *)
Definition same_but_seats (h h' : shell_state) : Prop :=
  st_focus_states h' = st_focus_states h
  /\ ws_focus_list h' = ws_focus_list h
  /\ st_layers h' = st_layers h
  /\ st_shsurfs h' = st_shsurfs h
  /\ st_surfaces h' = st_surfaces h
  /\ st_views h' = st_views h
  /\ (forall x, shseat_focused_surface (get_seat h' x)
                = shseat_focused_surface (get_seat h x)).

(** ** Raising a shell surface *)

(** The view [v] is mapped and in the layer [l], with only views of
    [above] stacked over it. *)
Definition raised_in (h : shell_state) (l : layer_id) (v : positive)
    (above : list positive) : Prop :=
  is_mapped (get_view h v) = true
  /\ exists pre rest,
       st_layers h l = pre ++ v :: rest
       /\ forall x, In x pre -> In x above.

(** ** The window switcher *)

(** [struct switcher]: the view that is selected and the views taken out
    of the minimized layer for the time of the switch. *)
Record switcher := mk_switcher {
  sw_current : option positive;
  sw_minimized_array : list positive
}.

(** The body of the second loop of [switcher_next] (shell.c:4128-4141) for
    one view of the workspace layer: [first], [prev] and [next]. *)
Definition switcher_scan_step (h : shell_state) (current : option positive)
    (acc : option positive * option positive * option positive)
    (view : positive)
    : option positive * option positive * option positive :=
  match get_shell_surface h (view_surface (get_view h view)) with
  | Some _ =>
    (match fst (fst acc) with
     | None => Some view
     | Some f => Some f
     end,
     Some view,
     if option_pos_eqb (snd (fst acc)) current then Some view else snd acc)
  | None => acc
  end.

(** The end of [switcher_next] (shell.c:4149-4158) with the view [n] that
    it chose: [n] is the current view from now on.  When the surface of
    [n] has a shell surface, the function reads whether its desktop
    surface is fullscreen and, if it is, reaches the view of the black
    curtain through [shsurf->fullscreen.black_view], without a test. *)
Definition switcher_select (h : shell_state) (array : list positive)
    (n : positive) : option (shell_state * switcher) :=
  match get_shell_surface h (view_surface (get_view h n)) with
  | Some sh =>
    do role <- ss_desktop_surface (get_shsurf h sh);
    if role_fullscreen role
    then match ss_black_view (get_shsurf h sh) with
         | Some _ => Some (h, mk_switcher (Some n) array)
         | None => None
         end
    else Some (h, mk_switcher (Some n) array)
  | None => Some (h, mk_switcher (Some n) array)
  end.

(** [switcher_next] (shell.c:4112); [array_ok] tells whether
    [wl_array_add] finds memory, whose result is written without a
    test. *)
Definition switcher_next (h : shell_state) (sw : switcher) (array_ok : bool)
    : option (shell_state * switcher) :=
  let minimized := st_layers h minimized_layer in
  match minimized, array_ok with
  | _ :: _, false => None
  | _, _ =>
    let h1 := fold_left
                (fun acc v =>
                   weston_view_move_to_layer acc v
                     (Some (layer_view_list workspace_layer)))
                minimized h in
    let array := sw_minimized_array sw ++ minimized in
    let r := fold_left (switcher_scan_step h1 (sw_current sw))
                       (st_layers h1 workspace_layer) (None, None, None) in
    let next := match snd r with
                | Some n => Some n
                | None => fst (fst r)
                end in
    match next with
    | None => Some (h1, mk_switcher (sw_current sw) array)
    | Some n => switcher_select h1 array n
    end
  end.

(** What [switcher_next] relies on: every shell surface with a view in the
    workspace layer or in the minimized layer has its desktop surface,
    and has its black curtain when it is fullscreen. *)
Definition switcher_ready (h : shell_state) : Prop :=
  forall v sh,
    In v (st_layers h workspace_layer) \/ In v (st_layers h minimized_layer) ->
    view_shsurf h v = Some sh ->
    exists role,
      ss_desktop_surface (get_shsurf h sh) = Some role
      /\ (role_fullscreen role = true ->
          is_Some (ss_black_view (get_shsurf h sh))).

(** The views among which the switcher selects: the views of shell
    surfaces in the workspace layer, from the top. *)
Definition switcher_candidates (h : shell_state) : list positive :=
  List.filter (fun v => match view_shsurf h v with
                        | Some _ => true
                        | None => false
                        end)
              (st_layers h workspace_layer).

Definition scan_candidate (current : option positive)
    (acc : option positive * option positive * option positive)
    (view : positive)
    : option positive * option positive * option positive :=
  (match fst (fst acc) with
   | None => Some view
   | Some f => Some f
   end,
   Some view,
   if option_pos_eqb (snd (fst acc)) current then Some view else snd acc).

(** * Properties *)

(** ** Resize edges *)

Lemma small_edges_cases (e : Z) :
  0 <= e <= 15 ->
  e = 0 \/ e = 1 \/ e = 2 \/ e = 3 \/ e = 4 \/ e = 5 \/ e = 6 \/ e = 7 \/
  e = 8 \/ e = 9 \/ e = 10 \/ e = 11 \/ e = 12 \/ e = 13 \/ e = 14 \/ e = 15.
Proof. lia. Qed.

Lemma land_resize_any (e : Z) : 0 <= e -> Z.land e resize_any = e mod 16.
Proof.
  intros He. change resize_any with (Z.ones 4).
  rewrite Z.land_ones by lia. reflexivity.
Qed.

Lemma outside_bits_large (e : Z) :
  0 <= e -> Z.land e resize_any <> e -> resize_any < e.
Proof.
  intros He Hne. rewrite land_resize_any in Hne by assumption.
  change resize_any with 15.
  destruct (Z_lt_le_dec 15 e) as [?|Hle]; [assumption|].
  exfalso. apply Hne. apply Z.mod_small. lia.
Qed.

(** The test of [surface_resize] accepts exactly the malformed sets. *)
Lemma edge_test_malformed (edges : Z) :
  0 <= edges ->
  malformed_edges edges ->
  (edges =? WESTON_DESKTOP_SURFACE_EDGE_NONE) || (resize_any <? edges)
    || (Z.land edges resize_topbottom =? resize_topbottom)
    || (Z.land edges resize_leftright =? resize_leftright) = true.
Proof.
  intros Hpos Hbad.
  destruct (Z_lt_le_dec resize_any edges) as [Hbig|Hsmall].
  - apply Z.ltb_lt in Hbig. rewrite Hbig.
    rewrite orb_true_r. reflexivity.
  - change resize_any with 15 in Hsmall.
    destruct Hbad as [H0|[Hout|[[Hl Hr]|[Ht Hb]]]].
    + rewrite H0. reflexivity.
    + apply outside_bits_large in Hout; [|assumption].
      change resize_any with 15 in Hout. lia.
    + unfold has_edge in Hl, Hr.
      destruct (small_edges_cases edges ltac:(lia))
        as [E|[E|[E|[E|[E|[E|[E|[E|[E|[E|[E|[E|[E|[E|[E|E]]]]]]]]]]]]]]];
        subst edges; vm_compute in Hl, Hr; try congruence; reflexivity.
    + unfold has_edge in Ht, Hb.
      destruct (small_edges_cases edges ltac:(lia))
        as [E|[E|[E|[E|[E|[E|[E|[E|[E|[E|[E|[E|[E|[E|[E|E]]]]]]]]]]]]]]];
        subst edges; vm_compute in Ht, Hb; try congruence; reflexivity.
Qed.

(** C2.  A resize request whose edge set is empty, has a bit outside the
    four edges, or holds both edges of an axis, returns 0 and leaves the
    whole state as it was: no grab starts, and the surface's
    [resize_edges], resizing flag and size are untouched.  [edges] is a
    [uint32_t]; the outcome of [malloc] makes no difference. *)
Theorem surface_resize_malformed_edges_noop
    (w : desktop_shell) (s : positive) (sh : shell_surface)
    (edges : Z) (malloc_ok : bool) :
  surfaces w !! s = Some sh ->
  is_Some (desktop_surface sh) ->
  0 <= edges < 2 ^ 32 ->
  malformed_edges edges ->
  surface_resize w s edges malloc_ok = Some (0, w).
Proof.
  intros Hs [ds Hds] Hrange Hbad.
  unfold surface_resize. rewrite Hs.
  destruct (grabbed sh); [reflexivity|].
  unfold shsurf_is_max_or_fullscreen. rewrite Hds.
  destruct (ds_maximized ds || ds_fullscreen ds); [reflexivity|].
  rewrite edge_test_malformed by (lia || assumption).
  reflexivity.
Qed.

Lemma surface_resize_malformed_edges_noop_witness :
  surface_resize (example_shell example_shsurf) 1 12 true
  = Some (0, example_shell example_shsurf).
Proof.
  apply (surface_resize_malformed_edges_noop
           (example_shell example_shsurf) 1 example_shsurf 12 true).
  - reflexivity.
  - exists example_ds. reflexivity.
  - lia.
  - right. right. left. split; unfold has_edge; vm_compute; congruence.
Defined.

(** ** Requests on maximized, fullscreen or grabbed surfaces *)

(** C9 at a surface that a grab owns, neither maximized nor fullscreen.
    The pointer move and the resize test [shsurf->grabbed] (shell.c:976,
    1265), return 0 and change nothing.  The touch move and the
    tablet-tool move have no such test (shell.c:833, 1123): each returns
    0 with the device taken from its default grab by a new move grab. *)
Lemma surface_touch_move_grabbed_starts_grab :
  let w := example_shell (set_grabbed example_shsurf true) in
  grabbed (set_grabbed example_shsurf true) = true
  /\ surface_move w (Some 1%positive) true true = Some (0, w)
  /\ surface_resize w 1 8 true = Some (0, w)
  /\ touch_grab (touch w) = touch_default_grab
  /\ tool_grab (tool w) = tablet_tool_default_grab
  /\ (exists w',
        surface_touch_move w (Some 1%positive) true = Some (0, w')
        /\ touch_grab (touch w')
           = touch_move_grab_interface
               (mk_touch_move_grab (Some 1%positive) true
                                   (mk_coord (-50) (-20)))
        /\ w' <> w)
  /\ (exists w',
        surface_tablet_tool_move example_ops w (Some 1%positive) true
        = Some (0, w')
        /\ tool_grab (tool w')
           = tablet_tool_move_grab_interface
               (mk_tool_move_grab (Some 1%positive) (-12800) (-5120))
        /\ w' <> w).
Proof.
  intros w. split; [reflexivity|]. split; [reflexivity|].
  split; [reflexivity|]. split; [reflexivity|]. split; [reflexivity|].
  split.
  - eexists. split; [reflexivity|]. split; [reflexivity|].
    intros Heq. apply (f_equal (fun w => touch_grab (touch w))) in Heq.
    discriminate Heq.
  - eexists. split; [reflexivity|]. split; [reflexivity|].
    intros Heq. apply (f_equal (fun w => tool_grab (tool w))) in Heq.
    discriminate Heq.
Qed.

(** The guards of the four requests.  A pointer move and a resize on a
    surface that is grabbed, maximized or fullscreen return 0 and change
    nothing.  A touch move does so on a maximized or fullscreen surface,
    and a tablet-tool move on a surface whose committed shell state is
    maximized or fullscreen. *)
Theorem interactive_requests_guarded
    (lw : libweston_ops) (w : desktop_shell) (s : positive)
    (sh : shell_surface)
    (ds : weston_desktop_surface_state)
    (client_initiated malloc_ok : bool) (edges : Z) :
  surfaces w !! s = Some sh ->
  desktop_surface sh = Some ds ->
  (grabbed sh = true \/ ds_maximized ds = true \/ ds_fullscreen ds = true ->
     surface_move w (Some s) client_initiated malloc_ok = Some (0, w)
     /\ surface_resize w s edges malloc_ok = Some (0, w))
  /\ (ds_maximized ds = true \/ ds_fullscreen ds = true ->
        surface_touch_move w (Some s) malloc_ok = Some (0, w))
  /\ (state_maximized sh = true \/ state_fullscreen sh = true ->
        surface_tablet_tool_move lw w (Some s) malloc_ok = Some (0, w)).
Proof.
  intros Hs Hds. split; [|split].
  - intros H. split.
    + unfold surface_move. rewrite Hs.
      destruct (grabbed sh) eqn:Hg; [reflexivity|].
      unfold shsurf_is_max_or_fullscreen. rewrite Hds.
      destruct H as [H|[H|H]]; [discriminate|rewrite H; reflexivity|].
      rewrite H, orb_true_r. reflexivity.
    + unfold surface_resize. rewrite Hs.
      destruct (grabbed sh) eqn:Hg; [reflexivity|].
      unfold shsurf_is_max_or_fullscreen. rewrite Hds.
      destruct H as [H|[H|H]]; [discriminate|rewrite H; reflexivity|].
      rewrite H, orb_true_r. reflexivity.
  - intros H. unfold surface_touch_move. rewrite Hs.
    unfold shsurf_is_max_or_fullscreen. rewrite Hds.
    destruct H as [H|H]; [rewrite H; reflexivity|].
    rewrite H, orb_true_r. reflexivity.
  - intros H. unfold surface_tablet_tool_move. rewrite Hs.
    destruct H as [H|H]; rewrite H; [rewrite orb_true_r|]; reflexivity.
Qed.

Lemma interactive_requests_guarded_witness :
  (grabbed (set_grabbed example_shsurf true) = true
   \/ ds_maximized example_ds = true \/ ds_fullscreen example_ds = true ->
     surface_move (example_shell (set_grabbed example_shsurf true))
                  (Some 1%positive) true true
     = Some (0, example_shell (set_grabbed example_shsurf true))
     /\ surface_resize (example_shell (set_grabbed example_shsurf true))
                       1 8 true
        = Some (0, example_shell (set_grabbed example_shsurf true)))
  /\ (ds_maximized example_ds = true \/ ds_fullscreen example_ds = true ->
        surface_touch_move (example_shell (set_grabbed example_shsurf true))
                           (Some 1%positive) true
        = Some (0, example_shell (set_grabbed example_shsurf true)))
  /\ (state_maximized (set_grabbed example_shsurf true) = true
      \/ state_fullscreen (set_grabbed example_shsurf true) = true ->
        surface_tablet_tool_move example_ops
          (example_shell (set_grabbed example_shsurf true))
          (Some 1%positive) true
        = Some (0, example_shell (set_grabbed example_shsurf true))).
Proof.
  apply (interactive_requests_guarded example_ops
           (example_shell (set_grabbed example_shsurf true)) 1
           (set_grabbed example_shsurf true) example_ds true true 8).
  - reflexivity.
  - reflexivity.
Defined.

(** ** Resize clamping *)

(** A client that declares a minimum of 100 above its maximum of 50, and a
    grab on the right edge that started at width 60 and moved 10 pixels to
    the right (from 0 to 2560 in fixed point): 70 is above the maximum,
    and the width sent is 100. *)
Lemma resize_clamp_minimum_above_maximum :
  wl_fixed_to_int (2560 - 0) = 10
  /\ ~ claimed_clamp (60 + 10) 100 50
         (size_width
            (resize_grab_size
               (mk_resize_grab (Some 1%positive)
                               WESTON_DESKTOP_SURFACE_EDGE_RIGHT 60 40)
               0 0 2560 0
               (mk_size 100 0) (mk_size 50 0))).
Proof.
  split; [reflexivity|].
  intros [_ Hmax]. specialize (Hmax ltac:(lia) ltac:(lia)).
  vm_compute in Hmax. discriminate Hmax.
Qed.

(** The truncation is symmetric: swapping the two positions changes the
    sign of the delta. *)
Lemma wl_fixed_to_int_opp (a b : Z) :
  wl_fixed_to_int (a - b) = - wl_fixed_to_int (b - a).
Proof.
  unfold wl_fixed_to_int. replace (a - b) with (- (b - a)) by lia.
  apply Z.quot_opp_l. discriminate.
Qed.

Lemma clamp_code_clamped (raw minimum maximum : Z) :
  clamped raw minimum maximum
    (if raw <? Z.max 1 minimum then Z.max 1 minimum
     else if (0 <? maximum) && (maximum <? raw) then maximum
     else raw).
Proof.
  unfold clamped.
  destruct (Z.ltb_spec raw (Z.max 1 minimum)) as [Hlt|Hge].
  - repeat split; intros; try reflexivity; lia.
  - destruct (Z.ltb_spec 0 maximum) as [Hp|Hnp];
      destruct (Z.ltb_spec maximum raw) as [Hm|Hnm]; simpl;
      repeat split; intros; try reflexivity; lia.
Qed.

(** C3 (amended).  On a motion event of a resize grab the size sent to the
    client is the grab-start size plus the signed pointer delta along the
    active edges, clamped with the minimum first: below the effective
    minimum (the declared minimum, at least 1) it is that minimum;
    otherwise, above a positive declared maximum it is that maximum;
    otherwise it is the size itself.  The pointer delta is taken in the
    coordinates of the surface: it is the difference between the pointer
    position and the grab position, each taken through the view's
    transform and rounded to fixed point, in whole pixels with the
    fraction dropped. *)
Theorem resize_grab_motion_size
    (lw : libweston_ops) (w : desktop_shell) (resize : weston_resize_grab)
    (event : weston_coord) (s : positive) (sh : shell_surface)
    (ds : weston_desktop_surface_state) :
  resize_shsurf resize = Some s ->
  surfaces w !! s = Some sh ->
  desktop_surface sh = Some ds ->
  let from := weston_coord_global_to_surface lw s
                (pointer_grab_pos (pointer w)) in
  let to := weston_coord_global_to_surface lw s event in
  let dx := wl_fixed_to_int (wl_fixed_from_double lw (csx to)
                             - wl_fixed_from_double lw (csx from)) in
  let dy := wl_fixed_to_int (wl_fixed_from_double lw (csy to)
                             - wl_fixed_from_double lw (csy from)) in
  exists w' sh' ds',
    resize_grab_motion lw w resize event = Some w'
    /\ surfaces w' !! s = Some sh'
    /\ desktop_surface sh' = Some ds'
    /\ clamped
         (resize_width resize
          + edge_delta (resize_grab_edges resize)
              WESTON_DESKTOP_SURFACE_EDGE_LEFT WESTON_DESKTOP_SURFACE_EDGE_RIGHT
              dx)
         (size_width (ds_min_size ds)) (size_width (ds_max_size ds))
         (size_width (ds_sent_size ds'))
    /\ clamped
         (resize_height resize
          + edge_delta (resize_grab_edges resize)
              WESTON_DESKTOP_SURFACE_EDGE_TOP WESTON_DESKTOP_SURFACE_EDGE_BOTTOM
              dy)
         (size_height (ds_min_size ds)) (size_height (ds_max_size ds))
         (size_height (ds_sent_size ds')).
Proof.
  intros Hr Hs Hds from to dx dy.
  unfold resize_grab_motion. rewrite Hr.
  cbn [weston_pointer_move surfaces set_pointer pointer pointer_pos
       pointer_grab_pos]. rewrite Hs, Hds.
  fold from. fold to.
  eexists _, _, _. split; [reflexivity|].
  split; [apply lookup_insert_eq|]. split; [reflexivity|].
  unfold resize_grab_size, edge_delta. cbn [size_width size_height
    ds_sent_size weston_desktop_surface_set_size desktop_surface
    set_desktop_surface].
  rewrite (wl_fixed_to_int_opp (wl_fixed_from_double lw (csx from))),
          (wl_fixed_to_int_opp (wl_fixed_from_double lw (csy from))).
  fold dx. fold dy.
  split.
  - destruct (negb (Z.land (resize_grab_edges resize)
                           WESTON_DESKTOP_SURFACE_EDGE_LEFT =? 0));
      [apply clamp_code_clamped|].
    destruct (negb (Z.land (resize_grab_edges resize)
                           WESTON_DESKTOP_SURFACE_EDGE_RIGHT =? 0));
      [apply clamp_code_clamped|].
    rewrite Z.add_0_r. apply clamp_code_clamped.
  - destruct (negb (Z.land (resize_grab_edges resize)
                           WESTON_DESKTOP_SURFACE_EDGE_TOP =? 0));
      [apply clamp_code_clamped|].
    destruct (negb (Z.land (resize_grab_edges resize)
                           WESTON_DESKTOP_SURFACE_EDGE_BOTTOM =? 0));
      [apply clamp_code_clamped|].
    rewrite Z.add_0_r. apply clamp_code_clamped.
Qed.

(** A grab on the bottom-right corner of the example window, whose view
    is not rotated, the pointer moved from (150,120) to (600,20): the
    deltas are 450 and -100, the width is held at 500 and the height
    shrinks to 200. *)
Lemma resize_grab_motion_size_witness :
  exists w' sh' ds',
    resize_grab_motion example_ops (example_shell example_resizing_shsurf)
      (mk_resize_grab (Some 1%positive) 10 400 300) (mk_coord 600 20)
    = Some w'
    /\ surfaces w' !! 1%positive = Some sh'
    /\ desktop_surface sh' = Some ds'
    /\ clamped (400 + edge_delta 10 4 8 450) 0 500
               (size_width (ds_sent_size ds'))
    /\ clamped (300 + edge_delta 10 1 2 (-100)) 0 0
               (size_height (ds_sent_size ds')).
Proof.
  exact (resize_grab_motion_size example_ops
           (example_shell example_resizing_shsurf)
           (mk_resize_grab (Some 1%positive) 10 400 300) (mk_coord 600 20)
           1%positive example_resizing_shsurf example_resizing_ds
           eq_refl eq_refl eq_refl).
Defined.

Example resize_grab_motion_example :
  option_map
    (fun w' => option_map (fun sh' => option_map ds_sent_size
                                                 (desktop_surface sh'))
                          (surfaces w' !! 1%positive))
    (resize_grab_motion example_ops (example_shell example_resizing_shsurf)
       (mk_resize_grab (Some 1%positive) 10 400 300) (mk_coord 600 20))
  = Some (Some (Some (mk_size 500 200))).
Proof. reflexivity. Qed.

(** A view turned by a quarter, for which a pointer that moves 10 pixels
    to the right in global coordinates moves 10 pixels down the surface,
    and a pointer position that the conversion lands between pixels: a
    grab on the right edge keeps the width, and a grab on the bottom edge
    that moved 3/4 of a pixel keeps the height. *)
Example resize_grab_motion_rotated :
  let quarter :=
    mk_ops (fun _ c => mk_coord_surface (double_of_int (cy c - 100))
                                        (double_of_int (cx c - 100)))
           (wl_fixed_from_double example_ops) in
  let subpixel :=
    mk_ops (fun _ c => mk_coord_surface
                         (double_of_int (cx c - 100))
                         (QArith_base.Qmake (3 * (cy c - 100)) 4))
           (wl_fixed_from_double example_ops) in
  let sent lw edges event :=
    option_map
      (fun w' => option_map (fun sh' => option_map ds_sent_size
                                                   (desktop_surface sh'))
                            (surfaces w' !! 1%positive))
      (resize_grab_motion lw (example_shell example_resizing_shsurf)
         (mk_resize_grab (Some 1%positive) edges 400 300) event) in
  sent quarter WESTON_DESKTOP_SURFACE_EDGE_RIGHT (mk_coord 160 120)
  = Some (Some (Some (mk_size 400 300)))
  /\ sent subpixel WESTON_DESKTOP_SURFACE_EDGE_BOTTOM (mk_coord 150 121)
     = Some (Some (Some (mk_size 400 300))).
Proof. split; reflexivity. Qed.

(** ** Move grab *)

(** The window of the example dragged so that it would sit at (100,0),
    under a 30-pixel top panel: a drag started by a key binding puts it
    there, a drag started by the client is stopped at (100,30).  The
    position changes on the Y axis only, and the client's drag is the one
    that is held back. *)
Lemma constrain_position_client_drag_held :
  weston_coord_global_add (mk_coord 150 20) (mk_coord (-50) (-20))
  = mk_coord 100 0
  /\ constrain_position
       (weston_pointer_move (example_shell example_shsurf) (mk_coord 150 20))
       (mk_move_grab (Some 1%positive) (mk_coord (-50) (-20)) false)
     = Some (mk_coord 100 0)
  /\ constrain_position
       (weston_pointer_move (example_shell example_shsurf) (mk_coord 150 20))
       (mk_move_grab (Some 1%positive) (mk_coord (-50) (-20)) true)
     = Some (mk_coord 100 30).
Proof. repeat split. Qed.

(** C7 (amended).  A motion event of a move grab puts the view at the
    pointer position plus the delta recorded at grab start, clamped on the
    Y axis only and only under a top panel.  There the Y coordinate is
    exactly the largest of the requested one, the one at which [safety]
    (50) pixels of the window lie below the panel's lower edge and, for a
    drag that the client started, the one at which the window's top edge
    is at that lower edge; a drag started by a key binding has the first
    constraint only.  So the view is pushed down, never up, and a
    position that satisfies the constraints is used as it is. *)
Theorem move_grab_motion_position
    (w : desktop_shell) (move : weston_move_grab) (event : weston_coord)
    (s : positive) (sh : shell_surface) (ds : weston_desktop_surface_state) :
  move_shsurf move = Some s ->
  surfaces w !! s = Some sh ->
  desktop_surface sh = Some ds ->
  exists w' sh',
    move_grab_motion w move event = Some w'
    /\ surfaces w' !! s = Some sh'
    /\ cx (view_pos sh') = cx event + cx (move_delta move)
    /\ (panel_position w <> WESTON_DESKTOP_SHELL_PANEL_POSITION_TOP ->
        cy (view_pos sh') = cy event + cy (move_delta move))
    /\ (panel_position w = WESTON_DESKTOP_SHELL_PANEL_POSITION_TOP ->
        let area := get_output_work_area (panel_position w)
                      (weston_output_get_shell_private w (surface_output sh)) in
        let g := weston_desktop_surface_get_geometry ds in
        let requested := cy event + cy (move_delta move) in
        let strip := rect_y area + safety - geom_height g - geom_y g in
        cy (view_pos sh')
        = (if move_client_initiated move
           then Z.max (Z.max requested strip) (rect_y area - geom_y g)
           else Z.max requested strip)
        /\ requested <= cy (view_pos sh')
        /\ rect_y area + safety
           <= cy (view_pos sh') + geom_y g + geom_height g
        /\ (move_client_initiated move = true ->
            rect_y area <= cy (view_pos sh') + geom_y g)
        /\ (move_client_initiated move = false ->
            rect_y area + safety <= requested + geom_y g + geom_height g ->
            cy (view_pos sh') = requested)
        /\ (move_client_initiated move = true ->
            rect_y area + safety <= requested + geom_y g + geom_height g ->
            rect_y area <= requested + geom_y g ->
            cy (view_pos sh') = requested)).
Proof.
  intros Hm Hs Hds.
  unfold move_grab_motion. rewrite Hm. simpl. rewrite Hs, Hds.
  unfold constrain_position. rewrite Hm. simpl. rewrite Hs, Hds.
  destruct (panel_position w) eqn:Hpp;
    try (eexists _, _; split; [reflexivity|];
         split; [apply lookup_insert_eq|];
         split; [reflexivity|]; split; [reflexivity|];
         intros HH; discriminate HH).
  eexists _, _. split; [reflexivity|].
  split; [apply lookup_insert_eq|].
  unfold weston_output_get_shell_private, weston_pointer_move. simpl.
  set (area := get_output_work_area _ _).
  set (g := weston_desktop_surface_get_geometry ds).
  unfold safety.
  destruct (Z.ltb_spec (cy event + cy (move_delta move) + geom_height g
                        + geom_y g - 50) (rect_y area)) as [H1|H1];
    destruct (move_client_initiated move); simpl;
    repeat match goal with
           | |- context [ ?a <? ?b ] => destruct (Z.ltb_spec a b)
           end; simpl;
    (split; [reflexivity|]; split; [intros HH; congruence|]; intros _;
     repeat split; intros; try discriminate; lia).
Qed.

Lemma move_grab_motion_position_witness :
  exists w' sh',
    move_grab_motion (example_shell example_shsurf)
      (mk_move_grab (Some 1%positive) (mk_coord (-50) (-20)) true)
      (mk_coord 150 (-400)) = Some w'
    /\ surfaces w' !! 1%positive = Some sh'
    /\ cx (view_pos sh') = 150 + -50
    /\ (WESTON_DESKTOP_SHELL_PANEL_POSITION_TOP
        <> WESTON_DESKTOP_SHELL_PANEL_POSITION_TOP ->
        cy (view_pos sh') = -400 + -20)
    /\ (WESTON_DESKTOP_SHELL_PANEL_POSITION_TOP
        = WESTON_DESKTOP_SHELL_PANEL_POSITION_TOP ->
        cy (view_pos sh')
        = Z.max (Z.max (-400 + -20) (30 + safety - 300 - 0)) (30 - 0)
        /\ -400 + -20 <= cy (view_pos sh')
        /\ 30 + safety <= cy (view_pos sh') + 0 + 300
        /\ (true = true -> 30 <= cy (view_pos sh') + 0)
        /\ (true = false -> 30 + safety <= -400 + -20 + 0 + 300 ->
            cy (view_pos sh') = -400 + -20)
        /\ (true = true -> 30 + safety <= -400 + -20 + 0 + 300 ->
            30 <= -400 + -20 + 0 -> cy (view_pos sh') = -400 + -20)).
Proof.
  exact (move_grab_motion_position (example_shell example_shsurf)
           (mk_move_grab (Some 1%positive) (mk_coord (-50) (-20)) true)
           (mk_coord 150 (-400)) 1%positive example_shsurf example_ds
           eq_refl eq_refl eq_refl).
Defined.

(** ** Maximizing *)






(** ** Helper-client respawn *)










Example respawn_six_crashes :
  map snd (respawn_run example_child example_crash_times)
  = [respawning; respawning; respawning; respawning; respawning; giving_up].
Proof. reflexivity. Qed.


(** ** Title and app-id *)

(** C10.  Setting the title or the app-id of a desktop surface: when the
    copy of the new string cannot be allocated, nothing changes and nothing
    is emitted; when it can, the surface holds the new string, the metadata
    signal is emitted with the new string in place, and only then is the
    old string released.  The other field and the other surfaces are
    untouched. *)
Theorem set_title_app_id_atomic
    (d : weston_desktop) (s : positive) (ds : weston_desktop_surface)
    (new : string) :
  dsurfaces d !! s = Some ds ->
  weston_desktop_surface_set_title d s new false = Some d
  /\ weston_desktop_surface_set_app_id d s new false = Some d
  /\ (exists d' ds',
        weston_desktop_surface_set_title d s new true = Some d'
        /\ dsurfaces d' !! s = Some ds'
        /\ title ds' = Some new
        /\ app_id ds' = app_id ds
        /\ devents d' = devents d
                        ++ [ev_metadata_signal s (Some new) (app_id ds);
                            ev_free_string (title ds)]
        /\ (forall s', s' <> s -> dsurfaces d' !! s' = dsurfaces d !! s')
        /\ dviews d' = dviews d)
  /\ (exists d' ds',
        weston_desktop_surface_set_app_id d s new true = Some d'
        /\ dsurfaces d' !! s = Some ds'
        /\ app_id ds' = Some new
        /\ title ds' = title ds
        /\ devents d' = devents d
                        ++ [ev_metadata_signal s (title ds) (Some new);
                            ev_free_string (app_id ds)]
        /\ (forall s', s' <> s -> dsurfaces d' !! s' = dsurfaces d !! s')
        /\ dviews d' = dviews d).
Proof.
  intros Hs.
  unfold weston_desktop_surface_set_title, weston_desktop_surface_set_app_id.
  rewrite Hs. cbn [negb].
  split; [reflexivity|]. split; [reflexivity|].
  split.
  - eexists _, _. split; [reflexivity|].
    split; [apply lookup_insert_eq|].
    split; [reflexivity|]. split; [reflexivity|]. split; [reflexivity|].
    split; [|reflexivity].
    intros s' Hne. cbn [dsurfaces emit set_dsurfaces].
    apply lookup_insert_ne. congruence.
  - eexists _, _. split; [reflexivity|].
    split; [apply lookup_insert_eq|].
    split; [reflexivity|]. split; [reflexivity|]. split; [reflexivity|].
    split; [|reflexivity].
    intros s' Hne. cbn [dsurfaces emit set_dsurfaces].
    apply lookup_insert_ne. congruence.
Qed.

Lemma set_title_app_id_atomic_witness :
  weston_desktop_surface_set_title example_titled 1 "new" false
  = Some example_titled
  /\ option_map devents
       (weston_desktop_surface_set_title example_titled 1 "new" true)
     = Some [ev_metadata_signal 1 (Some "new"%string) (Some "org.app"%string);
             ev_free_string (Some "old"%string)].
Proof.
  destruct (set_title_app_id_atomic example_titled 1
              (mk_dsurface (Some "old"%string) (Some "org.app"%string)
                           None [] false)
              "new" eq_refl)
    as (Hfail & _ & (d' & ds' & Hok & _ & _ & _ & Hev & _) & _).
  split; [exact Hfail|].
  rewrite Hok. simpl. rewrite Hev. reflexivity.
Defined.

(** ** Destruction of a desktop surface *)

(** Induction over a view tree with the hypothesis for all children. *)
Lemma weston_desktop_view_forall_ind (P : weston_desktop_view -> Prop) :
  (forall w s l, Forall P l -> P (DesktopView w s l)) ->
  forall v, P v.
Proof.
  intros HP. fix IH 1. intros [w s l]. apply HP.
  induction l as [|x r IHr]; constructor; [apply IH|exact IHr].
Qed.

Lemma forest_labels_cons (v : weston_desktop_view)
    (f : list weston_desktop_view) :
  forest_labels (v :: f) = forest_labels [v] ++ forest_labels f.
Proof.
  unfold forest_labels, forest_nodes. simpl. rewrite app_nil_r.
  apply map_app.
Qed.

Lemma forest_labels_node (w s : positive) (l : list weston_desktop_view) :
  forest_labels [DesktopView w s l] = (w, s) :: forest_labels l.
Proof.
  unfold forest_labels, forest_nodes. simpl. rewrite app_nil_r. reflexivity.
Qed.

Lemma in_forest_labels (x : positive * positive)
    (f : list weston_desktop_view) :
  In x (forest_labels f) <-> exists v, In v f /\ In x (forest_labels [v]).
Proof.
  induction f as [|v f IH].
  - simpl. split; [intros []|intros (v & [] & _)].
  - rewrite forest_labels_cons, in_app_iff, IH. split.
    + intros [H|(v' & Hv' & H)].
      * exists v. split; [left; reflexivity|exact H].
      * exists v'. split; [right; exact Hv'|exact H].
    + intros (v' & [->|Hv'] & H); [left; exact H|].
      right. exists v'. split; assumption.
Qed.

(** Unlinking a view removes it and keeps nothing that was not there. *)
Lemma dv_remove_labels (w : positive) :
  forall v v' x,
    dv_remove w v = Some v' ->
    In x (forest_labels [v']) ->
    In x (forest_labels [v]) /\ fst x <> w.
Proof.
  induction v as [w' s l IH] using weston_desktop_view_forall_ind.
  intros v' x Hrm Hin. simpl in Hrm.
  destruct (Pos.eqb_spec w' w) as [Heq|Hne]; [discriminate|].
  injection Hrm as <-.
  rewrite forest_labels_node in Hin. rewrite forest_labels_node.
  destruct Hin as [<-|Hin].
  - split; [left; reflexivity|exact Hne].
  - apply in_forest_labels in Hin. destruct Hin as (c' & Hc' & Hx).
    apply list_elem_of_In, list_elem_of_omap in Hc'.
    destruct Hc' as (c & Hc & Hrc).
    rewrite Forall_forall in IH.
    destruct (IH c Hc c' x Hrc Hx) as [Hxc Hxw].
    split; [|exact Hxw].
    right. apply in_forest_labels. exists c.
    split; [apply list_elem_of_In; exact Hc|exact Hxc].
Qed.

Lemma forest_remove_labels (w : positive) (f : list weston_desktop_view)
    (x : positive * positive) :
  In x (forest_labels (omap (dv_remove w) f)) ->
  In x (forest_labels f) /\ fst x <> w.
Proof.
  intros Hin. apply in_forest_labels in Hin.
  destruct Hin as (v' & Hv' & Hx).
  apply list_elem_of_In, list_elem_of_omap in Hv'.
  destruct Hv' as (v & Hv & Hrv).
  destruct (dv_remove_labels w v v' x Hrv Hx) as [Hxv Hxw].
  split; [|exact Hxw].
  apply in_forest_labels. exists v.
  split; [apply list_elem_of_In; exact Hv|exact Hxv].
Qed.


(** Destroying a view that has a parent destroys every [weston_view] of
    its tree. *)
Lemma destroy_tree_all (v : weston_desktop_view) :
  forall x, In x (forest_labels [v]) ->
            In (fst x) (weston_desktop_view_destroy_tree true v).
Proof.
  induction v as [w s l IH] using weston_desktop_view_forall_ind.
  intros x Hx. rewrite forest_labels_node in Hx. simpl.
  apply in_app_iff. destruct Hx as [<-|Hx]; [right; left; reflexivity|].
  left. apply in_forest_labels in Hx. destruct Hx as (c & Hc & Hx).
  apply in_flat_map. exists c. split; [exact Hc|].
  rewrite Forall_forall in IH. apply IH; [apply list_elem_of_In|]; assumption.
Qed.

(** A view that hangs under a parent stays where it is when another view
    is destroyed, or its [weston_view] is destroyed on the way. *)
Lemma dv_remove_accounts (w0 : positive) :
  forall v hp x,
    In x (if hp : bool then forest_labels [v]
          else forest_labels (dv_children v)) ->
    (exists v', dv_remove w0 v = Some v'
                /\ In x (if hp then forest_labels [v']
                         else forest_labels (dv_children v')))
    \/ In (fst x) (dv_destroyed w0 hp v).
Proof.
  induction v as [w s l IH] using weston_desktop_view_forall_ind.
  intros hp x Hx. cbn [dv_children] in Hx. simpl dv_remove. simpl dv_destroyed.
  destruct (Pos.eqb_spec w w0) as [Heq|Hne].
  - right. apply in_app_iff. destruct hp.
    + rewrite forest_labels_node in Hx.
      destruct Hx as [<-|Hx]; [right; left; reflexivity|].
      left. apply in_forest_labels in Hx. destruct Hx as (c & Hc & Hx).
      apply in_flat_map. exists c. split; [exact Hc|].
      apply destroy_tree_all. exact Hx.
    + left. apply in_forest_labels in Hx. destruct Hx as (c & Hc & Hx).
      apply in_flat_map. exists c. split; [exact Hc|].
      apply destroy_tree_all. exact Hx.
  - assert (Hkids : In x (forest_labels l) ->
                    In x (forest_labels (omap (dv_remove w0) l))
                    \/ In (fst x) (flat_map (dv_destroyed w0 true) l)).
    { intros Hin. apply in_forest_labels in Hin.
      destruct Hin as (c & Hc & Hxc).
      rewrite Forall_forall in IH.
      destruct (IH c (proj2 (list_elem_of_In _ _) Hc) true x Hxc)
        as [(c' & Hrc & Hxc')|Hd].
      - left. apply in_forest_labels. exists c'. split; [|exact Hxc'].
        apply list_elem_of_In, list_elem_of_omap. exists c.
        split; [apply list_elem_of_In; exact Hc|exact Hrc].
      - right. apply in_flat_map. exists c. split; assumption. }
    destruct hp.
    + rewrite forest_labels_node in Hx. destruct Hx as [<-|Hx].
      * left. eexists. split; [reflexivity|].
        rewrite forest_labels_node. left. reflexivity.
      * destruct (Hkids Hx) as [H|H]; [|right; exact H].
        left. eexists. split; [reflexivity|].
        rewrite forest_labels_node. right. exact H.
    + destruct (Hkids Hx) as [H|H]; [|right; exact H].
      left. eexists. split; [reflexivity|]. exact H.
Qed.

Lemma forest_remove_accounts (w0 : positive) (f : list weston_desktop_view)
    (x : positive * positive) :
  In x (inner_labels f) ->
  In x (inner_labels (omap (dv_remove w0) f))
  \/ In (fst x) (flat_map (dv_destroyed w0 false) f).
Proof.
  unfold inner_labels at 1. rewrite in_flat_map. intros (v & Hv & Hx).
  destruct (dv_remove_accounts w0 v false x Hx) as [(v' & Hrv & Hx')|Hd].
  - left. unfold inner_labels. apply in_flat_map. exists v'.
    split; [|exact Hx'].
    apply list_elem_of_In, list_elem_of_omap. exists v.
    split; [apply list_elem_of_In; exact Hv|exact Hrv].
  - right. apply in_flat_map. exists v. split; assumption.
Qed.















Lemma destroy_tree_sub (v : weston_desktop_view) :
  forall hp x,
    In x (weston_desktop_view_destroy_tree hp v) ->
    In x (map fst (if hp : bool then forest_labels [v]
                   else forest_labels (dv_children v))).
Proof.
  induction v as [w s l IH] using weston_desktop_view_forall_ind.
  intros hp x Hx. simpl in Hx. cbn [dv_children].
  assert (Hkids : In x (flat_map (weston_desktop_view_destroy_tree true) l) ->
                  In x (map fst (forest_labels l))).
  { intros Hin. apply in_flat_map in Hin. destruct Hin as (c & Hc & Hxc).
    rewrite Forall_forall in IH.
    pose proof (IH c (proj2 (list_elem_of_In _ _) Hc) true x Hxc) as Hin.
    apply in_map_iff in Hin. destruct Hin as (y & Hy & Hyc).
    apply in_map_iff. exists y. split; [exact Hy|].
    apply in_forest_labels. exists c. split; assumption. }
  apply in_app_iff in Hx. destruct hp.
  - rewrite forest_labels_node. simpl.
    destruct Hx as [Hx|[<-|[]]]; [right; apply Hkids; exact Hx|].
    left. reflexivity.
  - destruct Hx as [Hx|[]]. apply Hkids. exact Hx.
Qed.

Lemma dv_destroyed_sub (w0 : positive) (v : weston_desktop_view) :
  forall hp x,
    In x (dv_destroyed w0 hp v) ->
    In x (map fst (if hp : bool then forest_labels [v]
                   else forest_labels (dv_children v))).
Proof.
  induction v as [w s l IH] using weston_desktop_view_forall_ind.
  intros hp x Hx. simpl dv_destroyed in Hx.
  destruct (Pos.eqb w w0); [apply destroy_tree_sub; exact Hx|].
  cbn [dv_children].
  assert (Hkids : In x (map fst (forest_labels l))).
  { apply in_flat_map in Hx. destruct Hx as (c & Hc & Hxc).
    rewrite Forall_forall in IH.
    pose proof (IH c (proj2 (list_elem_of_In _ _) Hc) true x Hxc) as Hin.
    apply in_map_iff in Hin. destruct Hin as (y & Hy & Hyc).
    apply in_map_iff. exists y. split; [exact Hy|].
    apply in_forest_labels. exists c. split; assumption. }
  destruct hp; [|exact Hkids].
  rewrite forest_labels_node. simpl. right. exact Hkids.
Qed.












Example destroy_family_events :
  option_map devents (weston_desktop_surface_destroy example_family 2)
  = Some [ev_implementation_destroy 2;
          ev_weston_view_destroy 30; ev_weston_view_destroy 20;
          ev_end_grabs_on_seats 2;
          ev_free_string (Some "S"%string); ev_free_string None;
          ev_free_surface 2].
Proof. reflexivity. Qed.

(** ** Stacking: an example *)

Example activate_example_layers :
  option_map (fun h => (st_layers h fullscreen_layer,
                        st_layers h workspace_layer,
                        ss_lowered (get_shsurf h 102),
                        ss_lowered (get_shsurf h 103),
                        keyboard_focus (get_focus_state h 200)))
    (activate 0 example_stack 11 1 WESTON_ACTIVATE_FLAG_CONFIGURE
              example_oracle)
  = Some ([13; 23]%positive, [11; 12]%positive, true, false,
          Some 1%positive).
Proof. reflexivity. Qed.

Example activate_fullscreen_example_layers :
  option_map (fun h => (st_layers h fullscreen_layer,
                        st_layers h workspace_layer,
                        ss_lowered (get_shsurf h 102)))
    (activate 0 example_stack 12 1 WESTON_ACTIVATE_FLAG_CONFIGURE
              example_oracle)
  = Some ([12; 22; 13; 23]%positive, [11%positive], false).
Proof. reflexivity. Qed.

(** ** Stacking: what the primitive operations touch *)

Lemma in_remove_view (u v : positive) (l : list positive) :
  In u (remove_view v l) <-> In u l /\ u <> v.
Proof.
  unfold remove_view. rewrite filter_In, negb_true_iff, Pos.eqb_neq.
  reflexivity.
Qed.

Lemma in_insert_after (u w v : positive) (l : list positive) :
  In u (insert_after w v l) <-> In u l \/ (u = v /\ In w l).
Proof.
  induction l as [|x r IH]; simpl.
  - split; [intros []|intros [[]|[_ []]]].
  - destruct (Pos.eqb_spec x w) as [->|Hne]; simpl.
    + split.
      * intros [H|[H|H]]; auto.
      * intros [[H|H]|[H _]]; auto.
    + rewrite IH. split.
      * intros [H|[H|[H1 H2]]]; auto.
      * intros [[H|H]|[H1 [H2|H2]]]; auto. contradiction.
Qed.

Lemma layer_eqb_eq (a b : layer_id) : layer_eqb a b = true <-> a = b.
Proof. destruct a, b; simpl; split; intros H; congruence. Qed.

Lemma option_pos_eqb_eq (a b : option positive) :
  option_pos_eqb a b = true <-> a = b.
Proof.
  destruct a as [x|], b as [y|]; simpl;
    try (split; intros H; congruence).
  rewrite Pos.eqb_eq. split; intros H; congruence.
Qed.

(** [weston_view_move_to_layer] touches the layers and the moved view's
    mapped flag, and nothing else. *)
Lemma move_to_layer_rest (h : shell_state) (v : positive)
    (e : option layer_entry) :
  st_surfaces (weston_view_move_to_layer h v e) = st_surfaces h
  /\ st_shsurfs (weston_view_move_to_layer h v e) = st_shsurfs h
  /\ st_seats (weston_view_move_to_layer h v e) = st_seats h
  /\ st_focus_states (weston_view_move_to_layer h v e) = st_focus_states h
  /\ ws_focus_list (weston_view_move_to_layer h v e) = ws_focus_list h
  /\ ws_fsurf_front (weston_view_move_to_layer h v e) = ws_fsurf_front h
  /\ ws_fsurf_back (weston_view_move_to_layer h v e) = ws_fsurf_back h
  /\ focus_animation_type (weston_view_move_to_layer h v e)
     = focus_animation_type h
  /\ next_id (weston_view_move_to_layer h v e) = next_id h.
Proof.
  destruct e as [[l0|w]|]; simpl; [| |repeat split].
  - repeat split.
  - destruct (Pos.eqb w v); repeat split.
Qed.

Lemma set_is_mapped_view_surface (h : shell_state) (v u : positive)
    (b : bool) :
  view_surface (get_view (set_is_mapped h v b) u)
  = view_surface (get_view h u).
Proof.
  unfold set_is_mapped, get_view. cbn [st_views set_views].
  destruct (decide (u = v)) as [->|Hne].
  - rewrite lookup_insert_eq. reflexivity.
  - rewrite lookup_insert_ne by congruence. reflexivity.
Qed.

Lemma move_to_layer_view_surface (h : shell_state) (v u : positive)
    (e : option layer_entry) :
  view_surface (get_view (weston_view_move_to_layer h v e) u)
  = view_surface (get_view h u).
Proof.
  destruct e as [[l0|w]|]; simpl.
  - rewrite set_is_mapped_view_surface. reflexivity.
  - destruct (Pos.eqb w v); [reflexivity|].
    rewrite set_is_mapped_view_surface. reflexivity.
  - rewrite set_is_mapped_view_surface. reflexivity.
Qed.

(** Where a view is after a move. *)
Lemma move_to_layer_other (h : shell_state) (v u : positive)
    (e : option layer_entry) (l : layer_id) :
  u <> v ->
  In u (st_layers (weston_view_move_to_layer h v e) l)
  <-> In u (st_layers h l).
Proof.
  intros Hne. destruct e as [[l0|w]|]; simpl.
  - destruct (layer_eqb l l0); simpl; rewrite in_remove_view;
      intuition congruence.
  - destruct (Pos.eqb w v); [reflexivity|]. simpl.
    rewrite in_insert_after, in_remove_view. intuition congruence.
  - rewrite in_remove_view. tauto.
Qed.

Lemma move_to_layer_head (h : shell_state) (v : positive) (l0 l : layer_id) :
  In v (st_layers (weston_view_move_to_layer h v
                     (Some (layer_view_list l0))) l)
  <-> l = l0.
Proof.
  simpl. destruct (layer_eqb l l0) eqn:E.
  - apply layer_eqb_eq in E. simpl. tauto.
  - rewrite in_remove_view. split; [tauto|].
    intros ->. destruct l0; discriminate.
Qed.

Lemma move_to_layer_none (h : shell_state) (v : positive) (l : layer_id) :
  ~ In v (st_layers (weston_view_move_to_layer h v None) l).
Proof. simpl. rewrite in_remove_view. tauto. Qed.

Lemma move_to_layer_after (h : shell_state) (v w : positive) (l : layer_id) :
  w <> v ->
  In v (st_layers (weston_view_move_to_layer h v
                     (Some (view_layer_link w))) l)
  <-> In w (st_layers h l).
Proof.
  intros Hne. simpl.
  destruct (Pos.eqb_spec w v) as [Heq|_]; [contradiction|]. simpl.
  rewrite in_insert_after, !in_remove_view. tauto.
Qed.

(** The accessors that read maps which a move leaves alone. *)
Lemma move_to_layer_get_shsurf (h : shell_state) (v x : positive)
    (e : option layer_entry) :
  get_shsurf (weston_view_move_to_layer h v e) x = get_shsurf h x.
Proof.
  unfold get_shsurf.
  destruct (move_to_layer_rest h v e) as (_ & -> & _). reflexivity.
Qed.

Lemma move_to_layer_get_surface (h : shell_state) (v s : positive)
    (e : option layer_entry) :
  get_surface (weston_view_move_to_layer h v e) s = get_surface h s.
Proof.
  unfold get_surface.
  destruct (move_to_layer_rest h v e) as (-> & _). reflexivity.
Qed.

Lemma update_shsurf_layers (h : shell_state) (x : positive)
    (f : stack_surface -> stack_surface) :
  st_layers (update_shsurf h x f) = st_layers h.
Proof. reflexivity. Qed.

Lemma update_shsurf_get (h : shell_state) (x y : positive)
    (f : stack_surface -> stack_surface) :
  get_shsurf (update_shsurf h x f) y
  = if Pos.eqb y x then f (get_shsurf h x) else get_shsurf h y.
Proof.
  unfold update_shsurf, get_shsurf at 1. cbn [st_shsurfs set_shsurfs].
  destruct (Pos.eqb_spec y x) as [->|Hne].
  - rewrite lookup_insert_eq. reflexivity.
  - rewrite lookup_insert_ne by congruence. reflexivity.
Qed.

(** ** Lowering the fullscreen layer *)

Lemma lower_fullscreen_view_eq (lo : option positive) (h : shell_state)
    (v : positive) :
  lower_fullscreen_view lo h v
  = match lowers lo h v with
    | Some sh => lower_one h v sh
    | None => h
    end.
Proof.
  unfold lower_fullscreen_view, lowers, view_shsurf, lower_one.
  destruct (get_shell_surface h (view_surface (get_view h v))) as [sh|];
    [|reflexivity].
  destruct lo as [o|]; [|reflexivity].
  destruct (option_pos_eqb (ss_fullscreen_output (get_shsurf h sh)) (Some o));
    reflexivity.
Qed.

Lemma same_shape_refl (h : shell_state) : same_shape h h.
Proof. repeat split. Qed.

Lemma same_shape_fields (h0 h : shell_state) (x : positive) :
  same_shape h0 h ->
  ss_fullscreen_output (get_shsurf h x) = ss_fullscreen_output (get_shsurf h0 x)
  /\ ss_black_view (get_shsurf h x) = ss_black_view (get_shsurf h0 x)
  /\ ss_view (get_shsurf h x) = ss_view (get_shsurf h0 x)
  /\ ss_output (get_shsurf h x) = ss_output (get_shsurf h0 x)
  /\ ss_desktop_surface (get_shsurf h x) = ss_desktop_surface (get_shsurf h0 x)
  /\ ss_children_list (get_shsurf h x) = ss_children_list (get_shsurf h0 x)
  /\ ss_focus_count (get_shsurf h x) = ss_focus_count (get_shsurf h0 x).
Proof.
  intros (_ & _ & H & _). specialize (H x).
  unfold set_lowered in H. injection H. intros. repeat split; assumption.
Qed.

Lemma same_shape_lowers (lo : option positive) (h0 h : shell_state)
    (v : positive) :
  same_shape h0 h -> lowers lo h v = lowers lo h0 v.
Proof.
  intros Hs. pose proof Hs as (Hsurf & Hview & _).
  unfold lowers, view_shsurf, get_shell_surface.
  rewrite Hview, Hsurf.
  destruct (committed_eqb _ _); [|reflexivity].
  destruct (desktop_user_data (get_surface h0 (view_surface (get_view h0 v))))
    as [sh|]; [|reflexivity].
  destruct (same_shape_fields h0 h sh Hs) as (-> & _). reflexivity.
Qed.

Lemma black_out_rest (h : shell_state) (b : option positive) :
  let h1 := match b with
            | Some x => weston_view_move_to_layer h x None
            | None => h
            end in
  (forall s, get_surface h1 s = get_surface h s)
  /\ (forall u, view_surface (get_view h1 u) = view_surface (get_view h u))
  /\ (forall y, get_shsurf h1 y = get_shsurf h y)
  /\ st_seats h1 = st_seats h
  /\ st_focus_states h1 = st_focus_states h
  /\ ws_focus_list h1 = ws_focus_list h
  /\ ws_fsurf_front h1 = ws_fsurf_front h
  /\ ws_fsurf_back h1 = ws_fsurf_back h
  /\ focus_animation_type h1 = focus_animation_type h
  /\ next_id h1 = next_id h.
Proof.
  destruct b as [x|]; cbn zeta; [|repeat split].
  destruct (move_to_layer_rest h x None)
    as (_ & _ & H3 & H4 & H5 & H6 & H7 & H8 & H9).
  split; [intros s; apply move_to_layer_get_surface|].
  split; [intros u; apply move_to_layer_view_surface|].
  split; [intros y; apply move_to_layer_get_shsurf|].
  repeat split; assumption.
Qed.

Lemma lower_one_same_shape (h0 h : shell_state) (v sh : positive) :
  same_shape h0 h -> same_shape h0 (lower_one h v sh).
Proof.
  intros (Hsurf & Hview & Hsh & H3 & H4 & H5 & H6 & H7 & H8 & H9).
  unfold lower_one.
  destruct (black_out_rest h (ss_black_view (get_shsurf h sh)))
    as (B1 & B2 & B3 & B4 & B5 & B6 & B7 & B8 & B9 & B10).
  cbn zeta in *.
  set (hb := match ss_black_view (get_shsurf h sh) with
             | Some b => weston_view_move_to_layer h b None
             | None => h
             end) in *.
  destruct (move_to_layer_rest hb v (Some (layer_view_list workspace_layer)))
    as (_ & _ & M3 & M4 & M5 & M6 & M7 & M8 & M9).
  split; [|split; [|split]].
  - intros s.
    change (get_surface (update_shsurf ?a ?b ?c) s) with (get_surface a s).
    rewrite move_to_layer_get_surface, B1. apply Hsurf.
  - intros u.
    change (get_view (update_shsurf ?a ?b ?c) u) with (get_view a u).
    rewrite move_to_layer_view_surface, B2. apply Hview.
  - intros x. rewrite update_shsurf_get.
    rewrite !move_to_layer_get_shsurf, !B3.
    destruct (Pos.eqb_spec x sh) as [->|_]; [|apply Hsh].
    rewrite <- Hsh. reflexivity.
  - cbn [st_seats st_focus_states ws_focus_list ws_fsurf_front ws_fsurf_back
         focus_animation_type next_id update_shsurf set_shsurfs].
    repeat split; congruence.
Qed.

Lemma lower_step_same_shape (lo : option positive) (h0 h : shell_state)
    (v : positive) :
  same_shape h0 h -> same_shape h0 (lower_fullscreen_view lo h v).
Proof.
  intros Hs. rewrite lower_fullscreen_view_eq.
  destruct (lowers lo h v); [apply lower_one_same_shape|]; exact Hs.
Qed.

(** Where a view is after the visit of one view. *)
Lemma lower_step_layers (lo : option positive) (h0 h : shell_state)
    (v u : positive) (l : layer_id) :
  same_shape h0 h ->
  In u (st_layers (lower_fullscreen_view lo h v) l)
  <-> match lowers lo h0 v with
      | None => In u (st_layers h l)
      | Some sh =>
        if Pos.eqb u v then l = workspace_layer
        else if option_pos_eqb (ss_black_view (get_shsurf h0 sh)) (Some u)
             then False
             else In u (st_layers h l)
      end.
Proof.
  intros Hs. rewrite lower_fullscreen_view_eq.
  rewrite (same_shape_lowers lo h0 h v Hs).
  destruct (lowers lo h0 v) as [sh|]; [|reflexivity].
  destruct (same_shape_fields h0 h sh Hs) as (_ & Hblack & _).
  unfold lower_one. rewrite update_shsurf_layers, Hblack.
  destruct (Pos.eqb_spec u v) as [->|Hne]; [apply move_to_layer_head|].
  rewrite move_to_layer_other by exact Hne.
  destruct (ss_black_view (get_shsurf h0 sh)) as [b|]; [|reflexivity].
  cbn [option_pos_eqb]. destruct (Pos.eqb_spec b u) as [->|Hbu].
  - split; [apply move_to_layer_none|intros []].
  - apply move_to_layer_other. congruence.
Qed.

(** A view that the visit neither lowers nor takes out stays. *)
Lemma lower_fold_other (lo : option positive) (h0 : shell_state)
    (u : positive) (l : layer_id) (vs : list positive) :
  forall h,
    same_shape h0 h ->
    lowered_views lo h0 vs u = false ->
    lowered_curtains lo h0 vs u = false ->
    In u (st_layers (fold_left (lower_fullscreen_view lo) vs h) l)
    <-> In u (st_layers h l).
Proof.
  induction vs as [|v vs IH]; intros h Hs Hv Hc; [reflexivity|].
  simpl fold_left. unfold lowered_views, lowered_curtains in *.
  simpl existsb in Hv, Hc.
  apply orb_false_iff in Hc. destruct Hc as [Hc1 Hc2].
  rewrite IH.
  - rewrite (lower_step_layers lo h0 h v u l Hs).
    destruct (lowers lo h0 v) as [sh|] eqn:Hlv; [|reflexivity].
    rewrite Hc1.
    destruct (Pos.eqb_spec u v) as [->|Hne]; [|reflexivity].
    rewrite Hlv in Hv. simpl in Hv. discriminate.
  - apply lower_step_same_shape. exact Hs.
  - destruct (lowers lo h0 u); [|apply andb_false_r].
    rewrite andb_true_r in *. apply orb_false_iff in Hv. apply Hv.
  - exact Hc2.
Qed.

(** A view that the visit lowers ends in the workspace layer. *)
Lemma lower_fold_lowered (lo : option positive) (h0 : shell_state)
    (u : positive) (l : layer_id) (vs : list positive) :
  forall h,
    same_shape h0 h ->
    lowered_views lo h0 vs u = true ->
    lowered_curtains lo h0 vs u = false ->
    In u (st_layers (fold_left (lower_fullscreen_view lo) vs h) l)
    <-> l = workspace_layer.
Proof.
  induction vs as [|v vs IH]; intros h Hs Hv Hc; [discriminate|].
  simpl fold_left. pose proof Hv as Hv0. pose proof Hc as Hc0.
  unfold lowered_views, lowered_curtains in Hv, Hc.
  simpl existsb in Hv, Hc.
  apply orb_false_iff in Hc. destruct Hc as [Hc1 Hc2].
  apply andb_true_iff in Hv. destruct Hv as [Hin Hlu].
  destruct (existsb (Pos.eqb u) vs) eqn:Hvs.
  - apply IH.
    + apply lower_step_same_shape. exact Hs.
    + unfold lowered_views. rewrite Hvs, Hlu. reflexivity.
    + exact Hc2.
  - rewrite orb_false_r in Hin. apply Pos.eqb_eq in Hin. subst v.
    rewrite lower_fold_other.
    + rewrite (lower_step_layers lo h0 h u u l Hs).
      destruct (lowers lo h0 u); [|discriminate].
      rewrite Pos.eqb_refl. reflexivity.
    + apply lower_step_same_shape. exact Hs.
    + unfold lowered_views. rewrite Hvs. reflexivity.
    + exact Hc2.
Qed.

(** A curtain that the visit takes out, and that is not itself a lowered
    view, ends in no layer. *)
Lemma lower_fold_curtain (lo : option positive) (h0 : shell_state)
    (u : positive) (l : layer_id) (vs : list positive) :
  forall h,
    same_shape h0 h ->
    lowered_curtains lo h0 vs u = true ->
    lowered_views lo h0 vs u = false ->
    ~ In u (st_layers (fold_left (lower_fullscreen_view lo) vs h) l).
Proof.
  induction vs as [|v vs IH]; intros h Hs Hc Hv; [discriminate|].
  simpl fold_left.
  assert (Hv' : lowered_views lo h0 vs u = false).
  { unfold lowered_views in *. simpl existsb in Hv.
    destruct (lowers lo h0 u); [|apply andb_false_r].
    rewrite andb_true_r in *. apply orb_false_iff in Hv. apply Hv. }
  destruct (lowered_curtains lo h0 vs u) eqn:Hc2.
  - apply IH; [apply lower_step_same_shape; exact Hs|reflexivity|exact Hv'].
  - rewrite lower_fold_other;
      [|apply lower_step_same_shape; exact Hs|exact Hv'|exact Hc2].
    rewrite (lower_step_layers lo h0 h v u l Hs).
    unfold lowered_curtains in Hc, Hc2. simpl existsb in Hc.
    rewrite Hc2, orb_false_r in Hc.
    destruct (lowers lo h0 v) as [sh|] eqn:Hlv; [|discriminate].
    rewrite Hc.
    destruct (Pos.eqb_spec u v) as [->|Hne]; [|tauto].
    unfold lowered_views in Hv. simpl existsb in Hv.
    rewrite Pos.eqb_refl, Hlv in Hv. discriminate.
Qed.

(** The shell surfaces after a visit: the lowered ones are marked, and
    nothing else changes. *)
Lemma lower_fold_shsurf (lo : option positive) (h0 : shell_state)
    (x : positive) (vs : list positive) :
  forall h,
    same_shape h0 h ->
    get_shsurf (fold_left (lower_fullscreen_view lo) vs h) x
    = if lowered_shsurfs lo h0 vs x then set_lowered true (get_shsurf h x)
      else get_shsurf h x.
Proof.
  induction vs as [|v vs IH]; intros h Hs; [reflexivity|].
  simpl fold_left. rewrite IH by (apply lower_step_same_shape; exact Hs).
  unfold lowered_shsurfs. simpl existsb.
  assert (Hstep : get_shsurf (lower_fullscreen_view lo h v) x
                  = if option_pos_eqb (lowers lo h0 v) (Some x)
                    then set_lowered true (get_shsurf h x)
                    else get_shsurf h x).
  { rewrite lower_fullscreen_view_eq.
    rewrite (same_shape_lowers lo h0 h v Hs).
    destruct (lowers lo h0 v) as [sh|]; [|reflexivity].
    unfold lower_one. rewrite update_shsurf_get.
    simpl option_pos_eqb. rewrite (Pos.eqb_sym sh x).
    destruct (Pos.eqb_spec x sh) as [->|Hne].
    - rewrite move_to_layer_get_shsurf.
      destruct (ss_black_view (get_shsurf h sh));
        [rewrite move_to_layer_get_shsurf|]; reflexivity.
    - rewrite move_to_layer_get_shsurf.
      destruct (ss_black_view (get_shsurf h sh));
        [rewrite move_to_layer_get_shsurf|]; reflexivity. }
  rewrite Hstep.
  destruct (option_pos_eqb (lowers lo h0 v) (Some x));
    destruct (existsb _ vs); reflexivity.
Qed.

Lemma lower_fold_same_shape (lo : option positive) (h0 : shell_state)
    (vs : list positive) :
  forall h, same_shape h0 h ->
            same_shape h0 (fold_left (lower_fullscreen_view lo) vs h).
Proof.
  induction vs as [|v vs IH]; intros h Hs; [exact Hs|].
  simpl. apply IH. apply lower_step_same_shape. exact Hs.
Qed.

(** ** Activation: what it restacks besides the lowering *)

Lemma restacked_view (h : shell_state) (X : positive) :
  restacked h X (ss_view (get_shsurf h X)) = true.
Proof. unfold restacked. rewrite Pos.eqb_refl. reflexivity. Qed.

Lemma restacked_black (h : shell_state) (X b : positive) :
  ss_black_view (get_shsurf h X) = Some b -> restacked h X b = true.
Proof.
  intros H. unfold restacked. rewrite H. simpl. rewrite Pos.eqb_refl.
  rewrite orb_true_r. reflexivity.
Qed.

Lemma restacked_fresh (h : shell_state) (X b : positive) :
  (next_id h <= b)%positive -> restacked h X b = true.
Proof.
  intros H. unfold restacked. apply Pos.leb_le in H. rewrite H.
  rewrite !orb_true_r. reflexivity.
Qed.

Lemma restacked_inner (h : shell_state) (X u : positive) :
  In u (role_inner_views (get_shsurf h X)) -> restacked h X u = true.
Proof.
  intros H. unfold restacked.
  assert (E : existsb (Pos.eqb u) (role_inner_views (get_shsurf h X)) = true).
  { apply existsb_exists. exists u. split; [exact H|apply Pos.eqb_refl]. }
  rewrite E, !orb_true_r. reflexivity.
Qed.

Lemma restacked_front (h : shell_state) (X u : positive) :
  ws_fsurf_front h = Some u -> restacked h X u = true.
Proof.
  intros H. unfold restacked. rewrite H. simpl. rewrite Pos.eqb_refl.
  rewrite !orb_true_r. reflexivity.
Qed.

Lemma restacked_back (h : shell_state) (X u : positive) :
  ws_fsurf_back h = Some u -> restacked h X u = true.
Proof.
  intros H. unfold restacked. rewrite H. simpl. rewrite Pos.eqb_refl.
  rewrite !orb_true_r. reflexivity.
Qed.

(** The invariant holds right after the lowering. *)
Lemma activation_inv_start (h0 h1 : shell_state) (X : positive) :
  same_shape h0 h1 -> activation_inv h0 X h1 h1.
Proof.
  intros Hs.
  destruct (same_shape_fields h0 h1 X Hs) as (F1 & F2 & F3 & F4 & F5 & F6 & _).
  destruct Hs as (_ & _ & _ & _ & _ & _ & H7 & H8 & H9 & H10).
  split; [reflexivity|]. split; [reflexivity|].
  split; [unfold static_part; congruence|].
  split; [split; [intros b Hb; apply restacked_black; congruence
                |rewrite F2; auto]|].
  repeat split; try assumption. rewrite H10. apply Pos.le_refl.
Qed.

(** A step that leaves the layers and the shell surfaces alone. *)
Lemma activation_inv_quiet (h0 h1 h h' : shell_state) (X : positive) :
  activation_inv h0 X h1 h ->
  st_layers h' = st_layers h ->
  (forall x, forget_focus_count (get_shsurf h' x)
             = forget_focus_count (get_shsurf h x)) ->
  ws_fsurf_front h' = ws_fsurf_front h ->
  ws_fsurf_back h' = ws_fsurf_back h ->
  focus_animation_type h' = focus_animation_type h ->
  (next_id h <= next_id h')%positive ->
  activation_inv h0 X h1 h'.
Proof.
  intros (I1 & I2 & I3 & I4 & I5 & I6 & I7 & I8) Hl Hx Hf Hb Ha Hn.
  assert (Hfield : forall x,
             static_part (get_shsurf h' x) = static_part (get_shsurf h x)
             /\ ss_black_view (get_shsurf h' x) = ss_black_view (get_shsurf h x)).
  { intros x. specialize (Hx x). unfold forget_focus_count in Hx.
    injection Hx. intros. unfold static_part. split; congruence. }
  split; [intros u l Hu; rewrite Hl; apply I1; exact Hu|].
  split; [intros x Hne; rewrite Hx; apply I2; exact Hne|].
  split; [rewrite (proj1 (Hfield X)); exact I3|].
  split; [split; [intros b Hb'; apply (proj1 I4);
                         rewrite <- (proj2 (Hfield X)); exact Hb'
                |rewrite (proj2 (Hfield X)); apply (proj2 I4)]|].
  repeat split; try congruence. eapply Pos.le_trans; eassumption.
Qed.

(** A step that restacks one view of [X]'s. *)
Lemma activation_inv_move (h0 h1 h : shell_state) (X v : positive)
    (e : option layer_entry) :
  activation_inv h0 X h1 h ->
  restacked h0 X v = true ->
  activation_inv h0 X h1 (weston_view_move_to_layer h v e).
Proof.
  intros (I1 & I2 & I3 & I4 & I5 & I6 & I7 & I8) Hv.
  destruct (move_to_layer_rest h v e)
    as (_ & _ & _ & _ & _ & M6 & M7 & M8 & M9).
  split; [|split; [|split; [|split]]].
  - intros u l Hu. rewrite move_to_layer_other; [apply I1; exact Hu|].
    intros ->. congruence.
  - intros x Hne. rewrite move_to_layer_get_shsurf. apply I2. exact Hne.
  - rewrite move_to_layer_get_shsurf. exact I3.
  - rewrite move_to_layer_get_shsurf. exact I4.
  - repeat split; congruence.
Qed.

Lemma propagate_layer_inv (h0 h1 : shell_state) (X : positive) :
  forall t h,
    activation_inv h0 X h1 h ->
    (forall u, In u (map dv_view (flat_map dv_nodes (dv_children t))) ->
               restacked h0 X u = true) ->
    activation_inv h0 X h1 (weston_desktop_view_propagate_layer h t).
Proof.
  induction t as [w s l IH] using weston_desktop_view_forall_ind.
  intros h Hinv Hm. cbn [dv_children] in Hm. simpl.
  induction l as [|c l IHl]; [exact Hinv|].
  simpl fold_right. inversion IH as [|c' l' IHc IHrest]; subst.
  apply IHc.
  - apply activation_inv_move.
    + apply IHl; [exact IHrest|].
      intros u Hu. apply Hm. simpl. rewrite map_app, in_app_iff.
      right. exact Hu.
    + apply Hm. simpl. rewrite map_app, in_app_iff. left.
      destruct c as [wc sc lc]. simpl. left. reflexivity.
  - intros u Hu. apply Hm. simpl. rewrite map_app, in_app_iff. left.
    destruct c as [wc sc lc]. simpl. right. exact Hu.
Qed.

Lemma propagate_surface_inv (h0 h1 : shell_state) (X : positive)
    (role : desktop_role) :
  forall h,
    activation_inv h0 X h1 h ->
    (forall u, In u (inner_views (role_view_list role)) ->
               restacked h0 X u = true) ->
    activation_inv h0 X h1 (weston_desktop_surface_propagate_layer h role).
Proof.
  unfold weston_desktop_surface_propagate_layer, inner_views.
  induction (role_view_list role) as [|t ts IH]; intros h Hinv Hm;
    [exact Hinv|].
  simpl fold_left. apply IH.
  - apply propagate_layer_inv; [exact Hinv|].
    intros u Hu. apply Hm. simpl. rewrite map_app, in_app_iff.
    left. exact Hu.
  - intros u Hu. apply Hm. simpl. rewrite map_app, in_app_iff.
    right. exact Hu.
Qed.

Lemma activation_inv_view (h0 h1 h : shell_state) (X : positive) :
  activation_inv h0 X h1 h ->
  ss_view (get_shsurf h X) = ss_view (get_shsurf h0 X)
  /\ ss_desktop_surface (get_shsurf h X) = ss_desktop_surface (get_shsurf h0 X)
  /\ ss_fullscreen_output (get_shsurf h X)
     = ss_fullscreen_output (get_shsurf h0 X).
Proof.
  intros (_ & _ & I3 & _). unfold static_part in I3. injection I3.
  intros. repeat split; assumption.
Qed.

(** [shell_surface_update_layer] on [X]. *)
Lemma update_layer_inv (h0 h1 h : shell_state) (X : positive) :
  activation_inv h0 X h1 h ->
  is_Some (ss_desktop_surface (get_shsurf h0 X)) ->
  exists h',
    shell_surface_update_layer h X = Some h'
    /\ activation_inv h0 X h1 h'.
Proof.
  intros Hinv [role Hrole].
  destruct (activation_inv_view h0 h1 h X Hinv) as (Hv & Hd & _).
  unfold shell_surface_update_layer, shell_surface_calculate_layer_link.
  rewrite Hd, Hrole.
  assert (Hgo : forall e,
             activation_inv h0 X h1
               (weston_desktop_surface_propagate_layer
                  (weston_view_move_to_layer h (ss_view (get_shsurf h X))
                                             (Some e)) role)).
  { intros e. apply propagate_surface_inv.
    - apply activation_inv_move; [exact Hinv|].
      rewrite Hv. apply restacked_view.
    - intros u Hu. apply restacked_inner. unfold role_inner_views.
      rewrite Hrole. exact Hu. }
  destruct (role_fullscreen role && negb (ss_lowered (get_shsurf h X)));
    eexists; (split; [reflexivity|apply Hgo]).
Qed.

(** [curtain_create] allocates and links nothing. *)
Lemma curtain_create_inv (h0 h1 h : shell_state) (X : positive)
    (c : committed_t) :
  activation_inv h0 X h1 h ->
  activation_inv h0 X h1 (snd (curtain_create h c))
  /\ (next_id h0 <= fst (curtain_create h c))%positive.
Proof.
  intros Hinv. split.
  - apply (activation_inv_quiet h0 h1 h); try reflexivity; [exact Hinv|].
    unfold curtain_create. cbn [snd next_id]. lia.
  - destruct Hinv as (_ & _ & _ & _ & _ & _ & _ & Hn).
    unfold curtain_create. cbn [fst]. lia.
Qed.

(** Setting a field of [X] that is neither static nor the curtain. *)
Lemma activation_inv_set_lowered (h0 h1 h : shell_state) (X : positive)
    (b : bool) :
  activation_inv h0 X h1 h ->
  activation_inv h0 X h1 (update_shsurf h X (set_lowered b)).
Proof.
  intros (I1 & I2 & I3 & I4 & I5 & I6 & I7 & I8).
  split; [exact I1|]. split; [|split; [|split]].
  - intros x Hne. rewrite update_shsurf_get.
    destruct (Pos.eqb_spec x X) as [->|_]; [contradiction|].
    apply I2. exact Hne.
  - rewrite update_shsurf_get, Pos.eqb_refl. exact I3.
  - rewrite update_shsurf_get, Pos.eqb_refl. exact I4.
  - repeat split; assumption.
Qed.

Lemma activation_inv_set_black (h0 h1 h : shell_state) (X b : positive) :
  activation_inv h0 X h1 h ->
  restacked h0 X b = true ->
  activation_inv h0 X h1 (update_shsurf h X (set_black_view (Some b))).
Proof.
  intros (I1 & I2 & I3 & I4 & I5 & I6 & I7 & I8) Hb.
  split; [exact I1|]. split; [|split; [|split]].
  - intros x Hne. rewrite update_shsurf_get.
    destruct (Pos.eqb_spec x X) as [->|_]; [contradiction|].
    apply I2. exact Hne.
  - rewrite update_shsurf_get, Pos.eqb_refl. exact I3.
  - rewrite update_shsurf_get, Pos.eqb_refl.
    cbn [ss_black_view set_black_view]. split.
    + intros b' E. injection E as <-. exact Hb.
    + intros _. eexists. reflexivity.
  - repeat split; assumption.
Qed.

(** [shell_set_view_fullscreen] on [X]. *)
Lemma set_view_fullscreen_inv (h0 h1 h : shell_state) (X : positive)
    (curtain_ok : bool) (role : desktop_role) :
  activation_inv h0 X h1 h ->
  ss_desktop_surface (get_shsurf h0 X) = Some role ->
  role_fullscreen role = true ->
  is_Some (ss_fullscreen_output (get_shsurf h0 X)) ->
  (is_Some (ss_black_view (get_shsurf h0 X)) \/ curtain_ok = true) ->
  exists h',
    shell_set_view_fullscreen h X curtain_ok = Some h'
    /\ activation_inv h0 X h1 h'.
Proof.
  intros Hinv Hrole Hfs [fo Hfo] Hcur.
  destruct (activation_inv_view h0 h1 h X Hinv) as (Hv & Hd & Hf).
  unfold shell_set_view_fullscreen. rewrite Hf, Hfo, Hd, Hrole, Hfs.
  cbn [negb].
  set (hm := weston_view_move_to_layer h (ss_view (get_shsurf h X))
               (Some (layer_view_list fullscreen_layer))).
  assert (Hm : activation_inv h0 X h1 hm).
  { apply activation_inv_move; [exact Hinv|].
    rewrite Hv. apply restacked_view. }
  destruct (ss_black_view (get_shsurf h X)) as [b|] eqn:Hb.
  - eexists. split; [reflexivity|].
    apply activation_inv_set_lowered.
    apply activation_inv_move; [exact Hm|].
    destruct Hinv as (_ & _ & _ & I4 & _). apply (proj1 I4). exact Hb.
  - assert (Hok : curtain_ok = true).
    { destruct Hcur as [Hb0|Hok]; [|exact Hok].
      destruct Hinv as (_ & _ & _ & I4 & _).
      apply (proj2 I4) in Hb0. rewrite Hb in Hb0.
      destruct Hb0 as [? Hb0]. discriminate. }
    rewrite Hok.
    destruct (curtain_create_inv h0 h1 hm X black_surface_committed Hm)
      as [Hc Hfresh].
    destruct (curtain_create hm black_surface_committed) as [b hc] eqn:Ecc.
    cbn [fst snd] in Hc, Hfresh.
    eexists. split; [reflexivity|].
    apply activation_inv_set_lowered.
    apply activation_inv_move; [|apply restacked_fresh; exact Hfresh].
    apply activation_inv_set_black; [exact Hc|].
    apply restacked_fresh. exact Hfresh.
Qed.

(** [animate_focus_change]. *)
Lemma animate_focus_change_inv (h0 h1 h : shell_state) (X : positive)
    (from to : option positive) :
  activation_inv h0 X h1 h ->
  is_Some (ws_fsurf_front h0) ->
  is_Some (ws_fsurf_back h0) ->
  exists h',
    animate_focus_change h from to = Some h'
    /\ activation_inv h0 X h1 h'.
Proof.
  intros Hinv [front Hfront] [back Hback].
  pose proof Hinv as (_ & _ & _ & _ & I5 & I6 & _).
  unfold animate_focus_change. rewrite I5, I6, Hfront, Hback.
  assert (Hq : forall hh b, activation_inv h0 X h1 hh ->
                            activation_inv h0 X h1 (set_focus_animation hh b)).
  { intros hh b Hh.
    apply (activation_inv_quiet h0 h1 hh);
      first [exact Hh | reflexivity | apply Pos.le_refl]. }
  pose proof (restacked_front h0 X front Hfront) as Rf.
  pose proof (restacked_back h0 X back Hback) as Rb.
  destruct (focus_animation_type h);
    try (eexists; split; [reflexivity|exact Hinv]);
    (destruct (match from with
               | Some _ => option_pos_eqb from to
               | None => false
               end);
     [eexists; split; [reflexivity|exact Hinv]|]);
    (destruct to as [t|];
     [destruct from as [f|]|]; eexists;
     (split; [reflexivity|]);
     apply Hq; repeat apply activation_inv_move; auto).
Qed.

(** Steps that only count focus or touch the seats and the focus states. *)
Lemma activation_inv_focus_count (h0 h1 h : shell_state) (X y : positive)
    (d : Z) :
  activation_inv h0 X h1 h ->
  activation_inv h0 X h1 (update_shsurf h y (add_focus_count d)).
Proof.
  intros Hinv.
  apply (activation_inv_quiet h0 h1 h);
    first [exact Hinv | reflexivity | apply Pos.le_refl | idtac].
  intros x. rewrite update_shsurf_get.
  destruct (Pos.eqb_spec x y) as [->|_]; reflexivity.
Qed.

Lemma activation_inv_set_seats (h0 h1 h : shell_state) (X : positive)
    (m : gmap positive weston_seat) :
  activation_inv h0 X h1 h -> activation_inv h0 X h1 (set_seats h m).
Proof.
  intros Hinv.
  apply (activation_inv_quiet h0 h1 h);
    first [exact Hinv | reflexivity | apply Pos.le_refl].
Qed.

Lemma activation_inv_set_focus_states (h0 h1 h : shell_state) (X : positive)
    (m : gmap positive focus_state) (l : list positive) :
  activation_inv h0 X h1 h -> activation_inv h0 X h1 (set_focus_states h m l).
Proof.
  intros Hinv.
  apply (activation_inv_quiet h0 h1 h);
    first [exact Hinv | reflexivity | apply Pos.le_refl].
Qed.

Lemma ensure_focus_state_inv (h0 h1 h : shell_state) (X seat : positive)
    (malloc_ok : bool) :
  activation_inv h0 X h1 h ->
  activation_inv h0 X h1 (snd (ensure_focus_state h seat malloc_ok)).
Proof.
  intros Hinv. unfold ensure_focus_state.
  destruct (find _ (ws_focus_list h)); [exact Hinv|].
  destruct malloc_ok; cbn [negb snd]; [|exact Hinv].
  apply (activation_inv_quiet h0 h1 h);
    first [exact Hinv | reflexivity | idtac].
  cbn [next_id]. lia.
Qed.

Lemma activate_focused_surface_inv (h0 h1 h : shell_state)
    (X seat main_surface : positive) :
  activation_inv h0 X h1 h ->
  previous_focus_known h seat main_surface ->
  exists h',
    activate_focused_surface h seat main_surface X = Some h'
    /\ activation_inv h0 X h1 h'.
Proof.
  intros Hinv Hknown. unfold activate_focused_surface.
  destruct (shseat_focused_surface (get_seat h seat)) as [[f|]|] eqn:Hf.
  - destruct (Pos.eqb_spec f main_surface) as [->|Hne].
    + cbn [option_pos_eqb]. rewrite Pos.eqb_refl.
      eexists. split; [reflexivity|exact Hinv].
    + destruct (Hknown f Hf Hne) as [cf Hcf]. rewrite Hcf.
      cbn [option_pos_eqb].
      destruct (Pos.eqb_spec f main_surface) as [E|_]; [contradiction|].
      eexists. split; [reflexivity|].
      apply activation_inv_set_seats.
      do 2 apply activation_inv_focus_count. exact Hinv.
  - cbn [option_pos_eqb].
    eexists. split; [reflexivity|].
    apply activation_inv_set_seats.
    apply activation_inv_focus_count. exact Hinv.
  - eexists. split; [reflexivity|exact Hinv].
Qed.

(** ** The whole of an activation *)

Lemma lowered_for_same_shape (h : shell_state) (X : positive) :
  same_shape h (lowered_for h X).
Proof.
  unfold lowered_for. destruct (ss_output (get_shsurf h X)).
  - apply lower_fold_same_shape, same_shape_refl.
  - apply same_shape_refl.
Qed.

Lemma activate_tail_inv (h0 h1 h : shell_state) (X : positive)
    (from to : shell_state -> option positive) :
  activation_inv h0 X h1 h ->
  is_Some (ss_desktop_surface (get_shsurf h0 X)) ->
  animation_ready h0 ->
  exists h',
    (do h7 <- shell_surface_update_layer h X;
     match focus_animation_type h7 with
     | ANIMATION_NONE => Some h7
     | ANIMATION_DIM_LAYER => animate_focus_change h7 (from h7) (to h7)
     | _ => None
     end) = Some h'
    /\ activation_inv h0 X h1 h'.
Proof.
  intros Hinv Hd Hanim.
  destruct (update_layer_inv h0 h1 h X Hinv Hd) as (h7 & E7 & Hinv7).
  rewrite E7.
  pose proof Hinv7 as (_ & _ & _ & _ & _ & _ & I7 & _).
  rewrite I7.
  destruct Hanim as [->|(-> & Hfront & Hback)].
  - eexists. split; [reflexivity|exact Hinv7].
  - apply animate_focus_change_inv; assumption.
Qed.

(** [activate_here] runs to its end, and keeps what [activation_inv]
    says of the state after the lowering. *)
Lemma activate_here_inv (h : shell_state) (v seat : positive) (flags : Z)
    (oracle : alloc_oracle) (main_surface X : positive) :
  activation_safe h seat main_surface X flags oracle ->
  exists h',
    activate_here h v seat flags oracle main_surface X = Some h'
    /\ activation_inv h X (lowered_for h X) h'.
Proof.
  intros (Hknown & (role & Hrole & Hfs) & Hanim).
  unfold activate_here. fold (lowered_for h X).
  pose proof (lowered_for_same_shape h X) as Hshape.
  set (h1 := lowered_for h X) in *.
  pose proof (activation_inv_start h h1 X Hshape) as Hinv1.
  set (h2 := weston_view_activate_input h1 v seat).
  assert (Hinv2 : activation_inv h X h1 h2)
    by (apply activation_inv_set_seats; exact Hinv1).
  assert (Hknown2 : previous_focus_known h2 seat main_surface).
  { intros f Hf Hne.
    destruct Hshape as (S1 & _ & _ & S4 & _).
    assert (Hs : shseat_focused_surface (get_seat h2 seat)
                 = shseat_focused_surface (get_seat h seat)).
    { unfold h2, weston_view_activate_input, get_seat at 1.
      cbn [st_seats set_seats]. rewrite lookup_insert_eq.
      cbn [default shseat_focused_surface].
      unfold get_seat. rewrite S4. reflexivity. }
    rewrite Hs in Hf.
    assert (Hg : get_shell_surface h2 f = get_shell_surface h f).
    { unfold get_shell_surface.
      change (get_surface h2 f) with (get_surface h1 f).
      rewrite S1. reflexivity. }
    rewrite Hg. apply Hknown; assumption. }
  destruct (activate_focused_surface_inv h h1 h2 X seat main_surface
              Hinv2 Hknown2) as (h3 & E3 & Hinv3).
  rewrite E3.
  pose proof (ensure_focus_state_inv h h1 h3 X seat
                (focus_state_malloc_ok oracle) Hinv3) as Hinv4.
  destruct (ensure_focus_state h3 seat (focus_state_malloc_ok oracle))
    as [[state|] h4]; cbn [snd] in Hinv4.
  2:{ eexists. split; [reflexivity|exact Hinv4]. }
  set (h5 := focus_state_set_focus h4 state
               (Some (view_surface (get_view h v)))).
  assert (Hinv5 : activation_inv h X h1 h5)
    by (apply activation_inv_set_focus_states; exact Hinv4).
  destruct (activation_inv_view h h1 h5 X Hinv5) as (_ & Hd5 & _).
  rewrite Hd5, Hrole.
  destruct (role_fullscreen role
            && negb (Z.land flags WESTON_ACTIVATE_FLAG_CONFIGURE =? 0))
    eqn:Hc.
  - apply andb_prop in Hc. destruct Hc as [Hc1 Hc2].
    apply negb_true_iff, Z.eqb_neq in Hc2.
    destruct (Hfs Hc1 Hc2) as [Hfo Hcur].
    destruct (set_view_fullscreen_inv h h1 h5 X (curtain_create_ok oracle)
                role Hinv5 Hrole Hc1 Hfo Hcur) as (h6 & E6 & Hinv6).
    rewrite E6.
    apply (activate_tail_inv h h1 h6 X
             (fun h7 => get_default_view h7
                          (keyboard_focus (get_focus_state h4 state)))
             (fun h7 => get_default_view h7
                          (Some (view_surface (get_view h v)))));
      [exact Hinv6|rewrite Hrole; eexists; reflexivity|exact Hanim].
  - apply (activate_tail_inv h h1 h5 X
             (fun h7 => get_default_view h7
                          (keyboard_focus (get_focus_state h4 state)))
             (fun h7 => get_default_view h7
                          (Some (view_surface (get_view h v)))));
      [exact Hinv5|rewrite Hrole; eexists; reflexivity|exact Hanim].
Qed.

(** ** What an activation does to the other fullscreen surfaces *)

Lemma lowers_output (o : positive) (h : shell_state) (v sh : positive) :
  lowers (Some o) h v = Some sh
  <-> view_shsurf h v = Some sh
      /\ ss_fullscreen_output (get_shsurf h sh) = Some o.
Proof.
  unfold lowers. destruct (view_shsurf h v) as [x|].
  - destruct (option_pos_eqb (ss_fullscreen_output (get_shsurf h x)) (Some o))
      eqn:E.
    + apply option_pos_eqb_eq in E. split.
      * intros H. injection H as <-. split; [reflexivity|exact E].
      * intros [H _]. exact H.
    + split; [discriminate|].
      intros [H E']. injection H as <-.
      apply option_pos_eqb_eq in E'. congruence.
  - split; [discriminate|]. intros [H _]. discriminate.
Qed.

Lemma lowered_views_spec (lo : option positive) (h : shell_state)
    (vs : list positive) (u : positive) :
  lowered_views lo h vs u = true
  <-> In u vs /\ is_Some (lowers lo h u).
Proof.
  unfold lowered_views. rewrite andb_true_iff, existsb_exists. split.
  - intros [(x & Hx & E) Hl]. apply Pos.eqb_eq in E. subst x.
    split; [exact Hx|]. destruct (lowers lo h u); [eauto|discriminate].
  - intros [Hin [sh Hl]]. split.
    + exists u. split; [exact Hin|apply Pos.eqb_refl].
    + rewrite Hl. reflexivity.
Qed.

Lemma lowered_curtains_spec (lo : option positive) (h : shell_state)
    (vs : list positive) (u : positive) :
  lowered_curtains lo h vs u = true
  <-> exists v sh, In v vs /\ lowers lo h v = Some sh
                   /\ ss_black_view (get_shsurf h sh) = Some u.
Proof.
  unfold lowered_curtains. rewrite existsb_exists. split.
  - intros (v & Hv & E). destruct (lowers lo h v) as [sh|] eqn:Hl;
      [|discriminate].
    apply option_pos_eqb_eq in E. exists v, sh. auto.
  - intros (v & sh & Hv & Hl & Hb). exists v. split; [exact Hv|].
    rewrite Hl. apply option_pos_eqb_eq. exact Hb.
Qed.

Lemma lowered_shsurfs_spec (lo : option positive) (h : shell_state)
    (vs : list positive) (x : positive) :
  lowered_shsurfs lo h vs x = true
  <-> exists v, In v vs /\ lowers lo h v = Some x.
Proof.
  unfold lowered_shsurfs. rewrite existsb_exists.
  split; intros (v & Hv & E); exists v; (split; [exact Hv|]);
    apply option_pos_eqb_eq; exact E.
Qed.

Lemma not_true_false (b : bool) : ~ b = true -> b = false.
Proof. destruct b; [intros H; exfalso; apply H; reflexivity|reflexivity]. Qed.

(** A fullscreen surface of the lowered output goes to the workspace layer,
    is marked lowered and loses its curtain from the layers. *)
Lemma lower_fullscreen_layer_same_output (h : shell_state)
    (o zv Z : positive) :
  curtains_plain h ->
  In zv (st_layers h fullscreen_layer) ->
  view_shsurf h zv = Some Z ->
  ss_fullscreen_output (get_shsurf h Z) = Some o ->
  let h1 := lower_fullscreen_layer h (Some o) in
  (forall l, In zv (st_layers h1 l) <-> l = workspace_layer)
  /\ get_shsurf h1 Z = set_lowered true (get_shsurf h Z)
  /\ (forall b, ss_black_view (get_shsurf h Z) = Some b ->
                forall l, ~ In b (st_layers h1 l)).
Proof.
  intros Hplain Hin Hsh Hout h1. unfold h1, lower_fullscreen_layer.
  set (vs := rev (st_layers h fullscreen_layer)).
  assert (Hvs : In zv vs) by (unfold vs; rewrite <- in_rev; exact Hin).
  assert (Hl : lowers (Some o) h zv = Some Z)
    by (apply lowers_output; auto).
  assert (Hnc : lowered_curtains (Some o) h vs zv = false).
  { apply not_true_false. intros Hc.
    apply lowered_curtains_spec in Hc.
    destruct Hc as (v & sh & _ & _ & Hb).
    apply Hplain in Hb. congruence. }
  split; [|split].
  - intros l. apply (lower_fold_lowered (Some o) h zv l vs h);
      [apply same_shape_refl| |exact Hnc].
    apply lowered_views_spec. split; [exact Hvs|]. rewrite Hl. eauto.
  - rewrite (lower_fold_shsurf (Some o) h Z vs h (same_shape_refl h)).
    assert (E : lowered_shsurfs (Some o) h vs Z = true).
    { apply lowered_shsurfs_spec. exists zv. auto. }
    rewrite E. reflexivity.
  - intros b Hb l. apply (lower_fold_curtain (Some o) h b l vs h);
      [apply same_shape_refl| |].
    + apply lowered_curtains_spec. exists zv, Z. auto.
    + apply not_true_false. intros Hv. apply lowered_views_spec in Hv.
      destruct Hv as [_ [sh Hsh']]. apply lowers_output in Hsh'.
      destruct Hsh' as [Hsh' _]. apply Hplain in Hb. congruence.
Qed.

(** A fullscreen surface of another output keeps its layer, its flag and
    its curtain. *)
Lemma lower_fullscreen_layer_other_output (h : shell_state)
    (o zv Z : positive) :
  curtains_plain h ->
  curtains_apart h ->
  view_shsurf h zv = Some Z ->
  ss_fullscreen_output (get_shsurf h Z) <> Some o ->
  let h1 := lower_fullscreen_layer h (Some o) in
  (forall l, In zv (st_layers h1 l) <-> In zv (st_layers h l))
  /\ get_shsurf h1 Z = get_shsurf h Z
  /\ (forall b, ss_black_view (get_shsurf h Z) = Some b ->
                forall l, In b (st_layers h1 l) <-> In b (st_layers h l)).
Proof.
  intros Hplain Hapart Hsh Hout h1. unfold h1, lower_fullscreen_layer.
  set (vs := rev (st_layers h fullscreen_layer)).
  assert (HZ : forall v, lowers (Some o) h v <> Some Z).
  { intros v Hv. apply lowers_output in Hv. destruct Hv as [_ Hv].
    contradiction. }
  split; [|split].
  - intros l. apply (lower_fold_other (Some o) h zv l vs h);
      [apply same_shape_refl| |].
    + apply not_true_false. intros Hv. apply lowered_views_spec in Hv.
      destruct Hv as [_ [sh Hsh']]. pose proof Hsh' as Hsh''.
      apply lowers_output in Hsh'. destruct Hsh' as [Hsh' _].
      assert (sh = Z) by congruence. subst sh. exact (HZ zv Hsh'').
    + apply not_true_false. intros Hc. apply lowered_curtains_spec in Hc.
      destruct Hc as (v & sh & _ & _ & Hb).
      apply Hplain in Hb. congruence.
  - rewrite (lower_fold_shsurf (Some o) h Z vs h (same_shape_refl h)).
    assert (E : lowered_shsurfs (Some o) h vs Z = false).
    { apply not_true_false. intros Hs. apply lowered_shsurfs_spec in Hs.
      destruct Hs as (v & _ & Hv). exact (HZ v Hv). }
    rewrite E. reflexivity.
  - intros b Hb l. apply (lower_fold_other (Some o) h b l vs h);
      [apply same_shape_refl| |].
    + apply not_true_false. intros Hv. apply lowered_views_spec in Hv.
      destruct Hv as [_ [sh Hsh']]. apply lowers_output in Hsh'.
      destruct Hsh' as [Hsh' _]. apply Hplain in Hb. congruence.
    + apply not_true_false. intros Hc. apply lowered_curtains_spec in Hc.
      destruct Hc as (v & sh & _ & Hl & Hb').
      assert (sh = Z) by (eapply Hapart; eassumption). subst sh.
      exact (HZ v Hl).
Qed.

Lemma activate_at_target (fuel : nat) (h : shell_state)
    (seat : positive) (flags : Z) (oracle : alloc_oracle) :
  forall v,
    activate fuel h v seat flags oracle
    = do t <- activation_target fuel h v;
      activate_here h (fst (fst t)) seat flags oracle (snd (fst t)) (snd t).
Proof.
  induction fuel as [|n IH]; intros v; cbn [activate activation_target];
    destruct (weston_surface_get_main_surface h
                (Some (view_surface (get_view h v)))) as [ms|];
    try reflexivity;
    destruct (get_shell_surface h ms) as [sh|]; try reflexivity;
    destruct (get_last_child h sh) as [c|]; try reflexivity.
  apply IH.
Qed.

(** C5, as the code has it.  Take an activation that ends at the shell
    surface [X], on output [o], and that can run to its end.  It returns,
    and for every other shell surface [Z] with a view [zv], neither of
    whose views the activation restacks for [X]: [Z] keeps its curtain;
    if [Z] is in the fullscreen layer and its fullscreen output is [o],
    then [zv] is in the workspace layer and in no other, [Z] is marked
    lowered and its curtain is in no layer; if the fullscreen output of
    [Z] is not [o], then [zv] and the curtain are in the layers they were
    in, and the lowered flag of [Z] is what it was. *)
Theorem activate_lowers_same_output_only (fuel : nat) (h : shell_state)
    (v seat : positive) (flags : Z) (oracle : alloc_oracle)
    (v' main_surface X o : positive) :
  activation_target fuel h v = Some (v', main_surface, X) ->
  ss_output (get_shsurf h X) = Some o ->
  activation_safe h seat main_surface X flags oracle ->
  curtains_plain h ->
  curtains_apart h ->
  exists h',
    activate fuel h v seat flags oracle = Some h'
    /\ forall zv Z,
        view_shsurf h zv = Some Z ->
        Z <> X ->
        restacked h X zv = false ->
        (forall b, ss_black_view (get_shsurf h Z) = Some b ->
                   restacked h X b = false) ->
        ss_black_view (get_shsurf h' Z) = ss_black_view (get_shsurf h Z)
        /\ (In zv (st_layers h fullscreen_layer) ->
            ss_fullscreen_output (get_shsurf h Z) = Some o ->
            (forall l, In zv (st_layers h' l) <-> l = workspace_layer)
            /\ ss_lowered (get_shsurf h' Z) = true
            /\ (forall b, ss_black_view (get_shsurf h Z) = Some b ->
                          forall l, ~ In b (st_layers h' l)))
        /\ (ss_fullscreen_output (get_shsurf h Z) <> Some o ->
            (forall l, In zv (st_layers h' l) <-> In zv (st_layers h l))
            /\ ss_lowered (get_shsurf h' Z) = ss_lowered (get_shsurf h Z)
            /\ (forall b, ss_black_view (get_shsurf h Z) = Some b ->
                          forall l, In b (st_layers h' l)
                                    <-> In b (st_layers h l))).
Proof.
  intros Htarget Hout Hsafe Hplain Hapart.
  destruct (activate_here_inv h v' seat flags oracle main_surface X Hsafe)
    as (h' & Hrun & Hinv).
  exists h'. split.
  { rewrite activate_at_target, Htarget. exact Hrun. }
  unfold lowered_for in Hinv. rewrite Hout in Hinv.
  destruct Hinv as (I1 & I2 & _).
  intros zv Z Hsh HZ Hzv Hcurtain.
  specialize (I2 Z HZ).
  assert (Hlow : ss_lowered (get_shsurf h' Z)
                 = ss_lowered (get_shsurf (lower_fullscreen_layer h (Some o)) Z))
    by (unfold forget_focus_count in I2; congruence).
  assert (Hblack : ss_black_view (get_shsurf h' Z)
                   = ss_black_view
                       (get_shsurf (lower_fullscreen_layer h (Some o)) Z))
    by (unfold forget_focus_count in I2; congruence).
  assert (Hsame : ss_black_view
                    (get_shsurf (lower_fullscreen_layer h (Some o)) Z)
                  = ss_black_view (get_shsurf h Z)).
  { pose proof (lower_fold_same_shape (Some o) h
                  (rev (st_layers h fullscreen_layer)) h (same_shape_refl h))
      as Hshape.
    apply (same_shape_fields h _ Z Hshape). }
  split; [congruence|]. split.
  - intros Hin Hfs.
    destruct (lower_fullscreen_layer_same_output h o zv Z Hplain Hin Hsh Hfs)
      as (L1 & L2 & L3).
    split; [|split].
    + intros l. rewrite (I1 zv l Hzv). apply L1.
    + rewrite Hlow, L2. reflexivity.
    + intros b Hb l. rewrite (I1 b l (Hcurtain b Hb)). apply L3. exact Hb.
  - intros Hfs.
    destruct (lower_fullscreen_layer_other_output h o zv Z Hplain Hapart
                Hsh Hfs) as (L1 & L2 & L3).
    split; [|split].
    + intros l. rewrite (I1 zv l Hzv). apply L1.
    + rewrite Hlow, L2. reflexivity.
    + intros b Hb l. rewrite (I1 b l (Hcurtain b Hb)). apply L3. exact Hb.
Qed.

(** The shell surfaces of [example_stack]. *)
Lemma example_stack_shsurfs (sh : positive) :
  sh = 101%positive \/ sh = 102%positive \/ sh = 103%positive
  \/ ss_black_view (get_shsurf example_stack sh) = None.
Proof.
  destruct (decide (sh = 101%positive)) as [|N1]; [auto|].
  destruct (decide (sh = 102%positive)) as [|N2]; [auto|].
  destruct (decide (sh = 103%positive)) as [|N3]; [auto|].
  right. right. right.
  unfold get_shsurf, example_stack. cbn [st_shsurfs].
  rewrite !lookup_insert_ne by congruence.
  rewrite lookup_singleton_ne by congruence. reflexivity.
Qed.

Lemma example_stack_curtains_plain : curtains_plain example_stack.
Proof.
  intros sh b Hb.
  destruct (example_stack_shsurfs sh) as [->|[->|[->|E]]];
    [vm_compute in Hb; discriminate
    |vm_compute in Hb; injection Hb as <-; reflexivity
    |vm_compute in Hb; injection Hb as <-; reflexivity
    |congruence].
Qed.

Lemma example_stack_curtains_apart : curtains_apart example_stack.
Proof.
  intros sh sh' b Hb Hb'.
  destruct (example_stack_shsurfs sh) as [->|[->|[->|E]]];
    [vm_compute in Hb; discriminate| | |congruence];
    (destruct (example_stack_shsurfs sh') as [->|[->|[->|E']]];
     [vm_compute in Hb'; discriminate| | |congruence]);
    vm_compute in Hb, Hb'; congruence.
Qed.

Lemma example_stack_safe :
  activation_safe example_stack 1 1 101 WESTON_ACTIVATE_FLAG_CONFIGURE
                  example_oracle.
Proof.
  split; [|split].
  - intros f Hf. vm_compute in Hf. discriminate.
  - eexists. split; [reflexivity|].
    intros Hfs. vm_compute in Hfs. discriminate.
  - left. reflexivity.
Qed.

Lemma activate_lowers_same_output_only_witness :
  exists h',
    activate 0 example_stack 11 1 WESTON_ACTIVATE_FLAG_CONFIGURE
             example_oracle = Some h'
    /\ forall zv Z,
        view_shsurf example_stack zv = Some Z ->
        Z <> 101%positive ->
        restacked example_stack 101 zv = false ->
        (forall b, ss_black_view (get_shsurf example_stack Z) = Some b ->
                   restacked example_stack 101 b = false) ->
        ss_black_view (get_shsurf h' Z)
        = ss_black_view (get_shsurf example_stack Z)
        /\ (In zv (st_layers example_stack fullscreen_layer) ->
            ss_fullscreen_output (get_shsurf example_stack Z)
            = Some 1%positive ->
            (forall l, In zv (st_layers h' l) <-> l = workspace_layer)
            /\ ss_lowered (get_shsurf h' Z) = true
            /\ (forall b, ss_black_view (get_shsurf example_stack Z) = Some b ->
                          forall l, ~ In b (st_layers h' l)))
        /\ (ss_fullscreen_output (get_shsurf example_stack Z)
            <> Some 1%positive ->
            (forall l, In zv (st_layers h' l)
                       <-> In zv (st_layers example_stack l))
            /\ ss_lowered (get_shsurf h' Z)
               = ss_lowered (get_shsurf example_stack Z)
            /\ (forall b, ss_black_view (get_shsurf example_stack Z) = Some b ->
                          forall l, In b (st_layers h' l)
                                    <-> In b (st_layers example_stack l))).
Proof.
  exact (activate_lowers_same_output_only
           0 example_stack 11 1 WESTON_ACTIVATE_FLAG_CONFIGURE example_oracle
           11 1 101 1 eq_refl eq_refl example_stack_safe
           example_stack_curtains_plain example_stack_curtains_apart).
Defined.

(** C5 as it is worded fails for the activated surface itself: a
    fullscreen surface that is activated with the configure flag is on its
    own output, and it ends in the fullscreen layer, not lowered, with its
    curtain behind it. *)
Lemma activate_fullscreen_surface_stays_raised :
  exists h',
    activate 0 example_stack 12 1 WESTON_ACTIVATE_FLAG_CONFIGURE
             example_oracle = Some h'
    /\ view_shsurf example_stack 12 = Some 102%positive
    /\ In 12%positive (st_layers example_stack fullscreen_layer)
    /\ ss_fullscreen_output (get_shsurf example_stack 102)
       = ss_output (get_shsurf example_stack 102)
    /\ In 12%positive (st_layers h' fullscreen_layer)
    /\ ~ In 12%positive (st_layers h' workspace_layer)
    /\ ss_lowered (get_shsurf h' 102) = false
    /\ In 22%positive (st_layers h' fullscreen_layer).
Proof.
  eexists. split; [vm_compute; reflexivity|].
  split; [reflexivity|]. split; [vm_compute; auto|].
  split; [reflexivity|]. split; [vm_compute; auto|].
  split; [vm_compute; intros [H|[]]; discriminate|].
  split; [reflexivity|vm_compute; auto].
Qed.

(** ** Focus states through an activation *)

Lemma focus_frame_refl (h : shell_state) : focus_frame h h.
Proof. repeat split. Qed.

Lemma focus_frame_trans (h1 h2 h3 : shell_state) :
  focus_frame h1 h2 -> focus_frame h2 h3 -> focus_frame h1 h3.
Proof.
  intros (A1 & A2 & A3) (B1 & B2 & B3). repeat split; congruence.
Qed.

Lemma focus_frame_move (h : shell_state) (v : positive)
    (e : option layer_entry) :
  focus_frame h (weston_view_move_to_layer h v e).
Proof.
  destruct (move_to_layer_rest h v e) as (_ & _ & R3 & R4 & R5 & _).
  repeat split; assumption.
Qed.

Lemma focus_frame_update_shsurf (h : shell_state) (x : positive)
    (f : stack_surface -> stack_surface) :
  focus_frame h (update_shsurf h x f).
Proof. repeat split. Qed.

Lemma focus_frame_propagate_view :
  forall t h, focus_frame h (weston_desktop_view_propagate_layer h t).
Proof.
  induction t as [w s l IH] using weston_desktop_view_forall_ind.
  intros h. simpl.
  induction l as [|c l IHl]; [apply focus_frame_refl|].
  simpl fold_right. inversion IH as [|c' l' IHc IHrest]; subst.
  eapply focus_frame_trans; [exact (IHl IHrest)|].
  eapply focus_frame_trans; [apply focus_frame_move|apply IHc].
Qed.

Lemma focus_frame_propagate_surface (role : desktop_role) :
  forall h, focus_frame h (weston_desktop_surface_propagate_layer h role).
Proof.
  unfold weston_desktop_surface_propagate_layer.
  induction (role_view_list role) as [|t ts IH]; intros h;
    [apply focus_frame_refl|].
  simpl fold_left.
  eapply focus_frame_trans; [apply focus_frame_propagate_view|apply IH].
Qed.

Lemma focus_frame_update_layer (h h' : shell_state) (X : positive) :
  shell_surface_update_layer h X = Some h' -> focus_frame h h'.
Proof.
  unfold shell_surface_update_layer. intros H.
  destruct (shell_surface_calculate_layer_link h X) as [e|]; [|discriminate].
  destruct (ss_desktop_surface (get_shsurf h X)) as [role|]; [|discriminate].
  apply (inj Some) in H; subst h'.
  eapply focus_frame_trans;
    [apply focus_frame_move|apply focus_frame_propagate_surface].
Qed.

Lemma focus_frame_curtain_create (h : shell_state) (c : committed_t) :
  focus_frame h (snd (curtain_create h c)).
Proof. repeat split. Qed.

Lemma focus_frame_set_view_fullscreen (h h' : shell_state) (X : positive)
    (curtain_ok : bool) :
  shell_set_view_fullscreen h X curtain_ok = Some h' -> focus_frame h h'.
Proof.
  unfold shell_set_view_fullscreen. intros H.
  destruct (ss_fullscreen_output (get_shsurf h X)); [|discriminate].
  destruct (ss_desktop_surface (get_shsurf h X)) as [role|]; [|discriminate].
  destruct (negb (role_fullscreen role)); [discriminate|].
  destruct (ss_black_view (get_shsurf h X)) as [b|].
  - apply (inj Some) in H; subst h'.
    eapply focus_frame_trans; [apply focus_frame_move|].
    eapply focus_frame_trans; [apply focus_frame_move|].
    apply focus_frame_update_shsurf.
  - destruct curtain_ok; [|discriminate].
    pose proof (focus_frame_curtain_create
                  (weston_view_move_to_layer h (ss_view (get_shsurf h X))
                     (Some (layer_view_list fullscreen_layer)))
                  black_surface_committed) as Hc.
    destruct (curtain_create _ black_surface_committed) as [b hc].
    cbn [snd] in Hc. apply (inj Some) in H; subst h'.
    eapply focus_frame_trans; [apply focus_frame_move|].
    eapply focus_frame_trans; [exact Hc|].
    eapply focus_frame_trans; [apply focus_frame_update_shsurf|].
    eapply focus_frame_trans; [apply focus_frame_move|].
    apply focus_frame_update_shsurf.
Qed.

Lemma focus_frame_set_focus_animation (h : shell_state) (b : bool) :
  focus_frame h (set_focus_animation h b).
Proof. repeat split. Qed.

Lemma focus_frame_animate (h h' : shell_state) (from to : option positive) :
  animate_focus_change h from to = Some h' -> focus_frame h h'.
Proof.
  unfold animate_focus_change. intros H.
  destruct (ws_fsurf_front h) as [front|]; [|discriminate].
  destruct (ws_fsurf_back h) as [back|]; [|discriminate].
  destruct (focus_animation_type h);
    try (apply (inj Some) in H; subst h'; apply focus_frame_refl);
    (destruct (match from with
               | Some _ => option_pos_eqb from to
               | None => false
               end);
     [apply (inj Some) in H; subst h'; apply focus_frame_refl|]);
    (destruct to as [t|]; [destruct from as [f|]|]; apply (inj Some) in H; subst h';
     (eapply focus_frame_trans; [apply focus_frame_set_focus_animation|]);
     (eapply focus_frame_trans; [apply focus_frame_move|]);
     (eapply focus_frame_trans; [apply focus_frame_move|]);
     apply focus_frame_set_focus_animation).
Qed.

Lemma focus_frame_lowered_for (h : shell_state) (X : positive) :
  focus_frame h (lowered_for h X).
Proof.
  destruct (lowered_for_same_shape h X)
    as (_ & _ & _ & S4 & S5 & S6 & _).
  repeat split; assumption.
Qed.

Lemma refocused_frame (h : shell_state) (seat es : positive)
    (h1 h2 : shell_state) :
  refocused h seat es h1 -> focus_frame h1 h2 -> refocused h seat es h2.
Proof.
  intros (R1 & R2 & R3) (F1 & F2 & F3).
  unfold refocused, get_seat, get_focus_state in *.
  rewrite F1, F2, F3. auto.
Qed.

Lemma activate_focused_surface_focus (h h' : shell_state)
    (seat main_surface X : positive) :
  activate_focused_surface h seat main_surface X = Some h' ->
  st_focus_states h' = st_focus_states h
  /\ ws_focus_list h' = ws_focus_list h
  /\ next_id h' = next_id h
  /\ seat_keyboard_focus (get_seat h' seat)
     = seat_keyboard_focus (get_seat h seat).
Proof.
  unfold activate_focused_surface. intros H.
  destruct (shseat_focused_surface (get_seat h seat)) as [focused|];
    [|apply (inj Some) in H; subst h'; auto].
  destruct (match focused with
            | Some f =>
              if Pos.eqb f main_surface then Some h
              else
                do current_focus <- get_shell_surface h f;
                Some (update_shsurf h current_focus (add_focus_count (-1)))
            | None => Some h
            end) as [h1|] eqn:E1; [|discriminate].
  assert (H1 : st_focus_states h1 = st_focus_states h
               /\ ws_focus_list h1 = ws_focus_list h
               /\ next_id h1 = next_id h
               /\ st_seats h1 = st_seats h).
  { destruct focused as [f|]; [|apply (inj Some) in E1; subst h1; auto].
    destruct (Pos.eqb f main_surface);
      [apply (inj Some) in E1; subst h1; auto|].
    destruct (get_shell_surface h f); [|discriminate].
    apply (inj Some) in E1. subst h1. auto. }
  destruct H1 as (A1 & A2 & A3 & A4).
  destruct (option_pos_eqb focused (Some main_surface)).
  - apply (inj Some) in H. subst h'.
    unfold get_seat. rewrite A4. auto.
  - apply (inj Some) in H. subst h'.
    split; [exact A1|]. split; [exact A2|]. split; [exact A3|].
    unfold get_seat at 1. cbn [st_seats set_seats].
    rewrite lookup_insert_eq. cbn [default seat_keyboard_focus].
    unfold get_seat. cbn [st_seats update_shsurf set_shsurfs].
    rewrite A4. reflexivity.
Qed.

(** [activate_here], when it returns, has given the seat's keyboard
    focus to the view's surface and has written that surface in the
    seat's focus state; no other focus state has changed. *)
Lemma activate_here_focus (h h' : shell_state) (v seat : positive)
    (flags : Z) (oracle : alloc_oracle) (main_surface X : positive) :
  activate_here h v seat flags oracle main_surface X = Some h' ->
  refocused h seat (view_surface (get_view h v)) h'.
Proof.
  unfold activate_here. fold (lowered_for h X).
  destruct (focus_frame_lowered_for h X) as (L1 & L2 & L3).
  destruct (lowered_for_same_shape h X) as (_ & S2 & _).
  set (h1 := lowered_for h X) in *.
  set (es := view_surface (get_view h v)).
  set (h2 := weston_view_activate_input h1 v seat).
  intros H.
  destruct (activate_focused_surface h2 seat main_surface X) as [h3|] eqn:E3;
    [|discriminate].
  destruct (activate_focused_surface_focus h2 h3 seat main_surface X E3)
    as (A1 & A2 & A3 & A4).
  assert (K3 : seat_keyboard_focus (get_seat h3 seat) = Some es).
  { rewrite A4. unfold h2, weston_view_activate_input, get_seat.
    cbn [st_seats set_seats]. rewrite lookup_insert_eq.
    simpl. rewrite S2. reflexivity. }
  assert (F3 : st_focus_states h3 = st_focus_states h) by (rewrite A1; exact L1).
  assert (W3 : ws_focus_list h3 = ws_focus_list h) by (rewrite A2; exact L2).
  assert (Hfind : find (fun st => Pos.eqb (fs_seat (get_focus_state h3 st)) seat)
                       (ws_focus_list h3)
                  = seat_focus_state h seat).
  { unfold seat_focus_state, get_focus_state. rewrite F3, W3. reflexivity. }
  unfold ensure_focus_state in H. rewrite Hfind in H.
  assert (Hset : forall h4 state,
             (forall s, s <> state ->
                        keyboard_focus (get_focus_state h4 s)
                        = keyboard_focus (get_focus_state h s)) ->
             seat_keyboard_focus (get_seat h4 seat) = Some es ->
             (forall s0, seat_focus_state h seat = Some s0 ->
                         s0 = state /\ ws_focus_list h4 = ws_focus_list h) ->
             refocused h seat es
               (focus_state_set_focus h4 state (Some es))).
  { intros h4 state Hother Hk Hs. split; [exact Hk|]. split.
    - intros s. destruct (decide (s = state)) as [->|Hne].
      + right. unfold focus_state_set_focus, get_focus_state at 1.
        cbn [st_focus_states set_focus_states].
        rewrite lookup_insert_eq. reflexivity.
      + left. rewrite <- (Hother s Hne).
        unfold focus_state_set_focus, get_focus_state.
        cbn [st_focus_states set_focus_states].
        rewrite lookup_insert_ne by congruence. reflexivity.
    - intros s0 Hs0. destruct (Hs s0 Hs0) as [-> Hw]. split; [|exact Hw].
      unfold focus_state_set_focus, get_focus_state at 1.
      cbn [st_focus_states set_focus_states].
      rewrite lookup_insert_eq. reflexivity. }
  assert (Htail : forall h5 : shell_state,
             refocused h seat es h5 ->
             forall old_es : option positive,
             (do role <- ss_desktop_surface (get_shsurf h5 X);
              do h6 <-
                (if role_fullscreen role
                    && negb (Z.land flags WESTON_ACTIVATE_FLAG_CONFIGURE =? 0)
                 then shell_set_view_fullscreen h5 X (curtain_create_ok oracle)
                 else Some h5);
              do h7 <- shell_surface_update_layer h6 X;
              match focus_animation_type h7 with
              | ANIMATION_NONE => Some h7
              | ANIMATION_DIM_LAYER =>
                animate_focus_change h7 (get_default_view h7 old_es)
                                     (get_default_view h7 (Some es))
              | _ => None
              end) = Some h' ->
             refocused h seat es h').
  { intros h5 R5 old_es H5.
    destruct (ss_desktop_surface (get_shsurf h5 X)) as [role|]; [|discriminate].
    destruct (if role_fullscreen role
                 && negb (Z.land flags WESTON_ACTIVATE_FLAG_CONFIGURE =? 0)
              then shell_set_view_fullscreen h5 X (curtain_create_ok oracle)
              else Some h5) as [h6|] eqn:E6; [|discriminate].
    assert (F6 : focus_frame h5 h6).
    { destruct (role_fullscreen role
                && negb (Z.land flags WESTON_ACTIVATE_FLAG_CONFIGURE =? 0)).
      - eapply focus_frame_set_view_fullscreen. exact E6.
      - apply (inj Some) in E6. subst h6. apply focus_frame_refl. }
    destruct (shell_surface_update_layer h6 X) as [h7|] eqn:E7;
      [|discriminate].
    pose proof (focus_frame_update_layer h6 h7 X E7) as F7.
    pose proof (refocused_frame h seat es h5 h7 R5
                  (focus_frame_trans h5 h6 h7 F6 F7)) as R7.
    destruct (focus_animation_type h7); try discriminate.
    - apply (inj Some) in H5. subst h'. exact R7.
    - eapply refocused_frame; [exact R7|].
      eapply focus_frame_animate. exact H5. }
  destruct (seat_focus_state h seat) as [s0|] eqn:Es0.
  - eapply Htail; [|exact H].
    apply Hset.
    + intros s _. unfold get_focus_state. rewrite F3. reflexivity.
    + exact K3.
    + intros s Hs. split; [congruence|exact W3].
  - destruct (focus_state_malloc_ok oracle); cbn [negb] in H.
    + eapply Htail; [|exact H].
      apply Hset.
      * intros s Hne. unfold get_focus_state at 1. cbn [st_focus_states].
        rewrite lookup_insert_ne by congruence.
        unfold get_focus_state. rewrite F3. reflexivity.
      * exact K3.
      * intros s Hs. congruence.
    + apply (inj Some) in H. subst h'.
      split; [exact K3|]. split.
      * intros s. left. unfold get_focus_state. rewrite F3. reflexivity.
      * intros s Hs. congruence.
Qed.

(** ** Destruction of the focused surface *)

(** [find] returns the first element that passes the test. *)
Lemma find_first {A : Type} (f : A -> bool) (pre post : list A) (x : A) :
  Forall (fun y => f y = false) pre ->
  f x = true ->
  find f (pre ++ x :: post) = Some x.
Proof.
  intros Hpre Hx. induction Hpre as [|y pre Hy _ IH]; simpl.
  - rewrite Hx. reflexivity.
  - rewrite Hy. exact IH.
Qed.

Lemma find_nothing {A : Type} (f : A -> bool) (l : list A) :
  Forall (fun y => f y = false) l -> find f l = None.
Proof.
  intros Hl. induction Hl as [|y l Hy _ IH]; simpl; [reflexivity|].
  rewrite Hy. exact IH.
Qed.

Lemma find_split {A : Type} (f : A -> bool) (l : list A) :
  match find f l with
  | Some x => exists pre post,
                l = pre ++ x :: post
                /\ Forall (fun y => f y = false) pre /\ f x = true
  | None => Forall (fun y => f y = false) l
  end.
Proof.
  induction l as [|y l IH]; simpl; [constructor|].
  destruct (f y) eqn:Hy.
  - exists [], l. auto.
  - destruct (find f l) as [x|].
    + destruct IH as (pre & post & -> & Hpre & Hx).
      exists (y :: pre), post. auto.
    + constructor; assumption.
Qed.

Lemma find_same {A : Type} (f g : A -> bool) (l : list A) :
  (forall x, f x = g x) -> find f l = find g l.
Proof.
  intros H. induction l as [|y l IH]; simpl; [reflexivity|].
  rewrite H, IH. reflexivity.
Qed.

Lemma next_focus_candidate_eligible (h : shell_state) (ms : positive) :
  next_focus_candidate h (Some ms)
  = find (eligible h ms) (st_layers h workspace_layer).
Proof.
  unfold next_focus_candidate. apply find_same. intros v.
  unfold eligible. cbn [option_pos_eqb]. f_equal.
  destruct (get_shell_surface h (view_surface (get_view h v))) as [x|].
  - symmetry. apply bool_decide_eq_true. eauto.
  - symmetry. apply bool_decide_eq_false. intros [x Hx]. discriminate.
Qed.

Lemma focus_successor_next_view (h : shell_state) (A ms : positive)
    (next : option positive) :
  focus_successor h A ms next <-> next_view h A ms = next.
Proof.
  unfold next_view. cbn [option_pos_eqb].
  rewrite next_focus_candidate_eligible. split.
  - intros [n Hne Hn|Hne Hn|pre post n E Hl Hpre Hn|E Hl].
    + apply Pos.eqb_neq in Hne. rewrite Hne. exact Hn.
    + apply Pos.eqb_neq in Hne. rewrite Hne. exact Hn.
    + subst ms. rewrite Pos.eqb_refl, Hl. apply find_first; assumption.
    + subst ms. rewrite Pos.eqb_refl. apply find_nothing. exact Hl.
  - destruct (Pos.eqb_spec ms A) as [->|Hne]; cbn [negb]; intros <-.
    + pose proof (find_split (eligible h A) (st_layers h workspace_layer))
        as Hs.
      destruct (find (eligible h A) (st_layers h workspace_layer)) as [n|].
      * destruct Hs as (pre & post & Hl & Hpre & Hn).
        eapply successor_next; eauto.
      * apply successor_none; auto.
    + destruct (get_default_view h (Some ms)) as [n|] eqn:E.
      * apply successor_main; assumption.
      * apply successor_main_none; assumption.
Qed.

(** Clearing a focus state changes neither the surfaces nor the seats. *)
Lemma main_surface_walk_set_focus_states (h : shell_state)
    (m : gmap positive focus_state) (l : list positive) (n : nat) :
  forall s, main_surface_walk n (set_focus_states h m l) s
            = main_surface_walk n h s.
Proof.
  induction n as [|n IH]; intros s; cbn [main_surface_walk];
    change (get_surface (set_focus_states h m l) s) with (get_surface h s);
    destruct (subsurface_parent (get_surface h s)); auto.
Qed.

Lemma activation_target_set_focus_states (h : shell_state)
    (m : gmap positive focus_state) (l : list positive) (fuel : nat) :
  forall v, activation_target fuel (set_focus_states h m l) v
            = activation_target fuel h v.
Proof.
  induction fuel as [|n IH]; intros v; cbn [activation_target];
    unfold weston_surface_get_main_surface;
    change (get_view (set_focus_states h m l) v) with (get_view h v);
    change (st_surfaces (set_focus_states h m l)) with (st_surfaces h);
    rewrite main_surface_walk_set_focus_states;
    destruct (main_surface_walk (size (st_surfaces h)) h
                (view_surface (get_view h v))) as [ms|];
    try reflexivity;
    change (get_shell_surface (set_focus_states h m l) ms)
      with (get_shell_surface h ms);
    destruct (get_shell_surface h ms) as [sh|]; try reflexivity;
    change (get_last_child (set_focus_states h m l) sh)
      with (get_last_child h sh);
    destruct (get_last_child h sh) as [c|]; try reflexivity.
  apply IH.
Qed.

Lemma animate_focus_change_total (h : shell_state)
    (from to : option positive) :
  is_Some (ws_fsurf_front h) ->
  is_Some (ws_fsurf_back h) ->
  is_Some (animate_focus_change h from to).
Proof.
  intros [front Hf] [back Hb]. unfold animate_focus_change.
  rewrite Hf, Hb.
  destruct (focus_animation_type h); [eexists; reflexivity| | |];
    (destruct (match from with
               | Some _ => option_pos_eqb from to
               | None => false
               end); [eexists; reflexivity|]);
    destruct to; eexists; reflexivity.
Qed.

Lemma seat_focus_state_cleared (h : shell_state) (st seat : positive) :
  let x := get_focus_state h st in
  seat_focus_state
    (set_focus_states h
       (<[st := mk_focus_state (fs_seat x) None None]> (st_focus_states h))
       (ws_focus_list h)) seat
  = seat_focus_state h seat.
Proof.
  intros x. unfold seat_focus_state. cbn [ws_focus_list set_focus_states].
  apply find_same. intros s. f_equal.
  unfold get_focus_state at 1. cbn [st_focus_states set_focus_states].
  destruct (decide (s = st)) as [->|Hne].
  - rewrite lookup_insert_eq. reflexivity.
  - rewrite lookup_insert_ne by congruence. reflexivity.
Qed.

(** The view at which an activation ends shows a surface whose main
    surface has the shell surface that is activated. *)
Lemma activation_target_shell_surface (fuel : nat) (h : shell_state) :
  forall v v' ms' X,
    activation_target fuel h v = Some (v', ms', X) ->
    weston_surface_get_main_surface h (Some (view_surface (get_view h v')))
    = Some ms'
    /\ get_shell_surface h ms' = Some X.
Proof.
  assert (Heq : forall fuel v,
             activation_target fuel h v
             = do main_surface <- weston_surface_get_main_surface h
                                    (Some (view_surface (get_view h v)));
               do sh <- get_shell_surface h main_surface;
               match get_last_child h sh with
               | Some shsurf_child =>
                 match fuel with
                 | O => None
                 | S n => activation_target n h
                            (ss_view (get_shsurf h shsurf_child))
                 end
               | None => Some (v, main_surface, sh)
               end)
    by (intros [|n] v; reflexivity).
  induction fuel as [|fuel IH]; intros v v' ms' X E; rewrite Heq in E;
    destruct (weston_surface_get_main_surface h
                (Some (view_surface (get_view h v)))) as [m|] eqn:Hm;
    try discriminate;
    destruct (get_shell_surface h m) as [sh|] eqn:Hsh; try discriminate;
    destruct (get_last_child h sh) as [c|]; try discriminate;
    try (exact (IH _ _ _ _ E));
    apply (inj Some) in E; injection E as <- <- <-; auto.
Qed.

(** C1, as the code has it.  The focus state [st] has its focus on the
    surface [A] that is destroyed, and [next] is the successor: the
    default view of the main surface of [A] when [A] is a sub-surface,
    otherwise the first eligible view of the workspace layer.  With a
    successor, whose activation ends at the view [v'] and can run to its
    end, the listener returns, the seat's keyboard focus is on the surface
    of [v'], the focus of [st] is empty or that surface, and is that
    surface when [st] is the focus state that the seat's activations use.
    That surface is not [A], so that [st] keeps no pointer to the
    destroyed surface, when [A] is no desktop surface (any more:
    [weston_desktop_surface_destroy], surface.c:163, takes the role from
    the surface) and [A] is a main surface or [v'] shows a main surface,
    as the views of shell surfaces do.  With no successor, [st] leaves the
    focus list and is freed. *)
Theorem focus_state_surface_destroy_retargets (fuel : nat) (h : shell_state)
    (st : positive) (oracle : alloc_oracle) (A ms : positive)
    (next : option positive) :
  keyboard_focus (get_focus_state h st) = Some A ->
  weston_surface_get_main_surface h (Some A) = Some ms ->
  focus_successor h A ms next ->
  let seat := fs_seat (get_focus_state h st) in
  match next with
  | Some n =>
    forall v' ms' X,
      activation_target fuel h n = Some (v', ms', X) ->
      activation_safe h seat ms' X WESTON_ACTIVATE_FLAG_CONFIGURE oracle ->
      let es := view_surface (get_view h v') in
      exists h',
        focus_state_surface_destroy fuel h st oracle = Some h'
        /\ seat_keyboard_focus (get_seat h' seat) = Some es
        /\ (keyboard_focus (get_focus_state h' st) = None
            \/ keyboard_focus (get_focus_state h' st) = Some es)
        /\ (seat_focus_state h seat = Some st ->
            keyboard_focus (get_focus_state h' st) = Some es
            /\ ws_focus_list h' = ws_focus_list h)
        /\ (get_shell_surface h A = None ->
            A = ms \/ es = ms' ->
            es <> A /\ keyboard_focus (get_focus_state h' st) <> Some A)
  | None =>
    focus_animation_type h = ANIMATION_NONE
    \/ (is_Some (ws_fsurf_front h) /\ is_Some (ws_fsurf_back h)) ->
    exists h',
      focus_state_surface_destroy fuel h st oracle = Some h'
      /\ ~ In st (ws_focus_list h')
      /\ st_focus_states h' !! st = None
  end.
Proof.
  intros Hkf Hms Hnext seat.
  apply focus_successor_next_view in Hnext. unfold next_view in Hnext.
  unfold focus_state_surface_destroy. rewrite Hkf, Hms, Hnext.
  destruct next as [n|].
  - intros v' ms' X Htarget Hsafe. fold seat.
    set (es := view_surface (get_view h v')).
    set (h1 := set_focus_states h
                 (<[st := mk_focus_state seat None None]> (st_focus_states h))
                 (ws_focus_list h)).
    destruct (activate_here_inv h1 v' seat WESTON_ACTIVATE_FLAG_CONFIGURE
                oracle ms' X Hsafe) as (h' & Hrun & _).
    exists h'. split.
    { rewrite activate_at_target.
      unfold h1. rewrite activation_target_set_focus_states, Htarget.
      exact Hrun. }
    destruct (activate_here_focus h1 h' v' seat WESTON_ACTIVATE_FLAG_CONFIGURE
                oracle ms' X Hrun) as (R1 & R2 & R3).
    change (view_surface (get_view h1 v')) with es in R1, R2, R3.
    assert (Hcleared : keyboard_focus (get_focus_state h1 st) = None).
    { unfold h1, get_focus_state. cbn [st_focus_states set_focus_states].
      rewrite lookup_insert_eq. reflexivity. }
    assert (Hfocus : keyboard_focus (get_focus_state h' st) = None
                     \/ keyboard_focus (get_focus_state h' st) = Some es)
      by (destruct (R2 st) as [E|E]; [left; congruence|right; exact E]).
    split; [exact R1|]. split; [exact Hfocus|]. split.
    + intros Hst. apply R3.
      unfold h1, seat. rewrite seat_focus_state_cleared. exact Hst.
    + intros Hno Hmain.
      destruct (activation_target_shell_surface fuel h n v' ms' X Htarget)
        as [Hms' HX]. fold es in Hms'.
      assert (Hes : es <> A).
      { intros E. rewrite E in Hms'.
        assert (ms = ms') by congruence. subst ms'.
        destruct Hmain as [->| ->]; congruence. }
      split; [exact Hes|].
      destruct Hfocus as [->| ->]; congruence.
  - intros Hanim.
    assert (Hrun : is_Some
              (match focus_animation_type h with
               | ANIMATION_NONE => Some h
               | _ => animate_focus_change h (get_default_view h (Some ms))
                                           None
               end)).
    { destruct Hanim as [->|[Hf Hb]]; [eexists; reflexivity|].
      destruct (focus_animation_type h); [eexists; reflexivity| | |];
        apply animate_focus_change_total; assumption. }
    destruct Hrun as [h1 Hrun]. rewrite Hrun.
    eexists. split; [reflexivity|]. split.
    + unfold focus_state_remove_and_destroy.
      cbn [ws_focus_list set_focus_states].
      rewrite filter_In. intros [_ Hne].
      rewrite Pos.eqb_refl in Hne. discriminate.
    + unfold focus_state_remove_and_destroy.
      cbn [st_focus_states set_focus_states].
      apply lookup_delete_eq.
Qed.

Lemma example_focus_successor :
  focus_successor example_focus 4 1 (Some 11%positive).
Proof. apply successor_main; [discriminate|reflexivity]. Qed.

Lemma example_focus_safe :
  activation_safe example_focus 1 1 101 WESTON_ACTIVATE_FLAG_CONFIGURE
                  example_oracle.
Proof.
  split; [|split].
  - intros f Hf Hne. vm_compute in Hf. congruence.
  - eexists. split; [reflexivity|].
    intros Hfs. vm_compute in Hfs. discriminate.
  - left. reflexivity.
Qed.

Lemma focus_state_surface_destroy_retargets_witness :
  exists h',
    focus_state_surface_destroy 0 example_focus 300 example_oracle = Some h'
    /\ seat_keyboard_focus (get_seat h' 1) = Some 1%positive
    /\ (keyboard_focus (get_focus_state h' 300) = None
        \/ keyboard_focus (get_focus_state h' 300) = Some 1%positive)
    /\ keyboard_focus (get_focus_state h' 300) = Some 1%positive
    /\ ws_focus_list h' = ws_focus_list example_focus
    /\ keyboard_focus (get_focus_state h' 300) <> Some 4%positive.
Proof.
  destruct (focus_state_surface_destroy_retargets
              0 example_focus 300 example_oracle 4 1 (Some 11%positive)
              eq_refl eq_refl example_focus_successor
              11%positive 1%positive 101%positive eq_refl example_focus_safe)
    as (h' & H1 & H2 & H3 & H4 & H5).
  exists h'. split; [exact H1|]. split; [exact H2|]. split; [exact H3|].
  destruct (H4 eq_refl) as [H6 H7]. split; [exact H6|]. split; [exact H7|].
  exact (proj2 (H5 eq_refl (or_intror eq_refl))).
Defined.

(** C1 as it is worded fails twice.  For a sub-surface: view [12], of
    another window, is the first view of the workspace layer that is no
    focus view, no view of the main surface and has a shell surface, yet
    the focus goes to the main surface [1] of the destroyed sub-surface,
    whose view [11] is the one that is activated and raised.  For a
    surface that is still a desktop surface with a mapped view and a child
    of the successor, as the dialog [2] of window [1]: the successor is
    view [11] of window [1], its activation goes to the last mapped child
    of window [1], and the focus state has the destroyed surface [2] as
    its focus again. *)
Lemma focus_state_surface_destroy_departs_from_claim :
  (keyboard_focus (get_focus_state example_focus 300) = Some 4%positive
   /\ weston_surface_get_main_surface example_focus (Some 4%positive)
      = Some 1%positive
   /\ next_focus_candidate example_focus (Some 1%positive) = Some 12%positive
   /\ view_surface (get_view example_focus 12) = 2%positive
   /\ exists h',
       focus_state_surface_destroy 0 example_focus 300 example_oracle
       = Some h'
       /\ keyboard_focus (get_focus_state h' 300) = Some 1%positive
       /\ seat_keyboard_focus (get_seat h' 1) = Some 1%positive
       /\ st_layers h' workspace_layer = [11; 12]%positive)
  /\ (keyboard_focus (get_focus_state example_focus_dialog 300)
      = Some 2%positive
      /\ weston_surface_get_main_surface example_focus_dialog
           (Some 2%positive) = Some 2%positive
      /\ get_shell_surface example_focus_dialog 2 = Some 102%positive
      /\ next_focus_candidate example_focus_dialog (Some 2%positive)
         = Some 11%positive
      /\ get_last_child example_focus_dialog 101 = Some 102%positive
      /\ exists h',
          focus_state_surface_destroy 1 example_focus_dialog 300
                                      example_oracle = Some h'
          /\ keyboard_focus (get_focus_state h' 300) = Some 2%positive).
Proof.
  split.
  - split; [reflexivity|]. split; [reflexivity|]. split; [reflexivity|].
    split; [reflexivity|].
    eexists. split; [vm_compute; reflexivity|].
    split; [reflexivity|]. split; reflexivity.
  - split; [reflexivity|]. split; [reflexivity|]. split; [reflexivity|].
    split; [reflexivity|]. split; [reflexivity|].
    eexists. split; [vm_compute; reflexivity|]. reflexivity.
Qed.

(** A window [2] that is no desktop surface any more when its destruction
    is announced, above window [1]: the focus state ends with its focus on
    window [1]. *)
Example focus_state_surface_destroy_window_gone :
  let h := mk_state
             {[ 1%positive := mk_surface weston_desktop_surface_committed
                                         (Some 101%positive) None
                                         [11%positive];
                2%positive := mk_surface committed_other None None
                                         [12%positive] ]}
             {[ 11%positive := mk_view 1 true; 12%positive := mk_view 2 true ]}
             {[ 101%positive := example_window 1 false 1 None ]}
             {[ 1%positive := mk_seat (Some None) (Some 2%positive) ]}
             {[ 300%positive := mk_focus_state 1 (Some 2%positive)
                                               (Some 2%positive) ]}
             (fun l => match l with
                       | workspace_layer => [12; 11]%positive
                       | _ => []
                       end)
             [300%positive] None None false ANIMATION_NONE 400 in
  get_shell_surface h 2 = None
  /\ option_map (fun h' => (keyboard_focus (get_focus_state h' 300),
                            seat_keyboard_focus (get_seat h' 1)))
                (focus_state_surface_destroy 0 h 300 example_oracle)
     = Some (Some 1%positive, Some 1%positive).
Proof. split; [reflexivity|]. vm_compute. reflexivity. Qed.

(** With no other window, the focus state of a destroyed window is
    removed and freed. *)
Example focus_state_surface_destroy_last_window :
  let h := mk_state
             {[ 1%positive := mk_surface weston_desktop_surface_committed
                                         (Some 101%positive) None
                                         [11%positive] ]}
             {[ 11%positive := mk_view 1 true ]}
             {[ 101%positive := example_window 1 false 1 None ]}
             {[ 1%positive := mk_seat (Some (Some 1%positive))
                                      (Some 1%positive) ]}
             {[ 300%positive := mk_focus_state 1 (Some 1%positive)
                                               (Some 1%positive) ]}
             (fun l => match l with
                       | workspace_layer => [11%positive]
                       | _ => []
                       end)
             [300%positive] None None false ANIMATION_NONE 400 in
  option_map (fun h' => (ws_focus_list h', st_focus_states h' !! 300%positive))
             (focus_state_surface_destroy 0 h 300 example_oracle)
  = Some ([], None).
Proof. reflexivity. Qed.

(** ** The end of a grab *)

Lemma valid_resize_edges_pass (edges : Z) :
  In edges valid_resize_edges ->
  (edges =? WESTON_DESKTOP_SURFACE_EDGE_NONE) || (resize_any <? edges)
    || (Z.land edges resize_topbottom =? resize_topbottom)
    || (Z.land edges resize_leftright =? resize_leftright) = false
  /\ edges <> 0.
Proof.
  unfold valid_resize_edges. simpl.
  intros [<-|[<-|[<-|[<-|[<-|[<-|[<-|[<-|[]]]]]]]]];
    (split; [reflexivity|discriminate]).
Qed.

(** What [shell_grab_start] leaves for the code that follows a request. *)
Lemma shell_grab_start_spec (w : desktop_shell) (grab : pointer_grab_t)
    (s : positive) (cursor : Z) (sh : shell_surface) :
  surfaces w !! s = Some sh ->
  exists w',
    shell_grab_start w grab s cursor = Some w'
    /\ surfaces w' = <[s := set_grabbed sh true]> (surfaces w)
    /\ pointer_grab (pointer w') = grab
    /\ pointer_pos (pointer w') = pointer_pos (pointer w)
    /\ pointer_grab_pos (pointer w') = pointer_grab_pos (pointer w)
    /\ panel_position w' = panel_position w
    /\ shell_outputs w' = shell_outputs w
    /\ touch w' = touch w.
Proof.
  intros Hs. unfold shell_grab_start, weston_seat_break_desktop_grabs.
  cbn [surfaces set_popup_grab]. rewrite Hs.
  cbn [child_desktop_shell set_pointer set_surfaces set_popup_grab].
  destruct (child_desktop_shell w); eexists; repeat split.
Qed.

(** A request that [surface_resize] accepts starts a resize grab that
    holds the edges and the size of the window geometry. *)
Lemma resize_grab_start_spec (w : desktop_shell) (s : positive)
    (sh : shell_surface) (ds : weston_desktop_surface_state) (edges : Z) :
  grabbable w s sh ds ->
  In edges valid_resize_edges ->
  exists w1 sh1,
    surface_resize w s edges true = Some (0, w1)
    /\ pointer_grab (pointer w1)
       = resize_grab_interface
           (mk_resize_grab (Some s) edges
              (geom_width (weston_desktop_surface_get_geometry ds))
              (geom_height (weston_desktop_surface_get_geometry ds)))
    /\ surfaces w1 !! s = Some sh1
    /\ grabbed sh1 = true
    /\ resize_edges sh1 = edges.
Proof.
  intros (Hs & Hds & Hg & Hmax & Hfs) Hedges.
  destruct (valid_resize_edges_pass edges Hedges) as [Htest Hnz].
  unfold surface_resize, shsurf_is_max_or_fullscreen.
  rewrite Hs, Hg, Hds, Hmax, Hfs. cbn [orb]. rewrite Htest. cbn [negb].
  set (sh0 := set_orientation _ _).
  set (w0 := set_surfaces w (<[s := sh0]> (surfaces w))).
  assert (H0 : surfaces w0 !! s = Some sh0)
    by (unfold w0; cbn [surfaces set_surfaces]; apply lookup_insert_eq).
  destruct (shell_grab_start_spec w0
              (resize_grab_interface
                 (mk_resize_grab (Some s) edges
                    (geom_width (weston_desktop_surface_get_geometry ds))
                    (geom_height (weston_desktop_surface_get_geometry ds))))
              s edges sh0 H0)
    as (w1 & Hw1 & Hsurf & Hgrab & _).
  rewrite Hw1. exists w1, (set_grabbed sh0 true).
  split; [reflexivity|]. split; [exact Hgrab|].
  split; [rewrite Hsurf; apply lookup_insert_eq|].
  split; reflexivity.
Qed.

(** A resize from its request to the release of the last button.  The
    request starts a resize grab that holds the edges and the size of the
    window geometry, and marks the surface grabbed; a button event with a
    button still down, or a press, changes nothing; the release of the
    last button ends the grab: the pointer is back on its default grab,
    the surface is neither grabbed nor resizing, the client is sent size
    (0,0), the view has not moved, and no other surface has changed. *)
Theorem resize_grab_from_request_to_release (w : desktop_shell)
    (s : positive) (sh : shell_surface) (ds : weston_desktop_surface_state)
    (edges : Z) (picked : option positive) :
  grabbable w s sh ds ->
  In edges valid_resize_edges ->
  exists w1 r sh1 w2 sh2 ds2,
    surface_resize w s edges true = Some (0, w1)
    /\ pointer_grab (pointer w1) = resize_grab_interface r
    /\ r = mk_resize_grab (Some s) edges
             (geom_width (weston_desktop_surface_get_geometry ds))
             (geom_height (weston_desktop_surface_get_geometry ds))
    /\ surfaces w1 !! s = Some sh1
    /\ grabbed sh1 = true /\ resize_edges sh1 = edges
    /\ (forall count state,
          count <> 0 \/ state <> WL_POINTER_BUTTON_STATE_RELEASED ->
          resize_grab_button w1 r count state picked = Some w1)
    /\ resize_grab_button w1 r 0 WL_POINTER_BUTTON_STATE_RELEASED picked
       = Some w2
    /\ pointer_grab (pointer w2) = pointer_default_grab
    /\ surfaces w2 !! s = Some sh2
    /\ grabbed sh2 = false /\ resize_edges sh2 = 0
    /\ view_pos sh2 = view_pos sh
    /\ desktop_surface sh2 = Some ds2
    /\ ds_sent_resizing ds2 = false
    /\ ds_sent_size ds2 = mk_size 0 0
    /\ (forall x, x <> s -> surfaces w2 !! x = surfaces w !! x).
Proof.
  intros (Hs & Hds & Hg & Hmax & Hfs) Hedges.
  destruct (valid_resize_edges_pass edges Hedges) as [Htest Hnz].
  unfold surface_resize, shsurf_is_max_or_fullscreen.
  rewrite Hs, Hg, Hds, Hmax, Hfs. cbn [orb]. rewrite Htest. cbn [negb].
  set (ds1 := weston_desktop_surface_set_orientation
                (weston_desktop_surface_set_resizing ds true)
                WESTON_TOP_LEVEL_TILED_ORIENTATION_NONE).
  set (sh0 := set_orientation
                (set_desktop_surface (set_resize_edges sh edges) (Some ds1))
                WESTON_TOP_LEVEL_TILED_ORIENTATION_NONE).
  set (r := mk_resize_grab (Some s) edges
              (geom_width (weston_desktop_surface_get_geometry ds))
              (geom_height (weston_desktop_surface_get_geometry ds))).
  set (w0 := set_surfaces w (<[s := sh0]> (surfaces w))).
  assert (H0 : surfaces w0 !! s = Some sh0)
    by (unfold w0; cbn [surfaces set_surfaces]; apply lookup_insert_eq).
  destruct (shell_grab_start_spec w0 (resize_grab_interface r) s edges sh0 H0)
    as (w1 & Hw1 & Hsurf & Hgrab & _).
  rewrite Hw1.
  set (sh1 := set_grabbed sh0 true) in *.
  set (ds2 := weston_desktop_surface_set_size
                (weston_desktop_surface_set_resizing ds1 false) 0 0).
  set (sh2 := set_resize_edges
                (set_grabbed (set_desktop_surface sh1 (Some ds2)) false) 0).
  assert (H1 : surfaces w1 !! s = Some sh1)
    by (rewrite Hsurf; apply lookup_insert_eq).
  exists w1, r, sh1.
  exists (weston_pointer_end_grab
            (set_surfaces
               (set_surfaces w1
                  (<[s := set_desktop_surface sh1 (Some ds2)]> (surfaces w1)))
               (<[s := sh2]>
                  (<[s := set_desktop_surface sh1 (Some ds2)]> (surfaces w1))))
            picked), sh2, ds2.
  split; [reflexivity|]. split; [exact Hgrab|]. split; [reflexivity|].
  split; [exact H1|]. split; [reflexivity|]. split; [reflexivity|].
  split.
  { intros count state Hcs. unfold resize_grab_button.
    destruct (count =? 0) eqn:Ec; [|reflexivity].
    destruct (state =? WL_POINTER_BUTTON_STATE_RELEASED) eqn:Es;
      [|reflexivity].
    apply Z.eqb_eq in Ec, Es. destruct Hcs; contradiction. }
  split.
  { unfold resize_grab_button, resize_grab_finish, shell_grab_end.
    cbn [Z.eqb andb resize_shsurf r]. rewrite H1.
    cbn [desktop_surface sh1 sh0 set_grabbed set_orientation
         set_desktop_surface].
    cbn [surfaces set_surfaces]. rewrite lookup_insert_eq.
    cbn [resize_edges set_grabbed set_desktop_surface set_resize_edges
         set_orientation sh1 sh0].
    destruct (edges =? 0) eqn:E0; [apply Z.eqb_eq in E0; contradiction|].
    reflexivity. }
  split; [reflexivity|].
  split.
  { cbn [weston_pointer_end_grab surfaces set_pointer set_surfaces].
    apply lookup_insert_eq. }
  split; [reflexivity|]. split; [reflexivity|]. split; [reflexivity|].
  split; [reflexivity|]. split; [reflexivity|]. split; [reflexivity|].
  intros x Hx.
  cbn [weston_pointer_end_grab surfaces set_pointer set_surfaces].
  rewrite !lookup_insert_ne by congruence. rewrite Hsurf.
  rewrite lookup_insert_ne by congruence. unfold w0.
  cbn [surfaces set_surfaces]. apply lookup_insert_ne. congruence.
Qed.

Lemma example_grabbable :
  grabbable (example_shell example_shsurf) 1 example_shsurf example_ds.
Proof. repeat split. Qed.

Lemma resize_grab_from_request_to_release_witness :
  exists w1 w2 sh2,
    surface_resize (example_shell example_shsurf) 1
                   WESTON_DESKTOP_SURFACE_EDGE_RIGHT true = Some (0, w1)
    /\ pointer_grab (pointer w2) = pointer_default_grab
    /\ surfaces w2 !! 1%positive = Some sh2
    /\ grabbed sh2 = false /\ resize_edges sh2 = 0.
Proof.
  destruct (resize_grab_from_request_to_release
              (example_shell example_shsurf) 1 example_shsurf example_ds
              WESTON_DESKTOP_SURFACE_EDGE_RIGHT None example_grabbable
              ltac:(vm_compute; tauto))
    as (w1 & r & sh1 & w2 & sh2 & ds2 & H1 & _ & _ & _ & _ & _ & _ & _
        & H2 & H3 & H4 & H5 & _).
  exists w1, w2, sh2. auto.
Defined.

(** A drag from the request to the release of the button.  The request
    starts a move grab and clears the tiled orientation; every motion
    event keeps the view at the offset from the pointer that it had from
    the grab position, exactly on the X axis, and on the Y axis when the
    panel is not at the top; the release of the last button ends the grab
    and leaves the view where the drag put it. *)
Theorem move_grab_from_request_to_release (w : desktop_shell)
    (s : positive) (sh : shell_surface) (ds : weston_desktop_surface_state)
    (client_initiated : bool) (event : weston_coord)
    (picked : option positive) :
  grabbable w s sh ds ->
  exists w1 m w2 sh2 w3 sh3,
    surface_move w (Some s) client_initiated true = Some (0, w1)
    /\ pointer_grab (pointer w1) = move_grab_interface m
    /\ move_grab_motion w1 m event = Some w2
    /\ surfaces w2 !! s = Some sh2
    /\ grabbed sh2 = true
    /\ orientation sh2 = WESTON_TOP_LEVEL_TILED_ORIENTATION_NONE
    /\ cx (view_pos sh2) - cx event
       = cx (view_pos sh) - cx (pointer_grab_pos (pointer w))
    /\ (panel_position w <> WESTON_DESKTOP_SHELL_PANEL_POSITION_TOP ->
        cy (view_pos sh2) - cy event
        = cy (view_pos sh) - cy (pointer_grab_pos (pointer w)))
    /\ move_grab_button w2 m 0 WL_POINTER_BUTTON_STATE_RELEASED picked
       = Some w3
    /\ pointer_grab (pointer w3) = pointer_default_grab
    /\ surfaces w3 !! s = Some sh3
    /\ grabbed sh3 = false
    /\ view_pos sh3 = view_pos sh2
    /\ (forall x, x <> s -> surfaces w3 !! x = surfaces w !! x).
Proof.
  intros (Hs & Hds & Hg & Hmax & Hfs).
  unfold surface_move, shsurf_is_max_or_fullscreen.
  rewrite Hs, Hg, Hds, Hmax, Hfs. cbn [orb negb].
  set (m := mk_move_grab (Some s)
              (weston_coord_global_sub (view_pos sh)
                                       (pointer_grab_pos (pointer w)))
              client_initiated).
  set (sh0 := set_orientation
                (set_desktop_surface sh
                   (Some (weston_desktop_surface_set_orientation ds
                            WESTON_TOP_LEVEL_TILED_ORIENTATION_NONE)))
                WESTON_TOP_LEVEL_TILED_ORIENTATION_NONE).
  set (w0 := set_surfaces w (<[s := sh0]> (surfaces w))).
  assert (H0 : surfaces w0 !! s = Some sh0)
    by (unfold w0; cbn [surfaces set_surfaces]; apply lookup_insert_eq).
  destruct (shell_grab_start_spec w0 (move_grab_interface m) s
              WESTON_DESKTOP_SHELL_CURSOR_MOVE sh0 H0)
    as (w1 & Hw1 & Hsurf & Hgrab & _ & _ & Hpanel & Houts & _).
  rewrite Hw1.
  set (sh1 := set_grabbed sh0 true) in *.
  assert (H1 : surfaces w1 !! s = Some sh1)
    by (rewrite Hsurf; apply lookup_insert_eq).
  (* the motion event *)
  assert (Hpos : exists pos,
             constrain_position (weston_pointer_move w1 event) m = Some pos
             /\ cx pos = cx event + cx (move_delta m)
             /\ (panel_position w <> WESTON_DESKTOP_SHELL_PANEL_POSITION_TOP ->
                 cy pos = cy event + cy (move_delta m))).
  { unfold constrain_position.
    cbn [move_shsurf m weston_pointer_move surfaces set_pointer].
    rewrite H1.
    cbn [desktop_surface sh1 sh0 set_grabbed set_orientation
         set_desktop_surface pointer pointer_pos panel_position
         weston_pointer_move set_pointer].
    rewrite Hpanel. unfold w0. cbn [panel_position set_surfaces].
    destruct (panel_position w); eexists;
      (split; [reflexivity|]); split; try reflexivity;
      try (intros _; reflexivity).
    - match goal with
      | |- context [if ?c then _ else _] => destruct c
      end;
      match goal with
      | |- context [if ?c then _ else _] => destruct c
      end; reflexivity.
    - intros H. contradiction. }
  destruct Hpos as (pos & Hpos & Hx & Hy).
  set (w2 := set_surfaces (weston_pointer_move w1 event)
               (<[s := set_view_pos sh1 pos]>
                  (surfaces (weston_pointer_move w1 event)))).
  set (sh2 := set_view_pos sh1 pos).
  set (sh3 := if negb (resize_edges sh =? 0)
              then set_resize_edges (set_grabbed sh2 false) 0
              else set_grabbed sh2 false).
  exists w1, m, w2, sh2.
  exists (weston_pointer_end_grab
            (set_surfaces w2 (<[s := sh3]> (surfaces w2))) picked), sh3.
  split; [reflexivity|]. split; [exact Hgrab|].
  split.
  { unfold move_grab_motion. cbn [move_shsurf m].
    cbn [weston_pointer_move surfaces set_pointer]. rewrite H1.
    cbn [desktop_surface sh1 sh0 set_grabbed set_orientation
         set_desktop_surface].
    rewrite Hpos. reflexivity. }
  assert (H2 : surfaces w2 !! s = Some sh2)
    by (unfold w2; cbn [surfaces set_surfaces]; apply lookup_insert_eq).
  split; [exact H2|]. split; [reflexivity|]. split; [reflexivity|].
  split.
  { cbn [view_pos sh2 set_view_pos]. rewrite Hx. cbn [move_delta m cx
      weston_coord_global_sub]. lia. }
  split.
  { intros Hp. cbn [view_pos sh2 set_view_pos]. rewrite (Hy Hp).
    cbn [move_delta m cy weston_coord_global_sub]. lia. }
  split.
  { unfold move_grab_button, shell_grab_end.
    cbn [Z.eqb andb move_shsurf m]. rewrite H2.
    cbn [resize_edges set_grabbed sh2 set_view_pos sh1 sh0 set_orientation
         set_desktop_surface].
    reflexivity. }
  split; [reflexivity|].
  split.
  { cbn [weston_pointer_end_grab surfaces set_pointer set_surfaces].
    apply lookup_insert_eq. }
  split; [unfold sh3; destruct (negb (resize_edges sh =? 0)); reflexivity|].
  split; [unfold sh3; destruct (negb (resize_edges sh =? 0)); reflexivity|].
  intros x Hx'.
  cbn [weston_pointer_end_grab surfaces set_pointer set_surfaces].
  rewrite lookup_insert_ne by congruence. unfold w2.
  cbn [surfaces set_surfaces weston_pointer_move set_pointer].
  rewrite lookup_insert_ne by congruence. rewrite Hsurf.
  rewrite lookup_insert_ne by congruence. unfold w0.
  cbn [surfaces set_surfaces]. apply lookup_insert_ne. congruence.
Qed.

Lemma move_grab_from_request_to_release_witness :
  exists w1 w2 sh2,
    surface_move (example_shell example_shsurf) (Some 1%positive) true true
    = Some (0, w1)
    /\ surfaces w2 !! 1%positive = Some sh2
    /\ cx (view_pos sh2) - 250 = 100 - 150.
Proof.
  destruct (move_grab_from_request_to_release
              (example_shell example_shsurf) 1 example_shsurf example_ds
              true (mk_coord 250 300) None example_grabbable)
    as (w1 & m & w2 & sh2 & w3 & sh3 & H1 & _ & _ & H2 & _ & _ & H3 & _).
  exists w1, w2, sh2. auto.
Defined.




(** ** Tiling, the resize binding and placement *)

(** Tiling gives a window one half of its output's work area: the left
    and the right half meet at the middle column and the top and the
    bottom half at the middle row, every half lies inside the work area,
    and two opposite halves leave at most one column or row of it
    uncovered.  [W] and [H] are the work area's extents as
    [get_maximized_size] reads them. *)
Theorem set_tiled_orientation_halves (w : desktop_shell) (s : positive)
    (sh : shell_surface) (ds : weston_desktop_surface_state)
    (o : tiled_orientation) :
  surfaces w !! s = Some sh ->
  desktop_surface sh = Some ds ->
  let area := get_output_work_area (panel_position w)
                (weston_output_get_shell_private w (output sh)) in
  let W := size_width (get_maximized_size w sh) in
  let H := size_height (get_maximized_size w sh) in
  0 <= W -> 0 <= H ->
  exists w' sh' ds',
    set_tiled_orientation w (Some s) o = Some w'
    /\ surfaces w' !! s = Some sh'
    /\ desktop_surface sh' = Some ds'
    /\ orientation sh' = o
    /\ ds_sent_orientation ds' = o
    /\ weston_desktop_surface_get_geometry ds'
       = weston_desktop_surface_get_geometry ds
    /\ tile_box sh' ds'
       = match o with
         | WESTON_TOP_LEVEL_TILED_ORIENTATION_NONE =>
           mk_rect (rect_x area) (rect_y area) W H
         | WESTON_TOP_LEVEL_TILED_ORIENTATION_LEFT =>
           mk_rect (rect_x area) (rect_y area) (W / 2) H
         | WESTON_TOP_LEVEL_TILED_ORIENTATION_RIGHT =>
           mk_rect (rect_x area + W / 2) (rect_y area) (W / 2) H
         | WESTON_TOP_LEVEL_TILED_ORIENTATION_TOP =>
           mk_rect (rect_x area) (rect_y area) W (H / 2)
         | WESTON_TOP_LEVEL_TILED_ORIENTATION_BOTTOM =>
           mk_rect (rect_x area) (rect_y area + H / 2) W (H / 2)
         end
    /\ rect_x area <= rect_x (tile_box sh' ds')
    /\ rect_x (tile_box sh' ds') + rect_width (tile_box sh' ds')
       <= rect_x area + W
    /\ rect_y area <= rect_y (tile_box sh' ds')
    /\ rect_y (tile_box sh' ds') + rect_height (tile_box sh' ds')
       <= rect_y area + H
    /\ W - 1 <= 2 * (W / 2) /\ H - 1 <= 2 * (H / 2).
Proof.
  intros Hs Hds area W H HW HH.
  unfold set_tiled_orientation. rewrite Hs.
  cbn [desktop_surface set_orientation output]. rewrite Hds.
  change (get_maximized_size w (set_orientation sh o))
    with (get_maximized_size w sh).
  fold area. fold W. fold H.
  assert (QW : Z.quot W 2 = W / 2) by (apply Z.quot_div_nonneg; lia).
  assert (QH : Z.quot H 2 = H / 2) by (apply Z.quot_div_nonneg; lia).
  assert (DW : 0 <= W / 2 /\ W - 1 <= 2 * (W / 2) <= W).
  { pose proof (Z.div_mod W 2 ltac:(lia)).
    pose proof (Z.mod_pos_bound W 2 ltac:(lia)). lia. }
  assert (DH : 0 <= H / 2 /\ H - 1 <= 2 * (H / 2) <= H).
  { pose proof (Z.div_mod H 2 ltac:(lia)).
    pose proof (Z.mod_pos_bound H 2 ltac:(lia)). lia. }
  eexists. eexists. eexists.
  split; [reflexivity|].
  split; [cbn [surfaces set_surfaces]; apply lookup_insert_eq|].
  split; [reflexivity|]. split; [reflexivity|]. split; [reflexivity|].
  split; [reflexivity|].
  unfold tile_box.
  cbn [view_pos set_desktop_surface set_view_pos ds_sent_size
       weston_desktop_surface_set_orientation weston_desktop_surface_set_size
       size_width size_height cx cy rect_x rect_y rect_width rect_height].
  change (weston_desktop_surface_get_geometry
            (weston_desktop_surface_set_orientation
               (weston_desktop_surface_set_size ds
                  (if tiled_orientation_eqb o
                        WESTON_TOP_LEVEL_TILED_ORIENTATION_LEFT
                      || tiled_orientation_eqb o
                           WESTON_TOP_LEVEL_TILED_ORIENTATION_RIGHT
                   then Z.quot W 2 else W)
                  (if tiled_orientation_eqb o
                        WESTON_TOP_LEVEL_TILED_ORIENTATION_LEFT
                      || tiled_orientation_eqb o
                           WESTON_TOP_LEVEL_TILED_ORIENTATION_RIGHT
                   then H
                   else if tiled_orientation_eqb o
                             WESTON_TOP_LEVEL_TILED_ORIENTATION_TOP
                           || tiled_orientation_eqb o
                                WESTON_TOP_LEVEL_TILED_ORIENTATION_BOTTOM
                        then Z.quot H 2 else H)) o))
    with (weston_desktop_surface_get_geometry ds).
  destruct o; cbn [tiled_orientation_eqb orb]; rewrite ?QW, ?QH;
    (split; [f_equal; lia|]); repeat split; lia.
Qed.

Lemma set_tiled_orientation_halves_witness :
  exists w' sh' ds',
    set_tiled_orientation (example_shell example_shsurf) (Some 1%positive)
      WESTON_TOP_LEVEL_TILED_ORIENTATION_RIGHT = Some w'
    /\ surfaces w' !! 1%positive = Some sh'
    /\ desktop_surface sh' = Some ds'
    /\ tile_box sh' ds' = mk_rect 500 30 500 770.
Proof.
  destruct (set_tiled_orientation_halves
              (example_shell example_shsurf) 1 example_shsurf example_ds
              WESTON_TOP_LEVEL_TILED_ORIENTATION_RIGHT eq_refl eq_refl
              ltac:(vm_compute; discriminate) ltac:(vm_compute; discriminate))
    as (w' & sh' & ds' & H1 & H2 & H3 & _ & _ & _ & H4 & _).
  exists w', sh', ds'. auto.
Defined.

(** The edges of the resize binding are never a set with both edges of an
    axis: they are one of the eight sets that [surface_resize] accepts, or
    no edge at all, which is the case exactly in the middle third of both
    axes. *)
Lemma resize_binding_edges_cases (x y width height : Z) :
  let e := resize_binding_edges x y width height in
  (e = 0 <-> (Z.quot width 3 <= x < Z.quot (2 * width) 3
              /\ Z.quot height 3 <= y < Z.quot (2 * height) 3))
  /\ (e <> 0 -> In e valid_resize_edges)
  /\ (Z.land e WESTON_DESKTOP_SURFACE_EDGE_LEFT <> 0 <-> x < Z.quot width 3)
  /\ (Z.land e WESTON_DESKTOP_SURFACE_EDGE_TOP <> 0 <-> y < Z.quot height 3)
  /\ (Z.land e WESTON_DESKTOP_SURFACE_EDGE_RIGHT <> 0
      <-> Z.quot width 3 <= x /\ Z.quot (2 * width) 3 <= x)
  /\ (Z.land e WESTON_DESKTOP_SURFACE_EDGE_BOTTOM <> 0
      <-> Z.quot height 3 <= y /\ Z.quot (2 * height) 3 <= y).
Proof.
  unfold resize_binding_edges.
  destruct (Z.ltb_spec x (Z.quot width 3));
    [|destruct (Z.ltb_spec x (Z.quot (2 * width) 3))];
    (destruct (Z.ltb_spec y (Z.quot height 3));
     [|destruct (Z.ltb_spec y (Z.quot (2 * height) 3))]);
    cbn; unfold valid_resize_edges; cbn;
    repeat split; intros; try lia; try tauto; try discriminate;
    try (exfalso; lia).
Qed.

(** The resize binding on a surface that may be grabbed.  The grab
    position is taken to the coordinates of the surface through the view's
    transform and cut to whole pixels, [(x, y)].  A press in the middle
    third of both axes changes nothing; any other press starts a resize
    grab from the edges of the thirds that [(x, y)] is in, which are never
    both edges of an axis. *)
Theorem resize_binding_starts_from_thirds (lw : libweston_ops)
    (w : desktop_shell) (s : positive) (sh : shell_surface)
    (ds : weston_desktop_surface_state)
    (surface_width surface_height : Z) :
  grabbable w s sh ds ->
  let surf_pos := weston_coord_global_to_surface lw s
                    (pointer_grab_pos (pointer w)) in
  let x := int32_of_double (csx surf_pos) in
  let y := int32_of_double (csy surf_pos) in
  let edges := resize_binding_edges x y surface_width surface_height in
  let middle :=
    Z.quot surface_width 3 <= x < Z.quot (2 * surface_width) 3
    /\ Z.quot surface_height 3 <= y < Z.quot (2 * surface_height) 3 in
  (middle ->
   resize_binding lw w (Some s) surface_width surface_height true = Some w)
  /\ (~ middle ->
      In edges valid_resize_edges
      /\ (Z.land edges WESTON_DESKTOP_SURFACE_EDGE_LEFT <> 0
          <-> x < Z.quot surface_width 3)
      /\ (Z.land edges WESTON_DESKTOP_SURFACE_EDGE_RIGHT <> 0
          <-> Z.quot (2 * surface_width) 3 <= x
              /\ Z.quot surface_width 3 <= x)
      /\ (Z.land edges WESTON_DESKTOP_SURFACE_EDGE_TOP <> 0
          <-> y < Z.quot surface_height 3)
      /\ (Z.land edges WESTON_DESKTOP_SURFACE_EDGE_BOTTOM <> 0
          <-> Z.quot (2 * surface_height) 3 <= y
              /\ Z.quot surface_height 3 <= y)
      /\ exists w' sh',
          resize_binding lw w (Some s) surface_width surface_height true
          = Some w'
          /\ pointer_grab (pointer w')
             = resize_grab_interface
                 (mk_resize_grab (Some s) edges
                    (geom_width (weston_desktop_surface_get_geometry ds))
                    (geom_height (weston_desktop_surface_get_geometry ds)))
          /\ surfaces w' !! s = Some sh'
          /\ grabbed sh' = true
          /\ resize_edges sh' = edges).
Proof.
  intros Hgrab surf_pos x y edges middle.
  pose proof Hgrab as (Hs & Hds & Hg & Hmax & Hfs).
  destruct (resize_binding_edges_cases x y surface_width surface_height)
    as (Hzero & Hvalid & Hl & Ht & Hr & Hb).
  fold edges in Hzero, Hvalid, Hl, Ht, Hr, Hb.
  assert (Hrb : resize_binding lw w (Some s) surface_width surface_height
                               true
                = do r <- surface_resize w s edges true; Some (snd r)).
  { unfold resize_binding, shsurf_is_max_or_fullscreen.
    rewrite Hs, Hds, Hmax, Hfs. reflexivity. }
  split.
  - intros Hm. apply Hzero in Hm. rewrite Hrb, Hm.
    unfold surface_resize, shsurf_is_max_or_fullscreen.
    rewrite Hs, Hg, Hds, Hmax, Hfs. reflexivity.
  - intros Hm.
    assert (Hne : edges <> 0) by (intros E; apply Hm, Hzero, E).
    specialize (Hvalid Hne). split; [exact Hvalid|].
    split; [exact Hl|]. split; [rewrite Hr; tauto|].
    split; [exact Ht|]. split; [rewrite Hb; tauto|].
    destruct (resize_grab_start_spec w s sh ds edges Hgrab Hvalid)
      as (w1 & sh1 & H1 & H2 & H3 & H4 & H5).
    exists w1, sh1. rewrite Hrb, H1. auto.
Qed.

Lemma resize_binding_starts_from_thirds_witness :
  exists w',
    resize_binding example_ops (example_shell example_shsurf)
                   (Some 1%positive) 400 300 true = Some w'
    /\ pointer_grab (pointer w')
       = resize_grab_interface (mk_resize_grab (Some 1%positive) 5 400 300).
Proof.
  destruct (resize_binding_starts_from_thirds example_ops
              (example_shell example_shsurf) 1 example_shsurf example_ds
              400 300 example_grabbable) as [_ H].
  destruct H as (_ & _ & _ & _ & _ & w' & sh' & H1 & H2 & _).
  - vm_compute. intros [[H _] _]. apply H. reflexivity.
  - exists w'. split; [exact H1|exact H2].
Defined.

Lemma int32_of_uint32_signed (z : Z) :
  - 2 ^ 31 <= z < 2 ^ 31 -> int32_of_uint32 z = z.
Proof.
  intros Hz. unfold int32_of_uint32, wrap_uint32.
  destruct (Z_lt_le_dec z 0) as [Hneg|Hpos].
  - assert (E : z mod 2 ^ 32 = z + 2 ^ 32).
    { symmetry. apply (Z.mod_unique_pos z (2 ^ 32) (-1)); lia. }
    rewrite E. destruct (Z.ltb_spec (z + 2 ^ 32) (2 ^ 31)); lia.
  - rewrite Z.mod_small by lia.
    destruct (Z.ltb_spec z (2 ^ 31)); lia.
Qed.

(** Where a new window is put.  With no output under the pointer (or
    under the origin when no seat has a pointer) the position is in the
    square from (10,10) to (409,409).  With one, the window starts at or
    after the origin of that output's work area on both axes, and on an
    axis on which it is smaller than the work area it ends inside the
    work area; on an axis on which it is not smaller it starts at the
    origin of the work area. *)
Theorem weston_view_set_initial_position_inside (w : desktop_shell)
    (first_pointer : option weston_coord)
    (output_list : list (weston_output * option shell_output))
    (surface_width surface_height : Z) (r1 r2 : Z) :
  0 <= r1 -> 0 <= r2 ->
  0 <= surface_width < 2 ^ 31 -> 0 <= surface_height < 2 ^ 31 ->
  let pos := weston_view_set_initial_position w first_pointer output_list
               surface_width surface_height r1 r2 in
  match find (fun o => weston_output_contains_coord
                         (fst o) (default (mk_coord 0 0) first_pointer))
             output_list with
  | None => 10 <= cx pos < 410 /\ 10 <= cy pos < 410
  | Some target =>
    let area := get_output_work_area (panel_position w) (snd target) in
    (rect_width area < 2 ^ 31 ->
     rect_x area <= cx pos
     /\ (surface_width < rect_width area ->
         cx pos + surface_width <= rect_x area + rect_width area)
     /\ (rect_width area <= surface_width -> cx pos = rect_x area))
    /\ (rect_height area < 2 ^ 31 ->
        rect_y area <= cy pos
        /\ (surface_height < rect_height area ->
            cy pos + surface_height <= rect_y area + rect_height area)
        /\ (rect_height area <= surface_height -> cy pos = rect_y area))
  end.
Proof.
  intros Hr1 Hr2 Hsw Hsh pos. unfold pos, weston_view_set_initial_position.
  change (match first_pointer with
          | Some p => p
          | None => mk_coord 0 0
          end) with (default (mk_coord 0 0) first_pointer).
  destruct (find _ output_list) as [target|].
  - cbn zeta.
    set (area := get_output_work_area (panel_position w) (snd target)).
    assert (Hwa : 0 <= rect_width area < 2 ^ 32
                  /\ 0 <= rect_height area < 2 ^ 32).
    { unfold area, get_output_work_area.
      destruct (snd target) as [so|]; [|cbn; lia].
      destruct (so_panel so) as [p|];
        [destruct (negb (panel_view_is_mapped p));
         [|destruct (panel_position w)]|];
        cbn [rect_width rect_height]; unfold wrap_uint32;
        split; apply Z.mod_pos_bound; lia. }
    destruct Hwa as [Hw0 Hh0].
    split.
    + intros Hwb. cbn [cx].
      rewrite int32_of_uint32_signed by lia.
      destruct (Z.ltb_spec 0 (rect_width area - surface_width)) as [Hp|Hn].
      * pose proof (Z.rem_bound_pos r1 (rect_width area - surface_width)
                      Hr1 Hp). lia.
      * lia.
    + intros Hhb. cbn [cy].
      rewrite int32_of_uint32_signed by lia.
      destruct (Z.ltb_spec 0 (rect_height area - surface_height)) as [Hp|Hn].
      * pose proof (Z.rem_bound_pos r2 (rect_height area - surface_height)
                      Hr2 Hp). lia.
      * lia.
  - cbn [cx cy].
    pose proof (Z.rem_bound_pos r1 400 Hr1 ltac:(lia)).
    pose proof (Z.rem_bound_pos r2 400 Hr2 ltac:(lia)). lia.
Qed.

Lemma weston_view_set_initial_position_inside_witness :
  let w := example_shell example_shsurf in
  let output_list := [(so_output example_output, Some example_output)] in
  let pos := weston_view_set_initial_position w (Some (mk_coord 150 120))
               output_list 400 300 1234 5678 in
  match find (fun o => weston_output_contains_coord
                         (fst o) (mk_coord 150 120)) output_list with
  | None => 10 <= cx pos < 410 /\ 10 <= cy pos < 410
  | Some target =>
    let area := get_output_work_area (panel_position w) (snd target) in
    (rect_width area < 2 ^ 31 ->
     rect_x area <= cx pos
     /\ (400 < rect_width area ->
         cx pos + 400 <= rect_x area + rect_width area)
     /\ (rect_width area <= 400 -> cx pos = rect_x area))
    /\ (rect_height area < 2 ^ 31 ->
        rect_y area <= cy pos
        /\ (300 < rect_height area ->
            cy pos + 300 <= rect_y area + rect_height area)
        /\ (rect_height area <= 300 -> cy pos = rect_y area))
  end.
Proof.
  exact (weston_view_set_initial_position_inside
           (example_shell example_shsurf) (Some (mk_coord 150 120))
           [(so_output example_output, Some example_output)]
           400 300 1234 5678 ltac:(lia) ltac:(lia) ltac:(lia) ltac:(lia)).
Defined.

Example weston_view_set_initial_position_example :
  weston_view_set_initial_position (example_shell example_shsurf)
    (Some (mk_coord 150 120)) [(so_output example_output, Some example_output)]
    400 300 1234 5678 = mk_coord 34 68.
Proof. reflexivity. Qed.

(** ** Lowering, focus states, minimizing *)

(** Lowering visits views that it does not lower without changing
    anything. *)
Lemma lower_fold_nothing (lo : option positive) (vs : list positive) :
  forall h,
    (forall v, In v vs -> lowers lo h v = None) ->
    fold_left (lower_fullscreen_view lo) vs h = h.
Proof.
  induction vs as [|v vs IH]; intros h Hnone; [reflexivity|].
  simpl fold_left. rewrite lower_fullscreen_view_eq.
  rewrite (Hnone v (or_introl eq_refl)).
  apply IH. intros u Hu. apply Hnone. right. exact Hu.
Qed.

(** After [lower_fullscreen_layer] no view of the fullscreen layer is one
    that the same call would lower. *)
Lemma lower_fullscreen_layer_leaves_none (h : shell_state)
    (lo : option positive) (v : positive) :
  curtains_plain h ->
  In v (st_layers (lower_fullscreen_layer h lo) fullscreen_layer) ->
  lowers lo (lower_fullscreen_layer h lo) v = None.
Proof.
  intros Hplain Hin. unfold lower_fullscreen_layer in *.
  set (vs := rev (st_layers h fullscreen_layer)) in *.
  pose proof (lower_fold_same_shape lo h vs h (same_shape_refl h)) as Hshape.
  rewrite (same_shape_lowers lo h _ v Hshape).
  destruct (lowers lo h v) as [sh|] eqn:Hl; [|reflexivity].
  exfalso.
  assert (Hnc : lowered_curtains lo h vs v = false).
  { apply not_true_false. intros Hc. apply lowered_curtains_spec in Hc.
    destruct Hc as (u & x & _ & _ & Hb). apply Hplain in Hb.
    unfold lowers in Hl. rewrite Hb in Hl. discriminate. }
  destruct (lowered_views lo h vs v) eqn:Hv.
  - apply (lower_fold_lowered lo h v fullscreen_layer vs h
             (same_shape_refl h) Hv Hnc) in Hin. discriminate.
  - apply (lower_fold_other lo h v fullscreen_layer vs h
             (same_shape_refl h) Hv Hnc) in Hin.
    assert (Hv' : lowered_views lo h vs v = true).
    { apply lowered_views_spec. split; [|rewrite Hl; eauto].
      unfold vs. rewrite <- in_rev. exact Hin. }
    congruence.
Qed.

(** [lower_fullscreen_layer] settles: when the curtains are the shell's
    own, a second call with the same output changes nothing; and after a
    call for all outputs (a null [lowering_output]) no view of a shell
    surface is left in the fullscreen layer, every such view that was
    there being in the workspace layer with its shell surface marked
    lowered. *)
Theorem lower_fullscreen_layer_settles (h : shell_state)
    (lo : option positive) :
  curtains_plain h ->
  lower_fullscreen_layer (lower_fullscreen_layer h lo) lo
  = lower_fullscreen_layer h lo
  /\ (forall v, In v (st_layers (lower_fullscreen_layer h None)
                                fullscreen_layer) ->
                get_shell_surface (lower_fullscreen_layer h None)
                  (view_surface (get_view (lower_fullscreen_layer h None) v))
                = None)
  /\ (forall v sh, In v (st_layers h fullscreen_layer) ->
                   view_shsurf h v = Some sh ->
                   In v (st_layers (lower_fullscreen_layer h None)
                                   workspace_layer)
                   /\ ss_lowered (get_shsurf (lower_fullscreen_layer h None)
                                             sh) = true).
Proof.
  intros Hplain. split; [|split].
  - set (h1 := lower_fullscreen_layer h lo).
    unfold lower_fullscreen_layer at 1. apply lower_fold_nothing.
    intros v Hv. rewrite <- in_rev in Hv.
    apply lower_fullscreen_layer_leaves_none; assumption.
  - intros v Hv.
    pose proof (lower_fullscreen_layer_leaves_none h None v Hplain Hv) as Hl.
    unfold lowers, view_shsurf in Hl.
    destruct (get_shell_surface _ _); [discriminate|reflexivity].
  - intros v sh Hin Hsh. unfold lower_fullscreen_layer.
    set (vs := rev (st_layers h fullscreen_layer)).
    assert (Hvs : In v vs) by (unfold vs; rewrite <- in_rev; exact Hin).
    assert (Hl : lowers None h v = Some sh)
      by (unfold lowers; rewrite Hsh; reflexivity).
    split.
    + apply (lower_fold_lowered None h v workspace_layer vs h
               (same_shape_refl h)); [| |reflexivity].
      * apply lowered_views_spec. split; [exact Hvs|]. rewrite Hl. eauto.
      * apply not_true_false. intros Hc. apply lowered_curtains_spec in Hc.
        destruct Hc as (u & x & _ & _ & Hb). apply Hplain in Hb. congruence.
    + rewrite (lower_fold_shsurf None h sh vs h (same_shape_refl h)).
      assert (E : lowered_shsurfs None h vs sh = true).
      { apply lowered_shsurfs_spec. exists v. auto. }
      rewrite E. reflexivity.
Qed.

Lemma lower_fullscreen_layer_settles_witness :
  lower_fullscreen_layer (lower_fullscreen_layer example_stack (Some 1%positive))
                         (Some 1%positive)
  = lower_fullscreen_layer example_stack (Some 1%positive).
Proof.
  exact (proj1 (lower_fullscreen_layer_settles example_stack (Some 1%positive)
                  example_stack_curtains_plain)).
Defined.

Lemma focus_state_set_focus_get (h : shell_state) (a : positive)
    (x : option positive) (st : positive) :
  get_focus_state (focus_state_set_focus h a x) st
  = if Pos.eqb st a
    then mk_focus_state (fs_seat (get_focus_state h a)) x x
    else get_focus_state h st.
Proof.
  unfold focus_state_set_focus, get_focus_state at 1.
  cbn [st_focus_states set_focus_states].
  destruct (Pos.eqb_spec st a) as [->|Hne].
  - rewrite lookup_insert_eq. reflexivity.
  - rewrite lookup_insert_ne by congruence. reflexivity.
Qed.

Lemma drop_focus_state_fold (surface : positive) (l : list positive) :
  forall h,
    let h' := fold_left
                (fun acc st =>
                   if option_pos_eqb (keyboard_focus (get_focus_state acc st))
                                     (Some surface)
                   then focus_state_set_focus acc st None
                   else acc) l h in
    ws_focus_list h' = ws_focus_list h
    /\ st_layers h' = st_layers h
    /\ st_seats h' = st_seats h
    /\ st_shsurfs h' = st_shsurfs h
    /\ st_surfaces h' = st_surfaces h
    /\ st_views h' = st_views h
    /\ (forall st,
          fs_seat (get_focus_state h' st) = fs_seat (get_focus_state h st)
          /\ keyboard_focus (get_focus_state h' st)
             = if existsb (Pos.eqb st) l
                  && option_pos_eqb (keyboard_focus (get_focus_state h st))
                                    (Some surface)
               then None
               else keyboard_focus (get_focus_state h st)).
Proof.
  induction l as [|a l IH]; intros h; cbn zeta.
  - simpl. repeat split.
  - simpl fold_left.
    set (h1 := if option_pos_eqb (keyboard_focus (get_focus_state h a))
                                 (Some surface)
               then focus_state_set_focus h a None else h).
    destruct (IH h1) as (I1 & I2 & I3 & I4 & I5 & I6 & I7).
    assert (H1 : ws_focus_list h1 = ws_focus_list h
                 /\ st_layers h1 = st_layers h
                 /\ st_seats h1 = st_seats h
                 /\ st_shsurfs h1 = st_shsurfs h
                 /\ st_surfaces h1 = st_surfaces h
                 /\ st_views h1 = st_views h)
      by (unfold h1; destruct (option_pos_eqb _ _); repeat split).
    destruct H1 as (J1 & J2 & J3 & J4 & J5 & J6).
    split; [congruence|]. split; [congruence|]. split; [congruence|].
    split; [congruence|]. split; [congruence|]. split; [congruence|].
    intros st. destruct (I7 st) as [K1 K2]. rewrite K1, K2. clear K1 K2.
    assert (Hst : fs_seat (get_focus_state h1 st)
                  = fs_seat (get_focus_state h st)
                  /\ keyboard_focus (get_focus_state h1 st)
                     = if Pos.eqb st a
                          && option_pos_eqb
                               (keyboard_focus (get_focus_state h st))
                               (Some surface)
                       then None
                       else keyboard_focus (get_focus_state h st)).
    { unfold h1.
      destruct (option_pos_eqb (keyboard_focus (get_focus_state h a))
                               (Some surface)) eqn:E.
      - rewrite focus_state_set_focus_get.
        destruct (Pos.eqb_spec st a) as [->|Hne]; cbn [andb].
        + rewrite E. split; reflexivity.
        + split; reflexivity.
      - destruct (Pos.eqb_spec st a) as [->|Hne]; cbn [andb].
        + rewrite E. split; reflexivity.
        + split; reflexivity. }
    destruct Hst as [-> ->]. split; [reflexivity|].
    cbn [existsb].
    set (K := keyboard_focus (get_focus_state h st)).
    destruct (Pos.eqb st a), (existsb (Pos.eqb st) l),
      (option_pos_eqb K (Some surface)) eqn:E;
      cbn [andb orb option_pos_eqb]; rewrite ?E; reflexivity.
Qed.

Lemma existsb_eqb_in (st : positive) (l : list positive) :
  existsb (Pos.eqb st) l = true <-> In st l.
Proof.
  rewrite existsb_exists. split.
  - intros (x & Hx & E). apply Pos.eqb_eq in E. subst. exact Hx.
  - intros H. exists st. split; [exact H|apply Pos.eqb_refl].
Qed.

(** [drop_focus_state] leaves no focus state of the workspace with its
    focus on the surface: the states that had it there have no focus,
    every other state has the focus it had, and the list, the seats of the
    states and the stacking are what they were. *)
Theorem drop_focus_state_clears (h : shell_state) (surface : positive) :
  let h' := drop_focus_state h surface in
  ws_focus_list h' = ws_focus_list h
  /\ st_layers h' = st_layers h
  /\ st_seats h' = st_seats h
  /\ (forall st, In st (ws_focus_list h') ->
                 keyboard_focus (get_focus_state h' st) <> Some surface)
  /\ (forall st, fs_seat (get_focus_state h' st)
                 = fs_seat (get_focus_state h st))
  /\ (forall st, In st (ws_focus_list h) ->
                 keyboard_focus (get_focus_state h st) = Some surface ->
                 keyboard_focus (get_focus_state h' st) = None)
  /\ (forall st, keyboard_focus (get_focus_state h st) <> Some surface ->
                 keyboard_focus (get_focus_state h' st)
                 = keyboard_focus (get_focus_state h st)).
Proof.
  intros h'. unfold h', drop_focus_state.
  destruct (drop_focus_state_fold surface (ws_focus_list h) h)
    as (I1 & I2 & I3 & _ & _ & _ & I7).
  cbn zeta in I1, I2, I3, I7.
  split; [exact I1|]. split; [exact I2|]. split; [exact I3|].
  split; [|split; [|split]].
  - intros st Hin. rewrite I1 in Hin.
    destruct (I7 st) as [_ ->].
    apply existsb_eqb_in in Hin. rewrite Hin. cbn [andb].
    destruct (option_pos_eqb (keyboard_focus (get_focus_state h st))
                             (Some surface)) eqn:E; [discriminate|].
    intros Hk. apply option_pos_eqb_eq in Hk. congruence.
  - intros st. apply I7.
  - intros st Hin Hk. destruct (I7 st) as [_ ->].
    apply existsb_eqb_in in Hin. rewrite Hin.
    apply option_pos_eqb_eq in Hk. rewrite Hk. reflexivity.
  - intros st Hk. destruct (I7 st) as [_ ->].
    destruct (option_pos_eqb (keyboard_focus (get_focus_state h st))
                             (Some surface)) eqn:E.
    + apply option_pos_eqb_eq in E. contradiction.
    + rewrite andb_false_r. reflexivity.
Qed.

(** [ensure_focus_state] finds or makes the seat's focus state: the state
    it returns belongs to the seat and is in the workspace's list, a
    second call returns the same state without a change, a state is
    allocated only when the list has none for the seat (it then goes to
    the front of the list with no focus), and the call fails only when
    that allocation fails. *)
Theorem ensure_focus_state_finds_or_makes (h : shell_state)
    (seat : positive) (malloc_ok : bool) :
  match ensure_focus_state h seat malloc_ok with
  | (Some st, h1) =>
    fs_seat (get_focus_state h1 st) = seat
    /\ In st (ws_focus_list h1)
    /\ seat_focus_state h1 seat = Some st
    /\ (forall b, ensure_focus_state h1 seat b = (Some st, h1))
    /\ (forall st0, seat_focus_state h seat = Some st0 -> st = st0 /\ h1 = h)
    /\ (seat_focus_state h seat = None ->
        malloc_ok = true
        /\ st = next_id h
        /\ keyboard_focus (get_focus_state h1 st) = None
        /\ ws_focus_list h1 = st :: ws_focus_list h
        /\ st_layers h1 = st_layers h)
  | (None, h1) =>
    h1 = h /\ malloc_ok = false /\ seat_focus_state h seat = None
  end.
Proof.
  unfold ensure_focus_state. fold (seat_focus_state h seat).
  destruct (seat_focus_state h seat) as [st0|] eqn:Hfind.
  - pose proof Hfind as Hf. unfold seat_focus_state in Hf.
    apply find_some in Hf. destruct Hf as [Hin Hseat].
    apply Pos.eqb_eq in Hseat.
    split; [exact Hseat|]. split; [exact Hin|]. split; [exact Hfind|].
    split.
    { intros b. unfold ensure_focus_state.
      fold (seat_focus_state h seat). rewrite Hfind. reflexivity. }
    split; [intros st1 E; injection E as <-; auto|discriminate].
  - destruct malloc_ok; cbn [negb]; [|auto].
    set (st := next_id h).
    set (h1 := mk_state _ _ _ _ _ _ _ _ _ _ _ _).
    assert (Hget : get_focus_state h1 st = mk_focus_state seat None None).
    { unfold h1, get_focus_state. cbn [st_focus_states].
      rewrite lookup_insert_eq. reflexivity. }
    assert (Hfind1 : seat_focus_state h1 seat = Some st).
    { unfold seat_focus_state. unfold h1 at 2. cbn [ws_focus_list find].
      rewrite Hget. cbn [fs_seat]. rewrite Pos.eqb_refl. reflexivity. }
    split; [rewrite Hget; reflexivity|].
    split; [unfold h1; cbn [ws_focus_list]; left; reflexivity|].
    split; [exact Hfind1|].
    split.
    { intros b. unfold ensure_focus_state.
      fold (seat_focus_state h1 seat). rewrite Hfind1. reflexivity. }
    split; [discriminate|].
    intros _. rewrite Hget. repeat split.
Qed.

(** Propagating the layer of a surface's views moves the views that hang
    under them and no other. *)
Lemma propagate_view_other (u : positive) (l : layer_id) :
  forall t h,
    ~ In u (map dv_view (flat_map dv_nodes (dv_children t))) ->
    (In u (st_layers (weston_desktop_view_propagate_layer h t) l)
     <-> In u (st_layers h l)).
Proof.
  induction t as [w s cs IH] using weston_desktop_view_forall_ind.
  intros h Hm. cbn [dv_children] in Hm. simpl.
  induction cs as [|c cs IHcs]; [reflexivity|].
  simpl fold_right. inversion IH as [|c' l' IHc IHrest]; subst.
  simpl in Hm. rewrite map_app, in_app_iff in Hm.
  destruct c as [wc sc lc]. simpl in Hm.
  rewrite IHc by (cbn [dv_children]; tauto).
  rewrite move_to_layer_other by (cbn [dv_view]; intros E; subst; tauto).
  apply IHcs; [exact IHrest|tauto].
Qed.

Lemma propagate_surface_other (u : positive) (l : layer_id)
    (role : desktop_role) :
  forall h,
    ~ In u (inner_views (role_view_list role)) ->
    (In u (st_layers (weston_desktop_surface_propagate_layer h role) l)
     <-> In u (st_layers h l)).
Proof.
  unfold weston_desktop_surface_propagate_layer, inner_views.
  induction (role_view_list role) as [|t ts IH]; intros h Hm;
    [reflexivity|].
  simpl fold_left. simpl in Hm. rewrite map_app, in_app_iff in Hm.
  rewrite IH by tauto. apply propagate_view_other. tauto.
Qed.

Lemma main_surface_walk_ext (h h' : shell_state) (n : nat) :
  st_surfaces h' = st_surfaces h ->
  forall s, main_surface_walk n h' s = main_surface_walk n h s.
Proof.
  intros E. induction n as [|n IH]; intros s; cbn [main_surface_walk];
    unfold get_surface; rewrite E;
    destruct (subsurface_parent _); auto.
Qed.

Lemma weston_surface_get_main_surface_ext (h h' : shell_state)
    (s : option positive) :
  st_surfaces h' = st_surfaces h ->
  weston_surface_get_main_surface h' s = weston_surface_get_main_surface h s.
Proof.
  intros E. unfold weston_surface_get_main_surface.
  destruct s as [x|]; [|reflexivity]. rewrite E.
  apply main_surface_walk_ext. exact E.
Qed.

Lemma main_surface_of_main (h : shell_state) (s : positive) :
  subsurface_parent (get_surface h s) = None ->
  weston_surface_get_main_surface h (Some s) = Some s.
Proof.
  intros Hp. unfold weston_surface_get_main_surface.
  destruct (size (st_surfaces h)); cbn [main_surface_walk]; rewrite Hp;
    reflexivity.
Qed.

Lemma propagate_view_surfaces :
  forall t h,
    st_surfaces (weston_desktop_view_propagate_layer h t) = st_surfaces h.
Proof.
  induction t as [w s cs IH] using weston_desktop_view_forall_ind.
  intros h. simpl.
  induction cs as [|c cs IHcs]; [reflexivity|].
  simpl fold_right. inversion IH as [|c' l' IHc IHrest]; subst.
  rewrite IHc.
  match goal with
  | |- st_surfaces (weston_view_move_to_layer ?x ?v ?e) = _ =>
    destruct (move_to_layer_rest x v e) as (R1 & _); rewrite R1
  end.
  apply IHcs. exact IHrest.
Qed.

Lemma propagate_surface_surfaces (role : desktop_role) :
  forall h,
    st_surfaces (weston_desktop_surface_propagate_layer h role)
    = st_surfaces h.
Proof.
  unfold weston_desktop_surface_propagate_layer.
  induction (role_view_list role) as [|t ts IH]; intros h; [reflexivity|].
  simpl fold_left. rewrite IH. apply propagate_view_surfaces.
Qed.

(** Minimizing a window, whose view is the shell surface's view of a main
    surface: the view ends in the minimized layer and in no other, no
    focus state of the workspace keeps the surface as its focus, and no
    seat keeps a keyboard focus whose main surface is the surface. *)
Theorem set_minimized_hides_and_unfocuses (h : shell_state)
    (surface sh : positive) (role : desktop_role) :
  get_shell_surface h surface = Some sh ->
  surface_views (get_surface h surface) <> [] ->
  view_surface (get_view h (ss_view (get_shsurf h sh))) = surface ->
  subsurface_parent (get_surface h surface) = None ->
  ss_desktop_surface (get_shsurf h sh) = Some role ->
  ~ In (ss_view (get_shsurf h sh)) (inner_views (role_view_list role)) ->
  exists h',
    set_minimized h surface = Some h'
    /\ (forall l, In (ss_view (get_shsurf h sh)) (st_layers h' l)
                  <-> l = minimized_layer)
    /\ ws_focus_list h' = ws_focus_list h
    /\ (forall st, In st (ws_focus_list h') ->
                   keyboard_focus (get_focus_state h' st) <> Some surface)
    /\ (forall seat x, st_seats h' !! seat = Some x ->
                       weston_surface_get_main_surface h'
                         (seat_keyboard_focus x) <> Some surface).
Proof.
  intros Hsh Hviews Hview Hmain Hrole Hinner.
  set (view := ss_view (get_shsurf h sh)) in *.
  unfold set_minimized.
  assert (Hdef : get_default_view h (Some surface) = Some view).
  { unfold get_default_view.
    destruct (surface_views (get_surface h surface)); [contradiction|].
    rewrite Hsh. reflexivity. }
  rewrite Hdef, Hview, (main_surface_of_main h surface Hmain).
  cbn [option_pos_eqb]. rewrite Pos.eqb_refl. cbn [negb]. rewrite Hsh.
  set (h1 := weston_view_move_to_layer h view
               (Some (layer_view_list minimized_layer))).
  assert (Hvs1 : view_surface (get_view h1 view) = surface)
    by (unfold h1; rewrite move_to_layer_view_surface; exact Hview).
  rewrite Hvs1.
  set (h2 := drop_focus_state h1 surface).
  destruct (drop_focus_state_fold surface (ws_focus_list h1) h1)
    as (D1 & D2 & D3 & D4 & D5 & D6 & D7).
  cbn zeta in D1, D2, D3, D4, D5, D6, D7.
  fold (drop_focus_state h1 surface) in D1, D2, D3, D4, D5, D6, D7.
  fold h2 in D1, D2, D3, D4, D5, D6, D7.
  destruct (move_to_layer_rest h view
              (Some (layer_view_list minimized_layer)))
    as (M1 & M2 & M3 & M4 & M5 & _).
  fold h1 in M1, M2, M3, M4, M5.
  set (h3 := surface_keyboard_focus_lost h2 surface).
  assert (Hshsurf3 : get_shsurf h3 sh = get_shsurf h sh).
  { unfold get_shsurf. change (st_shsurfs h3) with (st_shsurfs h2).
    rewrite D4, M2. reflexivity. }
  rewrite Hshsurf3, Hrole.
  eexists. split; [reflexivity|].
  destruct (focus_frame_propagate_surface role h3) as (F1 & F2 & F3).
  split; [|split; [|split]].
  - intros l. rewrite propagate_surface_other by exact Hinner.
    change (st_layers h3) with (st_layers h2). rewrite D2.
    unfold h1. apply move_to_layer_head.
  - rewrite F2. change (ws_focus_list h3) with (ws_focus_list h2).
    rewrite D1. exact M5.
  - intros st Hin. rewrite F2 in Hin.
    change (ws_focus_list h3) with (ws_focus_list h2) in Hin.
    rewrite D1 in Hin.
    unfold get_focus_state. rewrite F1.
    change (st_focus_states h3) with (st_focus_states h2).
    fold (get_focus_state h2 st).
    destruct (D7 st) as [_ ->].
    apply existsb_eqb_in in Hin. rewrite Hin. cbn [andb].
    destruct (option_pos_eqb (keyboard_focus (get_focus_state h1 st))
                             (Some surface)) eqn:E; [discriminate|].
    intros Hk. apply option_pos_eqb_eq in Hk. congruence.
  - intros seat x Hx. rewrite F3 in Hx.
    unfold h3, surface_keyboard_focus_lost in Hx.
    cbn [st_seats set_seats] in Hx. rewrite lookup_fmap in Hx.
    destruct (st_seats h2 !! seat) as [x0|]; [|discriminate].
    cbn [fmap option_fmap option_map] in Hx. injection Hx as <-.
    assert (Hsurf : forall k,
               weston_surface_get_main_surface
                 (weston_desktop_surface_propagate_layer h3 role) k
               = weston_surface_get_main_surface h2 k).
    { intros k. rewrite <- (weston_surface_get_main_surface_ext h2 h3 k)
        by reflexivity.
      apply weston_surface_get_main_surface_ext.
      apply propagate_surface_surfaces. }
    rewrite Hsurf.
    destruct (option_pos_eqb
                (weston_surface_get_main_surface h2 (seat_keyboard_focus x0))
                (Some surface)) eqn:E.
    + cbn [seat_keyboard_focus]. discriminate.
    + intros Hk. apply option_pos_eqb_eq in Hk. congruence.
Qed.

Lemma set_minimized_hides_and_unfocuses_witness :
  exists h',
    set_minimized example_stack 1 = Some h'
    /\ (forall l, In 11%positive (st_layers h' l) <-> l = minimized_layer).
Proof.
  destruct (set_minimized_hides_and_unfocuses example_stack 1 101
              (mk_role false [DesktopView 11 1 []])
              eq_refl ltac:(discriminate) eq_refl eq_refl eq_refl
              ltac:(vm_compute; tauto))
    as (h' & H1 & H2 & _).
  exists h'. split; [exact H1|exact H2].
Defined.

(** ** Parents and children of shell surfaces *)

Lemma remove_link_get (h : shell_state) (s q : positive) :
  get_shsurf (set_shsurfs h (remove_shsurf_children_link s (st_shsurfs h))) q
  = set_children_list
      (List.filter (fun c => negb (Pos.eqb c s))
                   (ss_children_list (get_shsurf h q)))
      (get_shsurf h q).
Proof.
  unfold get_shsurf, remove_shsurf_children_link.
  cbn [st_shsurfs set_shsurfs]. rewrite lookup_fmap.
  destruct (st_shsurfs h !! q); reflexivity.
Qed.

Lemma find_app_last {A : Type} (f : A -> bool) (l : list A) (x : A) :
  f x = true -> find f (rev (l ++ [x])) = Some x.
Proof.
  intros Hx. rewrite rev_app_distr. simpl. rewrite Hx. reflexivity.
Qed.

(** Giving a shell surface a parent: the child is the last of the
    parent's children and is in no other list, so when its view is mapped
    it is the child that [get_last_child] finds and that an activation of
    the parent goes to; the other children stay where they are.  Taking
    the parent away leaves the surface in no list. *)
Theorem desktop_surface_set_parent_last_child (h : shell_state)
    (s p : positive) :
  p <> s ->
  let h' := desktop_surface_set_parent h s (Some p) in
  ss_children_list (get_shsurf h' p)
  = List.filter (fun c => negb (Pos.eqb c s))
                (ss_children_list (get_shsurf h p)) ++ [s]
  /\ (forall q, q <> p -> ~ In s (ss_children_list (get_shsurf h' q)))
  /\ (forall q c, c <> s ->
                  (In c (ss_children_list (get_shsurf h' q))
                   <-> In c (ss_children_list (get_shsurf h q))))
  /\ (is_mapped (get_view h (ss_view (get_shsurf h s))) = true ->
      get_last_child h' p = Some s
      /\ forall fuel v seat flags oracle main_surface,
          weston_surface_get_main_surface h'
            (Some (view_surface (get_view h' v))) = Some main_surface ->
          get_shell_surface h' main_surface = Some p ->
          activate (S fuel) h' v seat flags oracle
          = activate fuel h' (ss_view (get_shsurf h s)) seat flags oracle)
  /\ (forall q, ~ In s (ss_children_list
                          (get_shsurf (desktop_surface_set_parent h s None)
                                      q))).
Proof.
  intros Hps h'. unfold h', desktop_surface_set_parent.
  set (h1 := set_shsurfs h (remove_shsurf_children_link s (st_shsurfs h))).
  assert (Hp : get_shsurf
                 (update_shsurf h1 p
                    (fun x => set_children_list (ss_children_list x ++ [s]) x))
                 p
               = set_children_list
                   (List.filter (fun c => negb (Pos.eqb c s))
                                (ss_children_list (get_shsurf h p)) ++ [s])
                   (get_shsurf h p)).
  { rewrite update_shsurf_get, Pos.eqb_refl. unfold h1.
    rewrite remove_link_get. reflexivity. }
  assert (Hq : forall q, q <> p ->
             get_shsurf
               (update_shsurf h1 p
                  (fun x => set_children_list (ss_children_list x ++ [s]) x))
               q
             = set_children_list
                 (List.filter (fun c => negb (Pos.eqb c s))
                              (ss_children_list (get_shsurf h q)))
                 (get_shsurf h q)).
  { intros q Hne. rewrite update_shsurf_get.
    destruct (Pos.eqb_spec q p); [contradiction|].
    unfold h1. apply remove_link_get. }
  assert (Hfilter : forall l, ~ In s (List.filter
                                        (fun c => negb (Pos.eqb c s)) l)).
  { intros l Hin. apply filter_In in Hin. destruct Hin as [_ Hin].
    rewrite Pos.eqb_refl in Hin. discriminate. }
  assert (Hkeep : forall l c, c <> s ->
             (In c (List.filter (fun c => negb (Pos.eqb c s)) l) <-> In c l)).
  { intros l c Hc. rewrite filter_In.
    destruct (Pos.eqb_spec c s); [contradiction|]. cbn. tauto. }
  split; [rewrite Hp; reflexivity|].
  split; [intros q Hne; rewrite (Hq q Hne); apply Hfilter|].
  split.
  { intros q c Hc. destruct (Pos.eqb_spec q p) as [->|Hne].
    - rewrite Hp. cbn [ss_children_list set_children_list].
      rewrite in_app_iff, Hkeep by exact Hc. simpl. intuition congruence.
    - rewrite (Hq q Hne). cbn [ss_children_list set_children_list].
      apply Hkeep. exact Hc. }
  split.
  { intros Hmapped.
    assert (Hlast : get_last_child
                      (update_shsurf h1 p
                         (fun x => set_children_list
                                     (ss_children_list x ++ [s]) x)) p
                    = Some s).
    { unfold get_last_child. rewrite Hp.
      cbn [ss_children_list set_children_list].
      apply find_app_last.
      rewrite (Hq s (not_eq_sym Hps)).
      cbn [ss_view set_children_list]. exact Hmapped. }
    split; [exact Hlast|].
    intros fuel v seat flags oracle main_surface Hms Hshell.
    cbn [activate]. rewrite Hms, Hshell, Hlast.
    rewrite (Hq s (not_eq_sym Hps)). reflexivity. }
  intros q. change (~ In s (ss_children_list (get_shsurf h1 q))).
  unfold h1. rewrite remove_link_get. apply Hfilter.
Qed.

Lemma desktop_surface_set_parent_last_child_witness :
  get_last_child (desktop_surface_set_parent example_stack 102 (Some 101%positive))
                 101
  = Some 102%positive.
Proof.
  exact (proj1 (proj1 (proj2 (proj2 (proj2
           (desktop_surface_set_parent_last_child example_stack 102 101
              ltac:(discriminate)))))
           eq_refl)).
Defined.

(** ** Locking and unlocking: the keyboard focus of the seats *)

Lemma weston_keyboard_set_focus_get (h : shell_state) (seat x : positive)
    (surface : option positive) :
  get_seat (weston_keyboard_set_focus h seat surface) x
  = if Pos.eqb x seat
    then mk_seat (shseat_focused_surface (get_seat h seat)) surface
    else get_seat h x.
Proof.
  unfold weston_keyboard_set_focus, get_seat at 1. cbn [st_seats set_seats].
  destruct (Pos.eqb_spec x seat) as [->|Hne].
  - rewrite lookup_insert_eq. reflexivity.
  - rewrite lookup_insert_ne by congruence. reflexivity.
Qed.

Lemma same_but_seats_refl (h : shell_state) : same_but_seats h h.
Proof. repeat split. Qed.

Lemma same_but_seats_trans (h1 h2 h3 : shell_state) :
  same_but_seats h1 h2 -> same_but_seats h2 h3 -> same_but_seats h1 h3.
Proof.
  intros (A1 & A2 & A3 & A4 & A5 & A6 & A7) (B1 & B2 & B3 & B4 & B5 & B6 & B7).
  repeat split; first [congruence | intros x; rewrite B7; apply A7].
Qed.

Lemma same_but_seats_set_focus (h : shell_state) (seat : positive)
    (surface : option positive) :
  same_but_seats h (weston_keyboard_set_focus h seat surface).
Proof.
  repeat split. intros x. rewrite weston_keyboard_set_focus_get.
  destruct (Pos.eqb_spec x seat) as [->|]; reflexivity.
Qed.

Lemma find_append {A : Type} (f : A -> bool) (l1 l2 : list A) :
  find f (l1 ++ l2)
  = match find f l1 with
    | Some x => Some x
    | None => find f l2
    end.
Proof.
  induction l1 as [|x l1 IH]; [reflexivity|].
  simpl. destruct (f x); [reflexivity|exact IH].
Qed.

Lemma restore_focus_fold (hk : positive -> bool) (l : list positive) :
  forall h0 p0 s0,
    let r := fold_left (restore_focus_step hk) l (h0, p0, s0) in
    same_but_seats h0 (fst (fst r))
    /\ (forall seat,
          seat_keyboard_focus (get_seat (fst (fst r)) seat)
          = if hk seat
            then match saved_focus h0 l seat with
                 | Some f => f
                 | None => seat_keyboard_focus (get_seat h0 seat)
                 end
            else seat_keyboard_focus (get_seat h0 seat))
    /\ snd (fst r)
       = List.filter
           (fun x => negb (existsb
                             (fun st => Pos.eqb (fs_seat (get_focus_state h0 st))
                                                x) l)) p0
    /\ (forall x, In x (snd r)
                  <-> In x s0
                      \/ exists st, In st l
                                    /\ fs_seat (get_focus_state h0 st) = x)
    /\ (List.NoDup s0 -> List.NoDup (snd r)).
Proof.
  induction l as [|a l IH]; intros h0 p0 s0; cbn zeta.
  - simpl. split; [apply same_but_seats_refl|].
    split; [intros seat; unfold saved_focus; simpl;
            destruct (hk seat); reflexivity|].
    split.
    { induction p0 as [|x p0 IHp]; [reflexivity|].
      simpl. f_equal. exact IHp. }
    split; [|auto]. intros x. split; [auto|].
    intros [H|(st & [] & _)]. exact H.
  - simpl fold_left.
    set (seat_a := fs_seat (get_focus_state h0 a)).
    set (h1 := if hk seat_a
               then weston_keyboard_set_focus h0 seat_a
                      (keyboard_focus (get_focus_state h0 a))
               else h0).
    change (restore_focus_step hk (h0, p0, s0) a)
      with (h1, remove_seat seat_a p0, seat_a :: remove_seat seat_a s0).
    destruct (IH h1 (remove_seat seat_a p0) (seat_a :: remove_seat seat_a s0))
      as (I1 & I2 & I3 & I4 & I5).
    cbn zeta in I1, I2, I3, I4, I5.
    set (r := fold_left (restore_focus_step hk) l
                (h1, remove_seat seat_a p0, seat_a :: remove_seat seat_a s0))
      in *.
    assert (H1 : same_but_seats h0 h1).
    { unfold h1. destruct (hk seat_a);
        [apply same_but_seats_set_focus|apply same_but_seats_refl]. }
    assert (Hfs : forall st, get_focus_state h1 st = get_focus_state h0 st).
    { intros st. unfold get_focus_state.
      destruct H1 as (E & _). rewrite E. reflexivity. }
    split; [eapply same_but_seats_trans; eassumption|].
    split.
    { intros seat. rewrite I2.
      destruct (hk seat) eqn:Hk; [|].
      - unfold saved_focus. simpl rev. rewrite find_append.
        assert (Hsame : find (fun st => Pos.eqb (fs_seat (get_focus_state h1 st))
                                                seat) (rev l)
                        = find (fun st => Pos.eqb
                                            (fs_seat (get_focus_state h0 st))
                                            seat) (rev l)).
        { apply find_same. intros st. rewrite Hfs. reflexivity. }
        rewrite Hsame.
        destruct (find (fun st => Pos.eqb (fs_seat (get_focus_state h0 st))
                                          seat) (rev l)) as [st|];
          cbn [option_map].
        + rewrite Hfs. reflexivity.
        + cbn [find]. fold seat_a.
          unfold h1.
          destruct (Pos.eqb_spec seat_a seat) as [E|Hne]; cbn [option_map].
          * rewrite E, Hk. rewrite weston_keyboard_set_focus_get.
            rewrite Pos.eqb_refl. reflexivity.
          * destruct (hk seat_a); [|reflexivity].
            rewrite weston_keyboard_set_focus_get.
            destruct (Pos.eqb_spec seat seat_a); [congruence|reflexivity].
      - unfold h1. destruct (hk seat_a) eqn:Hka; [|reflexivity].
        rewrite weston_keyboard_set_focus_get.
        destruct (Pos.eqb_spec seat seat_a) as [E|]; [|reflexivity].
        congruence. }
    split.
    { rewrite I3. unfold remove_seat.
      clear. induction p0 as [|x p0 IHp]; [reflexivity|].
      cbn [List.filter existsb].
      assert (Hsame : existsb (fun st => Pos.eqb
                                 (fs_seat (get_focus_state h1 st)) x) l
                      = existsb (fun st => Pos.eqb
                                   (fs_seat (get_focus_state h0 st)) x) l).
      { clear. induction l as [|b l IHl]; [reflexivity|].
        cbn [existsb]. rewrite IHl. f_equal.
        unfold h1. destruct (hk seat_a); reflexivity. }
      fold seat_a.
      destruct (Pos.eqb_spec x seat_a) as [->|Hne]; cbn [negb].
      - rewrite Pos.eqb_refl. cbn [orb negb]. exact IHp.
      - destruct (Pos.eqb_spec seat_a x); [congruence|].
        cbn [List.filter orb]. rewrite Hsame.
        destruct (negb _); [f_equal|]; exact IHp. }
    split.
    { intros x. rewrite I4.
      change (In x (seat_a :: remove_seat seat_a s0))
        with (seat_a = x \/ In x (remove_seat seat_a s0)).
      unfold remove_seat. split.
      - intros [[E|Hx]|(st & Hst & E)].
        + right. exists a. split; [left; reflexivity|exact E].
        + apply filter_In in Hx. left. apply Hx.
        + right. exists st. split; [right; exact Hst|].
          rewrite <- Hfs. exact E.
      - intros [Hx|(st & [<-|Hst] & E)].
        + destruct (Pos.eqb_spec x seat_a) as [->|Hne].
          * left. left. reflexivity.
          * left. right. apply filter_In. split; [exact Hx|].
            destruct (Pos.eqb_spec x seat_a); [contradiction|reflexivity].
        + left. left. exact E.
        + right. exists st. split; [exact Hst|]. rewrite Hfs. exact E. }
    intros Hnd. apply I5. apply List.NoDup_cons.
    + unfold remove_seat. intros Hin. apply filter_In in Hin.
      destruct Hin as [_ E]. rewrite Pos.eqb_refl in E. discriminate.
    + unfold remove_seat. apply List.NoDup_filter. exact Hnd.
Qed.

Lemma restore_pending_fold (hk : positive -> bool) (p : list positive) :
  forall h0 s0,
    let r := fold_left (restore_pending_step hk) p (h0, s0) in
    same_but_seats h0 (fst r)
    /\ (forall seat,
          seat_keyboard_focus (get_seat (fst r) seat)
          = if hk seat && existsb (Pos.eqb seat) p then None
            else seat_keyboard_focus (get_seat h0 seat))
    /\ snd r = rev p ++ s0.
Proof.
  induction p as [|a p IH]; intros h0 s0; cbn zeta.
  - simpl. split; [apply same_but_seats_refl|]. split; [|reflexivity].
    intros seat. rewrite andb_false_r. reflexivity.
  - simpl fold_left.
    set (h1 := if hk a then weston_keyboard_set_focus h0 a None else h0).
    change (restore_pending_step hk (h0, s0) a) with (h1, a :: s0).
    destruct (IH h1 (a :: s0)) as (I1 & I2 & I3). cbn zeta in I1, I2, I3.
    assert (H1 : same_but_seats h0 h1).
    { unfold h1. destruct (hk a);
        [apply same_but_seats_set_focus|apply same_but_seats_refl]. }
    split; [eapply same_but_seats_trans; eassumption|].
    split.
    + intros seat. rewrite I2. cbn [existsb].
      destruct (hk seat) eqn:Hk; cbn [andb].
      * destruct (existsb (Pos.eqb seat) p); [rewrite orb_true_r; reflexivity|].
        rewrite orb_false_r. unfold h1.
        destruct (Pos.eqb_spec seat a) as [->|Hne].
        -- rewrite Hk, weston_keyboard_set_focus_get, Pos.eqb_refl.
           reflexivity.
        -- destruct (hk a); [|reflexivity].
           rewrite weston_keyboard_set_focus_get.
           destruct (Pos.eqb_spec seat a); [contradiction|reflexivity].
      * unfold h1. destruct (hk a) eqn:Hka; [|reflexivity].
        rewrite weston_keyboard_set_focus_get.
        destruct (Pos.eqb_spec seat a) as [->|]; [congruence|reflexivity].
    + rewrite I3. simpl. rewrite <- app_assoc. reflexivity.
Qed.

Lemma unfocus_all_seats_fold (hk : positive -> bool) (l : list positive) :
  forall h0,
    let h1 := fold_left
                (fun acc seat =>
                   if hk seat then weston_keyboard_set_focus acc seat None
                   else acc) l h0 in
    same_but_seats h0 h1
    /\ (forall seat,
          seat_keyboard_focus (get_seat h1 seat)
          = if hk seat && existsb (Pos.eqb seat) l then None
            else seat_keyboard_focus (get_seat h0 seat)).
Proof.
  induction l as [|a l IH]; intros h0; cbn zeta.
  - simpl. split; [apply same_but_seats_refl|].
    intros seat. rewrite andb_false_r. reflexivity.
  - simpl fold_left.
    set (h1 := if hk a then weston_keyboard_set_focus h0 a None else h0).
    destruct (IH h1) as (I1 & I2). cbn zeta in I1, I2.
    assert (H1 : same_but_seats h0 h1).
    { unfold h1. destruct (hk a);
        [apply same_but_seats_set_focus|apply same_but_seats_refl]. }
    split; [eapply same_but_seats_trans; eassumption|].
    intros seat. rewrite I2. cbn [existsb].
    destruct (hk seat) eqn:Hk; cbn [andb].
    + destruct (existsb (Pos.eqb seat) l); [rewrite orb_true_r; reflexivity|].
      rewrite orb_false_r. unfold h1.
      destruct (Pos.eqb_spec seat a) as [->|Hne].
      * rewrite Hk, weston_keyboard_set_focus_get, Pos.eqb_refl. reflexivity.
      * destruct (hk a); [|reflexivity].
        rewrite weston_keyboard_set_focus_get.
        destruct (Pos.eqb_spec seat a); [contradiction|reflexivity].
    + unfold h1. destruct (hk a) eqn:Hka; [|reflexivity].
      rewrite weston_keyboard_set_focus_get.
      destruct (Pos.eqb_spec seat a) as [->|]; [congruence|reflexivity].
Qed.

Lemma saved_focus_ext (h h' : shell_state) (l : list positive)
    (seat : positive) :
  st_focus_states h' = st_focus_states h ->
  saved_focus h' l seat = saved_focus h l seat.
Proof.
  intros E. unfold saved_focus, get_focus_state. rewrite E. reflexivity.
Qed.

(** Locking and unlocking.  [unfocus_all_seats], which [lock] calls,
    takes the keyboard focus from every seat of the compositor that has a
    keyboard; [restore_focus_state], which [resume_desktop] calls, then
    gives each of them the focus that the last of its focus states in the
    workspace records, and no focus when it has none.  Seats without
    keyboard, the focus states, the stacking and the shell surfaces are
    what they were, and the compositor's seat list holds the same seats
    when it has no duplicates and every focus state belongs to a seat of
    the list. *)
Theorem lock_then_unlock_restores_focus (h : shell_state)
    (has_keyboard : positive -> bool) (seat_list : list positive) :
  let locked := unfocus_all_seats h has_keyboard seat_list in
  let r := restore_focus_state locked has_keyboard seat_list in
  (forall seat, In seat seat_list -> has_keyboard seat = true ->
                seat_keyboard_focus (get_seat locked seat) = None)
  /\ same_but_seats h (fst r)
  /\ (forall seat, In seat seat_list -> has_keyboard seat = true ->
                   seat_keyboard_focus (get_seat (fst r) seat)
                   = match saved_focus h (ws_focus_list h) seat with
                     | Some f => f
                     | None => None
                     end)
  /\ (forall seat, has_keyboard seat = false ->
                   seat_keyboard_focus (get_seat (fst r) seat)
                   = seat_keyboard_focus (get_seat h seat))
  /\ (List.NoDup seat_list ->
      (forall st, In st (ws_focus_list h) ->
                  In (fs_seat (get_focus_state h st)) seat_list) ->
      Permutation (snd r) seat_list).
Proof.
  intros locked r.
  destruct (unfocus_all_seats_fold has_keyboard seat_list h) as (U1 & U2).
  cbn zeta in U1, U2. fold (unfocus_all_seats h has_keyboard seat_list) in U1, U2.
  fold locked in U1, U2.
  pose proof U1 as (UF & UL & _).
  unfold r, restore_focus_state. rewrite UL.
  destruct (restore_focus_fold has_keyboard (ws_focus_list h) locked
              seat_list []) as (R1 & R2 & R3 & R4 & R5).
  cbn zeta in R1, R2, R3, R4, R5.
  set (r1 := fold_left (restore_focus_step has_keyboard) (ws_focus_list h)
               (locked, seat_list, [])) in *.
  destruct (restore_pending_fold has_keyboard (snd (fst r1)) (fst (fst r1))
              (snd r1)) as (P1 & P2 & P3).
  cbn zeta in P1, P2, P3.
  set (r2 := fold_left (restore_pending_step has_keyboard) (snd (fst r1))
               (fst (fst r1), snd r1)) in *.
  assert (Hfs : forall st, get_focus_state locked st = get_focus_state h st)
    by (intros st; unfold get_focus_state; rewrite UF; reflexivity).
  assert (Hpending : forall x,
             In x (snd (fst r1))
             <-> In x seat_list
                 /\ ~ exists st, In st (ws_focus_list h)
                                 /\ fs_seat (get_focus_state h st) = x).
  { intros x. rewrite R3. rewrite filter_In. rewrite negb_true_iff.
    split.
    - intros [Hx He]. split; [exact Hx|].
      intros (st & Hst & E).
      assert (Ht : existsb (fun st => Pos.eqb
                              (fs_seat (get_focus_state locked st)) x)
                           (ws_focus_list h) = true).
      { apply existsb_exists. exists st. split; [exact Hst|].
        rewrite Hfs, E. apply Pos.eqb_refl. }
      congruence.
    - intros [Hx Hn]. split; [exact Hx|].
      apply not_true_false. intros Ht. apply existsb_exists in Ht.
      destruct Ht as (st & Hst & E). apply Pos.eqb_eq in E.
      apply Hn. exists st. split; [exact Hst|]. rewrite <- Hfs. exact E. }
  assert (Hsaved : forall seat,
             saved_focus h (ws_focus_list h) seat = None
             <-> ~ exists st, In st (ws_focus_list h)
                              /\ fs_seat (get_focus_state h st) = seat).
  { intros seat. unfold saved_focus.
    destruct (find _ (rev (ws_focus_list h))) as [st|] eqn:Hf;
      cbn [option_map].
    - apply find_some in Hf. destruct Hf as [Hin E].
      apply Pos.eqb_eq in E. rewrite <- in_rev in Hin.
      split; [discriminate|]. intros Hn. exfalso. apply Hn. eauto.
    - split; [|reflexivity]. intros _ (st & Hst & E).
      assert (Hin : In st (rev (ws_focus_list h)))
        by (rewrite <- in_rev; exact Hst).
      pose proof (find_none _ _ Hf st Hin) as Hno. cbv beta in Hno.
      rewrite E, Pos.eqb_refl in Hno. discriminate. }
  split; [|split; [|split; [|split]]].
  - intros seat Hin Hk. rewrite U2, Hk.
    apply existsb_eqb_in in Hin. rewrite Hin. reflexivity.
  - eapply same_but_seats_trans; [exact U1|].
    eapply same_but_seats_trans; eassumption.
  - intros seat Hin Hk. rewrite P2, Hk. cbn [andb].
    rewrite R2, Hk. rewrite (saved_focus_ext h locked _ seat UF).
    destruct (saved_focus h (ws_focus_list h) seat) as [f|] eqn:Hs.
    + assert (Hnp : existsb (Pos.eqb seat) (snd (fst r1)) = false).
      { apply not_true_false. intros Ht. apply existsb_eqb_in in Ht.
        apply Hpending in Ht. destruct Ht as [_ Hn].
        apply Hsaved in Hn. congruence. }
      rewrite Hnp. reflexivity.
    + assert (Hp : existsb (Pos.eqb seat) (snd (fst r1)) = true).
      { apply existsb_eqb_in. apply Hpending. split; [exact Hin|].
        apply Hsaved. exact Hs. }
      rewrite Hp. reflexivity.
  - intros seat Hk. rewrite P2, Hk. cbn [andb]. rewrite R2, Hk.
    rewrite U2, Hk. reflexivity.
  - intros Hnd Hseats. rewrite P3.
    apply Permutation.NoDup_Permutation.
    + apply List.NoDup_app.
      * apply List.NoDup_rev. rewrite R3. apply List.NoDup_filter. exact Hnd.
      * apply R5. constructor.
      * intros x Hx Hx'. rewrite <- in_rev in Hx. apply Hpending in Hx.
        destruct Hx as [_ Hn]. apply R4 in Hx'.
        destruct Hx' as [[]|(st & Hst & E)]. apply Hn. exists st.
        split; [exact Hst|]. rewrite <- Hfs. exact E.
    + exact Hnd.
    + intros x. rewrite in_app_iff, <- in_rev, Hpending, R4.
      split.
      * intros [[Hx _]|[[]|(st & Hst & E)]]; [exact Hx|].
        rewrite Hfs in E. rewrite <- E. apply Hseats. exact Hst.
      * intros Hx.
        destruct (saved_focus h (ws_focus_list h) x) eqn:Hs.
        -- right. right.
           assert (Hex : exists st, In st (ws_focus_list h)
                                    /\ fs_seat (get_focus_state h st) = x).
           { unfold saved_focus in Hs.
             destruct (find _ (rev (ws_focus_list h))) as [st|] eqn:Hf;
               [|discriminate].
             apply find_some in Hf. destruct Hf as [Hin E].
             apply Pos.eqb_eq in E. rewrite <- in_rev in Hin. eauto. }
           destruct Hex as (st & Hst & E). exists st.
           split; [exact Hst|]. rewrite Hfs. exact E.
        -- left. split; [exact Hx|]. apply Hsaved. exact Hs.
Qed.

(** ** Raising a shell surface *)

Lemma remove_view_app (c : positive) (l1 l2 : list positive) :
  remove_view c (l1 ++ l2) = remove_view c l1 ++ remove_view c l2.
Proof. unfold remove_view. apply List.filter_app. Qed.

Lemma remove_view_cons_ne (c v : positive) (l : list positive) :
  c <> v -> remove_view c (v :: l) = v :: remove_view c l.
Proof.
  intros Hne. unfold remove_view. simpl.
  destruct (Pos.eqb_spec v c) as [->|_]; [contradiction|reflexivity].
Qed.

Lemma insert_after_split (w c v : positive) (pre rest : list positive) :
  exists pre' rest',
    insert_after w c (pre ++ v :: rest) = pre' ++ v :: rest'
    /\ forall x, In x pre' -> In x pre \/ x = c.
Proof.
  induction pre as [|a pre IH]; simpl.
  - destruct (Pos.eqb v w).
    + exists [], (c :: rest). split; [reflexivity|intros x []].
    + exists [], (insert_after w c rest). split; [reflexivity|intros x []].
  - destruct (Pos.eqb a w).
    + exists (a :: c :: pre), rest. split; [reflexivity|].
      intros x [<-|[<-|Hx]]; auto.
    + destruct IH as (pre' & rest' & E & Hp). exists (a :: pre'), rest'.
      split; [simpl; rewrite E; reflexivity|].
      intros x [<-|Hx]; [auto|]. destruct (Hp x Hx); auto.
Qed.

Lemma set_is_mapped_get_other (h : shell_state) (c v : positive) (b : bool) :
  c <> v -> get_view (set_is_mapped h c b) v = get_view h v.
Proof.
  intros Hne. unfold set_is_mapped, get_view. cbn [st_views set_views].
  rewrite lookup_insert_ne by congruence. reflexivity.
Qed.

(** Moving another view, one of [above], leaves [v] raised. *)
Lemma raised_in_move (h : shell_state) (l : layer_id) (v c : positive)
    (above : list positive) (e : option layer_entry) :
  raised_in h l v above -> c <> v -> In c above ->
  raised_in (weston_view_move_to_layer h c e) l v above.
Proof.
  intros (Hm & pre & rest & E & Hp) Hne Hc.
  assert (Hrm : remove_view c (st_layers h l)
                = remove_view c pre ++ v :: remove_view c rest)
    by (rewrite E, remove_view_app, remove_view_cons_ne by exact Hne;
        reflexivity).
  assert (Hpre : forall x, In x (remove_view c pre) -> In x above)
    by (intros x Hx; apply in_remove_view in Hx; apply Hp, Hx).
  destruct e as [[l0|w]|]; unfold weston_view_move_to_layer.
  - split; [rewrite set_is_mapped_get_other by exact Hne; exact Hm|].
    cbn [st_layers set_layers set_is_mapped set_views]. rewrite Hrm.
    destruct (layer_eqb l l0).
    + exists (c :: remove_view c pre), (remove_view c rest).
      split; [reflexivity|]. intros x [<-|Hx]; auto.
    + eauto.
  - destruct (Pos.eqb w c).
    + split; [exact Hm|]. eauto.
    + split; [rewrite set_is_mapped_get_other by exact Hne; exact Hm|].
      cbn [st_layers set_layers set_is_mapped set_views]. rewrite Hrm.
      destruct (insert_after_split w c v (remove_view c pre)
                  (remove_view c rest)) as (pre' & rest' & E' & Hp').
      exists pre', rest'. split; [exact E'|].
      intros x Hx. destruct (Hp' x Hx) as [H| ->]; auto.
  - split; [rewrite set_is_mapped_get_other by exact Hne; exact Hm|].
    cbn [st_layers set_layers set_is_mapped set_views]. rewrite Hrm. eauto.
Qed.

Lemma propagate_layer_raised (l : layer_id) (v : positive)
    (above : list positive) :
  forall t h,
    raised_in h l v above ->
    (forall u, In u (map dv_view (flat_map dv_nodes (dv_children t))) ->
               In u above /\ u <> v) ->
    raised_in (weston_desktop_view_propagate_layer h t) l v above.
Proof.
  induction t as [w s cs IH] using weston_desktop_view_forall_ind.
  intros h Hr Hm. cbn [dv_children] in Hm. simpl.
  induction cs as [|c cs IHl]; [exact Hr|].
  simpl fold_right. inversion IH as [|c' l' IHc IHrest]; subst.
  apply IHc.
  - assert (Hcv : In (dv_view c) above /\ dv_view c <> v).
    { apply Hm. simpl. rewrite map_app, in_app_iff. left.
      destruct c as [wc sc lc]. simpl. left. reflexivity. }
    apply raised_in_move; [|apply Hcv|apply Hcv].
    apply IHl; [exact IHrest|].
    intros u Hu. apply Hm. simpl. rewrite map_app, in_app_iff.
    right. exact Hu.
  - intros u Hu. apply Hm. simpl. rewrite map_app, in_app_iff. left.
    destruct c as [wc sc lc]. simpl. right. exact Hu.
Qed.

Lemma propagate_surface_raised (l : layer_id) (v : positive)
    (role : desktop_role) :
  forall h,
    raised_in h l v (inner_views (role_view_list role)) ->
    ~ In v (inner_views (role_view_list role)) ->
    raised_in (weston_desktop_surface_propagate_layer h role) l v
              (inner_views (role_view_list role)).
Proof.
  unfold weston_desktop_surface_propagate_layer.
  set (above := inner_views (role_view_list role)).
  assert (Hsub : forall u, In u (inner_views (role_view_list role)) ->
                           In u above) by (intros u Hu; exact Hu).
  clearbody above. revert Hsub. unfold inner_views.
  induction (role_view_list role) as [|t ts IH]; intros Hsub h Hr Hv;
    [exact Hr|].
  simpl fold_left. apply IH.
  - intros u Hu. apply Hsub. simpl. rewrite map_app, in_app_iff.
    right. exact Hu.
  - apply propagate_layer_raised; [exact Hr|].
    intros u Hu.
    assert (Hin : In u above)
      by (apply Hsub; simpl; rewrite map_app, in_app_iff; left; exact Hu).
    split; [exact Hin|]. intros ->. contradiction.
  - exact Hv.
Qed.

(** Raising.  [shell_surface_update_layer] on a shell surface with a
    desktop surface, whose own view is not also a view of one of its
    children, always returns; afterwards the view is mapped and in the
    fullscreen layer when the surface is fullscreen and not lowered, in
    the workspace layer otherwise, and the only views stacked above it in
    that layer are views of its child surfaces. *)
Theorem shell_surface_update_layer_raises (h : shell_state) (sh : positive)
    (role : desktop_role) :
  ss_desktop_surface (get_shsurf h sh) = Some role ->
  ~ In (ss_view (get_shsurf h sh)) (inner_views (role_view_list role)) ->
  exists h',
    shell_surface_update_layer h sh = Some h'
    /\ raised_in h'
         (if role_fullscreen role && negb (ss_lowered (get_shsurf h sh))
          then fullscreen_layer else workspace_layer)
         (ss_view (get_shsurf h sh))
         (inner_views (role_view_list role)).
Proof.
  intros Hrole Hv. unfold shell_surface_update_layer,
    shell_surface_calculate_layer_link. rewrite Hrole. cbn [mbind option_bind].
  set (l := if role_fullscreen role && negb (ss_lowered (get_shsurf h sh))
            then fullscreen_layer else workspace_layer).
  set (v := ss_view (get_shsurf h sh)) in *.
  assert (E : (if role_fullscreen role && negb (ss_lowered (get_shsurf h sh))
               then Some (layer_view_list fullscreen_layer)
               else Some (layer_view_list workspace_layer))
              = Some (layer_view_list l))
    by (unfold l; destruct (_ && _); reflexivity).
  rewrite E. cbn [mbind option_bind]. eexists. split; [reflexivity|].
  apply propagate_surface_raised; [|exact Hv].
  split.
  - simpl. unfold set_is_mapped, get_view. cbn [st_views set_views].
    rewrite lookup_insert_eq. reflexivity.
  - exists [], (remove_view v (st_layers h l)). split; [|intros x []].
    simpl. rewrite (proj2 (layer_eqb_eq l l) eq_refl). reflexivity.
Qed.

Lemma shell_surface_update_layer_raises_witness :
  exists h',
    shell_surface_update_layer example_stack 102 = Some h'
    /\ raised_in h' fullscreen_layer 12%positive [].
Proof.
  exact (shell_surface_update_layer_raises example_stack 102
           (mk_role true [DesktopView 12 2 []]) eq_refl
           ltac:(intros [])).
Defined.

(** ** The window switcher *)

Lemma switcher_scan_candidates (h : shell_state) (current : option positive)
    (l : list positive) :
  forall acc,
    fold_left (switcher_scan_step h current) l acc
    = fold_left (scan_candidate current)
        (List.filter (fun v => match view_shsurf h v with
                               | Some _ => true
                               | None => false
                               end) l) acc.
Proof.
  induction l as [|a l IH]; intros acc; [reflexivity|].
  simpl. unfold switcher_scan_step at 2, view_shsurf at 1.
  destruct (get_shell_surface h (view_surface (get_view h a))); simpl;
    apply IH.
Qed.

(** While the view before is not the current one, [next] keeps its
    value. *)
Lemma scan_candidate_quiet (current : option positive) (l : list positive) :
  forall f p nx,
    p <> current ->
    (forall x, In x l -> current <> Some x) ->
    let r := fold_left (scan_candidate current) l (f, p, nx) in
    snd r = nx
    /\ fst (fst r) = match f with
                     | Some _ => f
                     | None => hd_error l
                     end
    /\ snd (fst r) <> current.
Proof.
  induction l as [|a l IH]; intros f p nx Hp Hl; cbn zeta.
  - simpl. repeat split; [destruct f; reflexivity|exact Hp].
  - simpl fold_left.
    assert (E : option_pos_eqb p current = false).
    { apply not_true_false. intros H. apply option_pos_eqb_eq in H.
      contradiction. }
    assert (Es : scan_candidate current (f, p, nx) a
                 = (match f with None => Some a | Some f0 => Some f0 end,
                    Some a, nx))
      by (unfold scan_candidate; cbn [fst snd]; rewrite E; reflexivity).
    rewrite Es.
    destruct (IH (match f with None => Some a | Some f0 => Some f0 end)
                 (Some a) nx) as (I1 & I2 & I3).
    + intros H. apply (Hl a); [left; reflexivity|congruence].
    + intros x Hx. apply Hl. right. exact Hx.
    + cbn zeta in I1, I2, I3. split; [exact I1|]. split; [|exact I3].
      rewrite I2. destruct f; reflexivity.
Qed.

Lemma scan_candidate_first (current : option positive) (l : list positive) :
  forall f p nx,
    fst (fst (fold_left (scan_candidate current) l (f, p, nx)))
    = match f with
      | Some _ => f
      | None => hd_error l
      end.
Proof.
  induction l as [|a l IH]; intros f p nx.
  - simpl. destruct f; reflexivity.
  - simpl fold_left. unfold scan_candidate at 2. cbn [fst snd].
    rewrite IH. destruct f; reflexivity.
Qed.

Lemma in_removelast_cons {A} (a b : A) (l : list A) (x : A) :
  In x (removelast (a :: b :: l)) <-> x = a \/ In x (removelast (b :: l)).
Proof.
  change (removelast (a :: b :: l)) with (a :: removelast (b :: l)).
  simpl. split; intros [H|H]; auto.
Qed.

(** When the current view is not among the candidates before the last,
    the scan leaves [next] alone unless it starts without current view,
    and then it takes the first candidate. *)
Lemma scan_candidate_wrap (current : option positive) (l : list positive) :
  (forall c, current = Some c -> ~ In c (removelast l)) ->
  l <> [] ->
  let r := fold_left (scan_candidate current) l (None, None, None) in
  match snd r with
  | Some n => Some n
  | None => fst (fst r)
  end = hd_error l.
Proof.
  intros Hc Hne. destruct l as [|a l]; [contradiction|]. cbn zeta.
  destruct current as [c|].
  - assert (Hgen : forall l p f,
               p <> Some c ->
               (forall x, In x (removelast l) -> x <> c) ->
               snd (fold_left (scan_candidate (Some c)) l (f, p, None))
               = None).
    { clear. induction l as [|b l IH]; intros p f Hp Hl; [reflexivity|].
      simpl fold_left. unfold scan_candidate at 2. cbn [fst snd].
      assert (E : option_pos_eqb p (Some c) = false).
      { apply not_true_false. intros H. apply option_pos_eqb_eq in H.
        contradiction. }
      rewrite E. destruct l as [|b' l]; [reflexivity|].
      apply IH.
      - intros H. apply (Hl b); [left; reflexivity|congruence].
      - intros x Hx. apply Hl. apply in_removelast_cons. right. exact Hx. }
    rewrite Hgen, scan_candidate_first; [reflexivity|discriminate|].
    intros x Hx ->. exact (Hc c eq_refl Hx).
  - simpl fold_left. unfold scan_candidate at 2. cbn [fst snd option_pos_eqb].
    destruct (scan_candidate_quiet None l (Some a) (Some a) (Some a))
      as (I1 & _); [discriminate|intros x _; discriminate|].
    cbn zeta in I1. rewrite I1. reflexivity.
Qed.

(** With the current view in the list and a candidate after it, the scan
    takes that one. *)
Lemma scan_candidate_step (c n : positive) (pre post : list positive) :
  List.NoDup (pre ++ c :: n :: post) ->
  snd (fold_left (scan_candidate (Some c)) (pre ++ c :: n :: post)
                 (None, None, None))
  = Some n.
Proof.
  intros Hnd. rewrite fold_left_app.
  assert (Hpre : forall x, In x pre -> Some c <> Some x).
  { intros x Hx E. injection E as <-.
    apply List.NoDup_remove_2 in Hnd. apply Hnd, in_app_iff. left. exact Hx. }
  destruct (scan_candidate_quiet (Some c) pre None None None)
    as (I1 & _ & I3); [discriminate|exact Hpre|].
  cbn zeta in I1, I3.
  destruct (fold_left (scan_candidate (Some c)) pre (None, None, None))
    as [[f p] nx]. cbn [fst snd] in I1, I3. subst nx.
  simpl fold_left. unfold scan_candidate at 3. cbn [fst snd].
  assert (E : option_pos_eqb p (Some c) = false).
  { apply not_true_false. intros H. apply option_pos_eqb_eq in H.
    contradiction. }
  rewrite E. unfold scan_candidate at 2. cbn [fst snd option_pos_eqb].
  rewrite Pos.eqb_refl.
  apply List.NoDup_remove_2 in Hnd.
  destruct (scan_candidate_quiet (Some c) post
              (match match f with None => Some c | Some f0 => Some f0 end with
               | None => Some n | Some f0 => Some f0 end)
              (Some n) (Some n)) as (J1 & _).
  - intros H. injection H as ->. apply Hnd, in_app_iff. right. left.
    reflexivity.
  - intros x Hx H. injection H as <-. apply Hnd, in_app_iff.
    right. right. exact Hx.
  - exact J1.
Qed.

Lemma move_minimized_fold (l : list positive) :
  forall h,
    let h1 := fold_left
                (fun acc v =>
                   weston_view_move_to_layer acc v
                     (Some (layer_view_list workspace_layer)))
                l h in
    st_layers h1 minimized_layer
    = List.filter (fun x => negb (existsb (Pos.eqb x) l))
                  (st_layers h minimized_layer)
    /\ (List.NoDup (st_layers h workspace_layer) ->
        List.NoDup (st_layers h1 workspace_layer)).
Proof.
  induction l as [|a l IH]; intros h; cbn zeta.
  - simpl. split; [|tauto].
    induction (st_layers h minimized_layer) as [|x r IHr]; [reflexivity|].
    simpl. rewrite <- IHr. reflexivity.
  - cbn [fold_left].
    set (h0 := weston_view_move_to_layer h a
                 (Some (layer_view_list workspace_layer))).
    destruct (IH h0) as (I1 & I2). cbn zeta in I1, I2. split.
    + rewrite I1. unfold h0, weston_view_move_to_layer.
      cbn [st_layers set_layers set_is_mapped set_views layer_eqb].
      unfold remove_view.
      induction (st_layers h minimized_layer) as [|x r IHr]; [reflexivity|].
      simpl. rewrite (Pos.eqb_sym x a).
      destruct (Pos.eqb a x); simpl; [exact IHr|].
      destruct (existsb (Pos.eqb x) l); simpl; [exact IHr|].
      rewrite IHr. reflexivity.
    + intros Hnd. apply I2. unfold h0, weston_view_move_to_layer.
      cbn [st_layers set_layers set_is_mapped set_views layer_eqb].
      apply List.NoDup_cons.
      * intros Hin. apply in_remove_view in Hin. destruct Hin as [_ Hn].
        apply Hn. reflexivity.
      * unfold remove_view. apply List.NoDup_filter. exact Hnd.
Qed.

Lemma filter_members_nil (l m : list positive) :
  (forall x, In x m -> In x l) ->
  List.filter (fun x => negb (existsb (Pos.eqb x) l)) m = [].
Proof.
  induction m as [|a m IH]; intros Hm; [reflexivity|].
  simpl. rewrite (proj2 (existsb_eqb_in a l)) by (apply Hm; left; reflexivity).
  simpl. apply IH. intros x Hx. apply Hm. right. exact Hx.
Qed.

Lemma scan_candidate_members (current : option positive)
    (l : list positive) :
  forall f p nx x,
    let r := fold_left (scan_candidate current) l (f, p, nx) in
    (snd r = Some x -> nx = Some x \/ In x l)
    /\ (fst (fst r) = Some x -> f = Some x \/ In x l).
Proof.
  induction l as [|a l IH]; intros f p nx x; cbn zeta; [simpl; auto|].
  simpl fold_left.
  destruct (IH (match f with None => Some a | Some f0 => Some f0 end)
               (Some a)
               (if option_pos_eqb p current then Some a else nx) x)
    as [I1 I2].
  cbn zeta in I1, I2. unfold scan_candidate at 2 4. cbn [fst snd]. split.
  - intros E. destruct (I1 E) as [H|H]; [|right; right; exact H].
    destruct (option_pos_eqb p current); [|left; exact H].
    injection H as ->. right. left. reflexivity.
  - intros E. destruct (I2 E) as [H|H]; [|right; right; exact H].
    destruct f; [left; exact H|].
    injection H as ->. right. left. reflexivity.
Qed.

Lemma move_minimized_frame (l : list positive) :
  forall h,
    let h1 := fold_left
                (fun acc v =>
                   weston_view_move_to_layer acc v
                     (Some (layer_view_list workspace_layer)))
                l h in
    (forall x, get_shsurf h1 x = get_shsurf h x)
    /\ (forall v, view_shsurf h1 v = view_shsurf h v)
    /\ (forall v, In v (st_layers h1 workspace_layer) ->
                  In v (st_layers h workspace_layer) \/ In v l).
Proof.
  induction l as [|a l IH]; intros h; cbn zeta; [simpl; auto|].
  cbn [fold_left].
  set (h0 := weston_view_move_to_layer h a
               (Some (layer_view_list workspace_layer))).
  destruct (IH h0) as (I1 & I2 & I3). cbn zeta in I1, I2, I3.
  split; [|split].
  - intros x. rewrite I1. apply move_to_layer_get_shsurf.
  - intros v. rewrite I2. unfold view_shsurf, get_shell_surface, h0.
    rewrite move_to_layer_view_surface, move_to_layer_get_surface.
    reflexivity.
  - intros v Hv. destruct (I3 v Hv) as [H|H]; [|right; right; exact H].
    destruct (Pos.eq_dec v a) as [->|Hne]; [right; left; reflexivity|].
    left.
    apply (move_to_layer_other h a v
             (Some (layer_view_list workspace_layer)) workspace_layer Hne).
    exact H.
Qed.

(** Switching windows.  When [wl_array_add] finds memory and every shell
    surface with a view in the workspace or the minimized layer has its
    desktop surface, and its black curtain when it is fullscreen,
    [switcher_next] returns with the minimized layer empty, its views
    remembered in [minimized_array].  It selects the candidate that
    follows the current view in the workspace layer; when the current
    view is the last candidate, is no candidate, or when there is no
    current view yet, it selects the first candidate; without any
    candidate the selection stays. *)
Theorem switcher_next_cycles (h : shell_state) (sw : switcher) :
  List.NoDup (st_layers h workspace_layer) ->
  switcher_ready h ->
  exists h' sw',
    switcher_next h sw true = Some (h', sw')
    /\ st_layers h' minimized_layer = []
    /\ sw_minimized_array sw'
       = sw_minimized_array sw ++ st_layers h minimized_layer
    /\ (switcher_candidates h' = [] -> sw_current sw' = sw_current sw)
    /\ (forall pre c n post,
          sw_current sw = Some c ->
          switcher_candidates h' = pre ++ c :: n :: post ->
          sw_current sw' = Some n)
    /\ ((forall c, sw_current sw = Some c ->
                   ~ In c (removelast (switcher_candidates h'))) ->
        switcher_candidates h' <> [] ->
        sw_current sw' = hd_error (switcher_candidates h')).
Proof.
  intros Hnd Hready. unfold switcher_next.
  destruct (move_minimized_fold (st_layers h minimized_layer) h)
    as (M1 & M2). cbn zeta in M1, M2. specialize (M2 Hnd).
  destruct (move_minimized_frame (st_layers h minimized_layer) h)
    as (F1 & F2 & F3). cbn zeta in F1, F2, F3.
  set (h1 := fold_left
               (fun acc v =>
                  weston_view_move_to_layer acc v
                    (Some (layer_view_list workspace_layer)))
               (st_layers h minimized_layer) h) in *.
  rewrite switcher_scan_candidates. fold (switcher_candidates h1).
  set (cands := switcher_candidates h1).
  assert (Hcn : List.NoDup cands)
    by (apply List.NoDup_filter; exact M2).
  set (r := fold_left (scan_candidate (sw_current sw)) cands
              (None, None, None)).
  set (next := match snd r with Some n => Some n | None => fst (fst r) end).
  set (array := sw_minimized_array sw ++ st_layers h minimized_layer).
  assert (Hsel : forall n, next = Some n ->
                           switcher_select h1 array n
                           = Some (h1, mk_switcher (Some n) array)).
  { intros n Hn.
    assert (Hin : In n cands).
    { destruct (scan_candidate_members (sw_current sw) cands None None None n)
        as [S1 S2]. cbn zeta in S1, S2. fold r in S1, S2.
      unfold next in Hn. destruct (snd r) as [x|].
      - injection Hn as ->. destruct (S1 eq_refl) as [H|H];
          [discriminate|exact H].
      - destruct (S2 Hn) as [H|H]; [discriminate|exact H]. }
    unfold cands, switcher_candidates in Hin. apply filter_In in Hin.
    destruct Hin as [Hl Hsh].
    destruct (view_shsurf h1 n) as [sh|] eqn:Hv; [|discriminate].
    rewrite F2 in Hv.
    destruct (Hready n sh (F3 n Hl) Hv) as (role & Hrole & Hblack).
    unfold switcher_select.
    change (get_shell_surface h1 (view_surface (get_view h1 n)))
      with (view_shsurf h1 n).
    rewrite F2, Hv, F1, Hrole.
    destruct (role_fullscreen role); [|reflexivity].
    destruct (Hblack eq_refl) as [b ->]. reflexivity. }
  assert (Hres : exists sw',
             (match st_layers h minimized_layer, true with
              | _ :: _, false => None
              | _, _ =>
                match next with
                | None => Some (h1, mk_switcher (sw_current sw) array)
                | Some n => switcher_select h1 array n
                end
              end) = Some (h1, sw')
             /\ sw_minimized_array sw' = array
             /\ sw_current sw' = match next with
                                 | None => sw_current sw
                                 | Some n => Some n
                                 end).
  { destruct next as [n|].
    - rewrite (Hsel n eq_refl).
      destruct (st_layers h minimized_layer); eexists;
        (split; [reflexivity|split; reflexivity]).
    - destruct (st_layers h minimized_layer); eexists;
        (split; [reflexivity|split; reflexivity]). }
  destruct Hres as (sw' & E & Ha & Hc).
  exists h1, sw'. split; [exact E|].
  split.
  { rewrite M1. apply filter_members_nil. intros x Hx. exact Hx. }
  split; [exact Ha|]. rewrite Hc. fold cands. clear Hsel. clearbody cands.
  split; [|split].
  - intros E0. unfold next, r. rewrite E0. reflexivity.
  - intros pre c n post Hcur Hsplit. unfold next, r.
    rewrite Hcur, Hsplit. rewrite scan_candidate_step; [reflexivity|].
    rewrite <- Hsplit. exact Hcn.
  - intros Hlast Hne.
    pose proof (scan_candidate_wrap (sw_current sw) cands Hlast Hne) as W.
    cbn zeta in W. fold r in W. fold next in W. rewrite W.
    destruct cands; [contradiction|reflexivity].
Qed.

Lemma example_stack_switcher_ready :
  switcher_ready (lower_fullscreen_layer example_stack None).
Proof.
  intros v sh Hv Hsh.
  assert (Hcases : v = 12%positive \/ v = 13%positive \/ v = 11%positive).
  { destruct Hv as [Hv|Hv]; vm_compute in Hv; intuition auto. }
  destruct Hcases as [->|[->| ->]]; vm_compute in Hsh;
    injection Hsh as <-.
  - exists (mk_role true [DesktopView 12 2 []]).
    split; [vm_compute; reflexivity|]. intros _. exists 22%positive.
    vm_compute. reflexivity.
  - exists (mk_role true [DesktopView 13 3 []]).
    split; [vm_compute; reflexivity|]. intros _. exists 23%positive.
    vm_compute. reflexivity.
  - exists (mk_role false [DesktopView 11 1 []]).
    split; [vm_compute; reflexivity|]. intros Hfs. discriminate Hfs.
Qed.

Lemma switcher_next_cycles_witness :
  exists h' sw',
    switcher_next (lower_fullscreen_layer example_stack None)
                  (mk_switcher None []) true = Some (h', sw')
    /\ st_layers h' minimized_layer = [].
Proof.
  destruct (switcher_next_cycles (lower_fullscreen_layer example_stack None)
              (mk_switcher None [])
              ltac:(vm_compute;
                    repeat (apply List.NoDup_cons;
                            [simpl; intuition congruence|]);
                    apply List.NoDup_nil)
              example_stack_switcher_ready)
    as (h' & sw' & H1 & H2 & _).
  exists h', sw'. split; [exact H1|exact H2].
Defined.

(** A fullscreen window that has no black curtain, as one whose
    activation went to a mapped child: when the switcher selects its
    view, [switcher_next] does not return. *)
Example switcher_next_fullscreen_without_curtain :
  let h := update_shsurf (lower_fullscreen_layer example_stack None) 102
                         (set_black_view None) in
  switcher_candidates h = [12; 13; 11]%positive
  /\ switcher_next h (mk_switcher None []) true = None
  /\ is_Some (switcher_next h (mk_switcher (Some 12%positive) []) true).
Proof.
  split; [vm_compute; reflexivity|]. split; [vm_compute; reflexivity|].
  vm_compute. eexists. reflexivity.
Qed.

Example switcher_next_example :
  option_map (fun r => (switcher_candidates (fst r), sw_current (snd r)))
    (switcher_next (lower_fullscreen_layer example_stack None)
                   (mk_switcher (Some 12%positive) []) true)
  = Some ([12; 13; 11]%positive, Some 13%positive).
Proof. vm_compute. reflexivity. Qed.

(** ** Destruction of a view *)

(** Destroying a view.  [weston_desktop_view_destroy] leaves the desktop
    surfaces as they are and no view of that [weston_view] in the forest,
    adding none.  The [weston_view]s it destroys all belong to views that
    hang under a parent view, so that the [weston_view] of a view without
    parent is left to whoever created it; and every view under a parent
    is still there afterwards or has had its [weston_view] destroyed. *)
Theorem weston_desktop_view_destroy_views (d : weston_desktop)
    (w : positive) :
  dsurfaces (weston_desktop_view_destroy d w) = dsurfaces d
  /\ (forall x, In x (forest_labels (dviews (weston_desktop_view_destroy d w)))
                -> In x (forest_labels (dviews d)) /\ fst x <> w)
  /\ exists destroyed,
       devents (weston_desktop_view_destroy d w)
       = devents d ++ map ev_weston_view_destroy destroyed
       /\ (forall v, In v destroyed ->
                     In v (map fst (inner_labels (dviews d))))
       /\ (forall x, In x (inner_labels (dviews d)) ->
                     In x (inner_labels
                             (dviews (weston_desktop_view_destroy d w)))
                     \/ In (fst x) destroyed).
Proof.
  split; [reflexivity|]. split.
  - intros x Hx. apply (forest_remove_labels w (dviews d) x Hx).
  - exists (flat_map (dv_destroyed w false) (dviews d)).
    split; [reflexivity|]. split.
    + intros v Hv. apply in_flat_map in Hv. destruct Hv as (t & Ht & Hvt).
      apply dv_destroyed_sub in Hvt. apply in_map_iff in Hvt.
      destruct Hvt as (y & Hy & Hyt). apply in_map_iff. exists y.
      split; [exact Hy|]. unfold inner_labels. apply in_flat_map.
      exists t. split; assumption.
    + intros x Hx. apply forest_remove_accounts. exact Hx.
Qed.
